(** * LibreLinkUp poller: a shallow embedding of the polling server

    The repository holds three revisions of one Node.js program.
    [main_server.js] is the current one (adaptive scheduler, since-last trend,
    colour names); an intermediate revision caches the resolved patient in
    [cache.json]; the oldest one polls on a fixed timer.  The code shared by
    the revisions is embedded once, at top level; what differs lives in the
    modules [MainServer] and [PatientCache].

    Conventions of the embedding:
    - a JavaScript number that the program only uses as an integer (time
      values in milliseconds, mg/dL values, status codes) is a [Z]; the
      difference of two time values is rounded to binary64
      ([round_binary64]), and the mmol/L conversion is carried out in
      binary64, on [float];
    - a [Date] is its time value, [None] standing for NaN (Invalid Date);
      time values are clipped to the range of [Date], 8.64e15 ms either side
      of the epoch ([TimeClip]); the local zone is given by its rules, the
      field [tz] of the platform;
    - a timer armed with a delay that is NaN, below 1 ms or above
      2^31 - 1 ms fires after 1 ms ([setTimeout]);
    - the document of [cache.json] is whatever JSON value the file holds: an
      object, an array, a scalar or [null] ([CacheDoc]);
    - a property that may be missing is an [option]; JavaScript truthiness of
      such a property is [truthy];
    - [async] code is sequential code in the monad [M] of state and
      exceptions; the two unbounded [while] loops of the login flow take
      fuel. *)

From Stdlib Require Import ZArith QArith Qround Qabs Bool String Ascii List Lia DecimalString DecimalPos DecimalZ.
From Stdlib Require Import Floats Uint63.
Import ListNotations.
Open Scope string_scope.
Open Scope Z_scope.

(** ** JavaScript basics *)

(** Truthiness of an optional string property: [undefined] and the empty
    string are falsy. *)
Definition truthy (s : option string) : bool :=
  match s with
  | Some s => negb (s =? EmptyString)%string
  | None => false
  end.

(** [x === n] for a property that may be missing and a number [n]. *)
Definition strict_eq (x : option Z) (n : Z) : bool :=
  match x with
  | Some z => z =? n
  | None => false
  end.

(** [`${x}`] for an integer. *)
Definition show_Z (z : Z) : string := NilZero.string_of_int (Z.to_int z).

(** [`${x}`] for an optional string property. *)
Definition show_prop (s : option string) : string :=
  match s with
  | Some s => s
  | None => "undefined"
  end.

(** A [Date]: its time value in milliseconds since the epoch, or NaN. *)
Definition JSDate := option Z.

Definition msPerDay : Z := 86400000.

(** The largest time value of a [Date], 100 000 000 days from the epoch. *)
Definition maxTime : Z := 8640000000000000.

(** The engine's TimeClip: a time value out of range makes an Invalid
    Date. *)
Definition TimeClip (t : Z) : JSDate :=
  if Z.abs t <=? maxTime then Some t else None.

(** [new Date(value)] for a number: NaN and the values out of range make
    an Invalid Date. *)
Definition Date_of_value (value : option Z) : JSDate :=
  match value with
  | Some t => TimeClip t
  | None => None
  end.

(** The integer that the binary64 number nearest to the integer [z] holds
    (ties to even): [z] itself below 2^53, and a multiple of a power of two
    above.  It is the value of an addition or subtraction of two integers
    whose exact result is [z]. *)
Definition round_binary64 (z : Z) : Z :=
  let a := Z.abs z in
  if a <? 2 ^ 53 then z
  else
    let e := Z.log2 a - 52 in
    let q := a / 2 ^ e in
    let r := a mod 2 ^ e in
    let half := 2 ^ (e - 1) in
    let q := if (r <? half) || ((r =? half) && Z.even q) then q else q + 1 in
    Z.sgn z * (q * 2 ^ e).

(** The delay, in ms, after which Node's [setTimeout(f, delay)] calls [f]:
    a delay that is NaN, below 1 or above 2^31 - 1 is replaced by 1. *)
Definition setTimeout (delay : option Z) : Z :=
  match delay with
  | Some d => if (1 <=? d) && (d <=? 2147483647) then d else 1
  | None => 1
  end.

(** A local zone that is always [offset] ms ahead of UTC. *)
Definition fixed_zone (offset : Z) : Z -> bool -> Z := fun _ _ => offset.

(** Civil date (year, month 1..12, day 1..31) of a day number counted from
    1970-01-01, proleptic Gregorian calendar. *)
Definition civil_from_days (days : Z) : Z * Z * Z :=
  let z := days + 719468 in
  let era := z / 146097 in
  let doe := z - era * 146097 in
  let yoe := (doe - doe / 1460 + doe / 36524 - doe / 146096) / 365 in
  let doy := doe - (365 * yoe + yoe / 4 - yoe / 100) in
  let mp := (5 * doy + 2) / 153 in
  let d := doy - (153 * mp + 2) / 5 + 1 in
  let m := if mp <? 10 then mp + 3 else mp - 9 in
  let y := yoe + era * 400 in
  ((if m <=? 2 then y + 1 else y), m, d).

(** Day number of the first day of month index [mi] (0..11) of year [y],
    plus [d - 1]: the engine's MakeDay. *)
Definition days_from_civil (y mi d : Z) : Z :=
  let y := y + mi / 12 in
  let m := mi mod 12 + 1 in
  let y := if m <=? 2 then y - 1 else y in
  let era := y / 400 in
  let yoe := y - era * 400 in
  let doy := (153 * (if 2 <? m then m - 3 else m + 9) + 2) / 5 in
  let doe := yoe * 365 + yoe / 4 - yoe / 100 + doy in
  era * 146097 + doe - 719468 + (d - 1).

Section LocalTime.

(** The local zone, by its rules: [tz t true] is the offset from UTC, in
    ms, in force at the instant [t], and [tz t false] the one in force when
    the local clock shows [t] (the engine's LocalTZA).  Local time is
    [t + tz t true]; the instant of a local time [t] is [t - tz t false]. *)
Variable tz : Z -> bool -> Z.

(** [d.toLocaleDateString()] in the en-US form of the source's comment,
    ["1/29/2025"]. *)
Definition toLocaleDateString (d : JSDate) : string :=
  match d with
  | None => "Invalid Date"
  | Some t =>
      let '(y, m, dd) := civil_from_days ((t + tz t true) / msPerDay) in
      show_Z m ++ "/" ++ show_Z dd ++ "/" ++ show_Z y
  end.

(** [new Date(year, monthIndex, day, hour, minute, second)]: local time
    components; any NaN component gives an Invalid Date, a year in 0..99
    means 1900 + year, and the instant is clipped to the range of [Date].
    The components are exact integers. *)
Definition Date_of_components (year monthIndex day hour minute second : option Z) : JSDate :=
  match year, monthIndex, day, hour, minute, second with
  | Some y, Some mi, Some d, Some h, Some mn, Some s =>
      let y := if (0 <=? y) && (y <=? 99) then 1900 + y else y in
      let local := days_from_civil y mi d * msPerDay
                   + h * 3600000 + mn * 60000 + s * 1000 in
      TimeClip (local - tz local false)
  | _, _, _, _, _, _ => None
  end.

End LocalTime.

(** ** Arrow logic (main_server.js, 209-243) *)

Definition arrowToEmoji (num : Z) : string :=
  match num with
  | 1 => "⬇️"
  | 2 => "↘️"
  | 3 => "➡️"
  | 4 => "↗️"
  | 5 => "⬆️"
  | _ => "❓"
  end.

Definition computeSinceLastTrendArrowNumber (diff : Z) : Z :=
  if diff =? 0 then 3                          (* stable *)
  else if (0 <? diff) && (diff <=? 5) then 4   (* slight up *)
  else if 5 <? diff then 5                     (* up *)
  else if (diff <? 0) && (-5 <=? diff) then 2  (* slight down *)
  else 1.                                      (* down *)

Definition measurementColorName (num : Z) : string :=
  match num with
  | 1 => "green"
  | 2 => "yellow"
  | 3 => "orange"
  | 4 => "red"
  | _ => "unknown"
  end.

(** ** Unit conversion (main_server.js, 408) *)

(** The binary64 number nearest to an integer (ties to even): what the
    engine makes of an integer literal. *)
Definition double_of_Z (z : Z) : float := SF2Prim (binary_normalize prec emax z 0 false).

(** [Math.round]: the nearest integer, ties towards +infinity, computed
    exactly from the mantissa and the exponent of [x]; the result is -0 for
    [x] in [-1/2, 0); integral numbers, zeros, infinities and NaN are
    returned as they are. *)
Definition Math_round (x : float) : float :=
  match Prim2SF x with
  | S754_finite s m e =>
      if 0 <=? e then x
      else
        let mantissa := if s then Z.neg m else Z.pos m in
        let n := (2 * mantissa + 2 ^ (- e)) / 2 ^ (- e + 1) in    (* floor (x + 1/2) *)
        if n =? 0 then (if s then (-0)%float else 0%float) else double_of_Z n
  | _ => x
  end.

(** [Math.round((latest.ValueInMgPerDl / 18) * 10) / 10], in binary64
    arithmetic. *)
Definition mmolVal (valueInMgPerDl : Z) : float :=
  (Math_round (double_of_Z valueInMgPerDl / 18 * 10) / 10)%float.





(** ** Strings of the upstream timestamp (main_server.js, 249-264) *)

(** [s.split(sep)] for a one-character separator. *)
Fixpoint split (sep : ascii) (s : string) : list string :=
  match s with
  | EmptyString => [EmptyString]
  | String c rest =>
      if Ascii.eqb c sep then EmptyString :: split sep rest
      else match split sep rest with
           | h :: t => String c h :: t
           | [] => [String c EmptyString]
           end
  end.

Definition is_digit (c : ascii) : bool :=
  let n := nat_of_ascii c in (48 <=? n)%nat && (n <=? 57)%nat.

Definition digit_value (c : ascii) : Z := Z.of_nat (nat_of_ascii c) - 48.

(** White space, restricted to the ASCII characters TAB, LF, VT, FF, CR, SP. *)
Definition is_space (c : ascii) : bool :=
  let n := nat_of_ascii c in ((9 <=? n)%nat && (n <=? 13)%nat) || (n =? 32)%nat.

Fixpoint skip_spaces (s : string) : string :=
  match s with
  | String c rest => if is_space c then skip_spaces rest else s
  | EmptyString => EmptyString
  end.

(** The longest prefix of decimal digits, read with accumulator [acc];
    [seen] tells whether a digit was read; the unread rest is returned. *)
Fixpoint read_digits (s : string) (acc : Z) (seen : bool) : Z * bool * string :=
  match s with
  | String c rest =>
      if is_digit c then read_digits rest (10 * acc + digit_value c) true
      else (acc, seen, s)
  | EmptyString => (acc, seen, s)
  end.

Definition read_sign (s : string) : Z * string :=
  match s with
  | String "-" rest => (-1, rest)
  | String "+" rest => (1, rest)
  | _ => (1, s)
  end.

(** [parseInt(x, 10)], [None] for NaN; [x] may be [undefined]. *)
Definition parseInt10 (x : option string) : option Z :=
  match x with
  | None => None
  | Some s =>
      let '(sign, s) := read_sign (skip_spaces s) in
      let '(n, seen, _) := read_digits s 0 false in
      if seen then Some (sign * n) else None
  end.

(** Unary [+x], [None] for NaN.  A blank string is 0; of the numeric
    literals only signed decimal integers are read (fractions, exponents,
    radix prefixes and [Infinity] are not: they never occur in the upstream
    format "M/D/YYYY"). *)
Definition toNumber (x : option string) : option Z :=
  match x with
  | None => None
  | Some s =>
      match skip_spaces s with
      | EmptyString => Some 0
      | s =>
          let '(sign, s) := read_sign s in
          let '(n, seen, rest) := read_digits s 0 false in
          match skip_spaces rest with
          | EmptyString => if seen then Some (sign * n) else None
          | _ => None
          end
      end
  end.

(** [s.toUpperCase()], on ASCII letters. *)
Definition upper_ascii (c : ascii) : ascii :=
  let n := nat_of_ascii c in
  if (97 <=? n)%nat && (n <=? 122)%nat then ascii_of_nat (n - 32) else c.

Fixpoint toUpperCase (s : string) : string :=
  match s with
  | String c rest => String (upper_ascii c) (toUpperCase rest)
  | EmptyString => EmptyString
  end.

(** ** Exceptions and outcomes *)

Inductive Exn : Type :=
| RedirectWithoutRegion              (* Error('redirect=true but no region specified') *)
| MissingStepOrToken                 (* Error('Missing step type or token for status=4') *)
| LoginStatus (got : option Z)       (* Error(`Login flow did not reach status=0 (got ...)`) *)
| ConnectionsStatus (got : option Z) (* Error(`Fetching /llu/connections => status=...`) *)
| CgmStatus (got : option Z)         (* Error(`CGM data => status=...`) *)
| TypeError                          (* a property read on undefined or null *)
| RangeError                         (* toISOString of an Invalid Date *)
| RequestFailed.                     (* the axios promise rejects *)

(** What running a piece of the program gives: a value, an exception, or
    nothing yet when the fuel of a [while] loop ran out. *)
Inductive Outcome (A : Type) : Type :=
| Returned (a : A)
| Thrown (e : Exn)
| OutOfFuel.

Arguments Returned {A} & a.
Arguments Thrown {A} e.
Arguments OutOfFuel {A}.

(** ** Data exchanged with the upstream service *)

Inductive Method : Type := GET | POST.

(** The headers the program sets on top of the fixed ones of [apiClient]. *)
Record Headers : Type := {
  Authorization : option string;
  Account_Id : option string;
  patientid : option string }.

Definition no_headers : Headers :=
  {| Authorization := None; Account_Id := None; patientid := None |}.

Record Request : Type := {
  req_method : Method;
  req_base : string;                    (* apiClient.defaults.baseURL *)
  req_path : string;
  req_headers : Headers;
  req_body : option (string * string) } (* { email, password } *).

Record AuthTicket : Type := { ticket_token : option string }.
Record User : Type := { user_id : option string }.

Record LoginData : Type := {
  redirect : bool;                      (* truthiness of data.redirect *)
  region : option string;
  step_type : option string;            (* data.step?.type *)
  authTicket : option AuthTicket;
  user : option User }.

Record LoginResp : Type := {
  login_status : option Z;
  login_data : option LoginData }.

Record Sensor : Type := { sn : string; a : Z; pt : Z }.

Record Connection : Type := {
  patientId : option string;
  firstName : option string;
  lastName : option string;
  sensor : option Sensor }.

Record ConnectionsResp : Type := {
  conn_status : option Z;
  conn_data : option (list Connection) }.

Record GlucoseMeasurement : Type := {
  Timestamp : string;                   (* "1/5/2025 10:33:54 PM" *)
  ValueInMgPerDl : Z;
  TrendArrow : Z;
  MeasurementColor : option Z }.

(** [data.connection.glucoseMeasurement] of the graph response, with every
    level optional. *)
Record GraphConnection : Type := { glucoseMeasurement : option GlucoseMeasurement }.
Record GraphData : Type := { connection : option GraphConnection }.

Record GraphResp : Type := {
  graph_status : option Z;
  graph_data : option GraphData }.

(** ** Persisted documents *)

(** The text of a store file, up to what [JSON.parse] makes of it: [Json v]
    is a text that parses to [v] (such as the one [JSON.stringify(v)]
    writes), [Garbage raw] a text on which [JSON.parse] throws. *)
Inductive Content (A : Type) : Type :=
| Garbage (raw : string)
| Json (v : A).

Arguments Garbage {A} raw.
Arguments Json {A} & v.

Definition JSON_parse {A : Type} (text : Content A) : option A :=
  match text with
  | Json v => Some v
  | Garbage _ => None
  end.

(** The object of [cache.json]. *)
Record CacheObj : Type := {
  cache_token : option string;
  cache_userId : option string;
  cache_accountIdHash : option string;
  cache_patientId : option string;
  cache_firstName : option string;
  cache_lastName : option string;
  cache_sensor : option Sensor }.

(** [{}] *)
Definition empty_cache : CacheObj :=
  {| cache_token := None; cache_userId := None; cache_accountIdHash := None;
     cache_patientId := None; cache_firstName := None; cache_lastName := None;
     cache_sensor := None |}.

(** What [JSON.parse] makes of the text of [cache.json], and what the
    program then holds in [cacheObj]: an object with its keys; an array (the
    text of its elements, and the keys that the program has set on it, which
    [JSON.stringify] leaves out); a number, a string or a boolean, on which a
    property reads as [undefined] and an assignment is ignored; or [null],
    on which a property read throws. *)
Inductive CacheDoc : Type :=
| CObject (keys : CacheObj)
| CArray (elements : string) (keys : CacheObj)
| CScalar (text : string)
| CNull.

Coercion CObject : CacheObj >-> CacheDoc.

#[local] Arguments Some {A} & a.
#[local] Arguments pair {A B} & a b.

(** The keys read on [cacheObj]; none can be read on [null]. *)
Definition is_null (cacheObj : CacheDoc) : bool :=
  match cacheObj with
  | CNull => true
  | _ => false
  end.

Definition keys_of (cacheObj : CacheDoc) : CacheObj :=
  match cacheObj with
  | CObject keys | CArray _ keys => keys
  | CScalar _ | CNull => empty_cache
  end.

(** Assignments to keys of [cacheObj]. *)
Definition assign (f : CacheObj -> CacheObj) (cacheObj : CacheDoc) : CacheDoc :=
  match cacheObj with
  | CObject keys => CObject (f keys)
  | CArray elements keys => CArray elements (f keys)
  | CScalar text => CScalar text
  | CNull => CNull
  end.

(** What the text [JSON.stringify(obj, null, 2)] parses to. *)
Definition JSON_stringify (obj : CacheDoc) : CacheDoc :=
  match obj with
  | CArray elements _ => CArray elements empty_cache
  | _ => obj
  end.

(** An item of [latestMeasurements.json].  [m_Timestamp] is the Date that
    [new Date(m.Timestamp)] builds from the stored stamp: [None] when it is
    no date at all. *)
Record Measurement : Type := {
  m_Timestamp : JSDate;
  m_ValueInMgPerDl : Z;
  m_TrendArrow : Z }.

(** What [latestMeasurements.json] parses to. *)
Inductive LogDoc : Type :=
| JArray (arr : list Measurement)
| JOther.

(** ** The published snapshot ([memoryData]) *)

Record PatientInfo : Type := {
  info_firstName : option string;
  info_lastName : option string;
  info_patientId : option string }      (* absent in main_server.js *).

Record SensorInfo : Type := {
  info_sn : string;
  activationUnix : Z;
  activationDate : JSDate;              (* shown through toLocaleString() *)
  ptName : string }.

(** A measurement view; [V] is [Z] for mg/dL and [float] for mmol/L.  The last
    three keys exist in main_server.js only. *)
Record MeasurementView (V : Type) : Type := {
  view_Timestamp : Z;
  view_Value : V;
  view_TrendArrow : Z;
  TrendArrowEmoji : string;
  SinceLastTrendArrow : option string;
  view_MeasurementColor : option Z;
  MeasurementColorName : option string }.

Arguments view_Timestamp {V} _.
Arguments view_Value {V} _.
Arguments view_TrendArrow {V} _.
Arguments TrendArrowEmoji {V} _.
Arguments SinceLastTrendArrow {V} _.
Arguments view_MeasurementColor {V} _.
Arguments MeasurementColorName {V} _.

Record MemoryData : Type := {
  patientInfo : option PatientInfo;
  sensorInfo : option SensorInfo;
  measurementMgdl : option (MeasurementView Z);
  measurementMmol : option (MeasurementView float) }.

Definition memoryData0 : MemoryData :=
  {| patientInfo := None; sensorInfo := None;
     measurementMgdl := None; measurementMmol := None |}.

(** ** The platform and the state of the process *)

(** What the program gets from outside: the local zone, the digest, the
    person at the console, and the upstream service, which answers a request
    from its own state.  An answer [None] is a rejected request (network
    failure, non-2xx status); [Some None] is a response whose body is
    [null]. *)
Class Platform : Type := {
  tz : Z -> bool -> Z;                  (* the rules of the local zone *)
  sha256Hex : string -> string;
  operator : nat -> string;             (* the answer to the n-th prompt *)
  Upstream : Type;
  serve_auth : Request -> Upstream -> option (option LoginResp) * Upstream;
  serve_connections : Request -> Upstream -> option (option ConnectionsResp) * Upstream;
  serve_graph : Request -> Upstream -> option (option GraphResp) * Upstream }.

(** What the program does that can be observed from outside, in order. *)
Inductive Event : Type :=
| Sent (r : Request)
| Prompted (query : string)
| UpdatedBaseURL (url : string)         (* '[INFO] Updated baseURL =>' *)
| SinceLastTrendArrowLogged (arrowNum : Z) (emoji : string)
| CouldNotParse (file : string).        (* '[WARN] Could not parse ...' *)

Section Process.

Context {P : Platform}.

Record World : Type := {
  cacheFile : option (Content CacheDoc);          (* cache.json *)
  measurementsFile : option (Content LogDoc);     (* latestMeasurements.json *)
  baseURL : string;
  apiClient_baseURL : string;                     (* apiClient.defaults.baseURL *)
  apiClient_headers : Headers;                    (* apiClient.defaults.headers.common *)
  memoryData : MemoryData;
  upstream : Upstream;
  prompts : nat;                                  (* prompts answered so far *)
  events : list Event }.

Definition set_cacheFile (v : option (Content CacheDoc)) (w : World) : World :=
  {| cacheFile := v; measurementsFile := measurementsFile w; baseURL := baseURL w;
     apiClient_baseURL := apiClient_baseURL w; apiClient_headers := apiClient_headers w;
     memoryData := memoryData w; upstream := upstream w; prompts := prompts w;
     events := events w |}.

Definition set_measurementsFile (v : option (Content LogDoc)) (w : World) : World :=
  {| cacheFile := cacheFile w; measurementsFile := v; baseURL := baseURL w;
     apiClient_baseURL := apiClient_baseURL w; apiClient_headers := apiClient_headers w;
     memoryData := memoryData w; upstream := upstream w; prompts := prompts w;
     events := events w |}.

Definition set_baseURL (v : string) (w : World) : World :=
  {| cacheFile := cacheFile w; measurementsFile := measurementsFile w; baseURL := v;
     apiClient_baseURL := apiClient_baseURL w; apiClient_headers := apiClient_headers w;
     memoryData := memoryData w; upstream := upstream w; prompts := prompts w;
     events := events w |}.

Definition set_apiClient_baseURL (v : string) (w : World) : World :=
  {| cacheFile := cacheFile w; measurementsFile := measurementsFile w; baseURL := baseURL w;
     apiClient_baseURL := v; apiClient_headers := apiClient_headers w;
     memoryData := memoryData w; upstream := upstream w; prompts := prompts w;
     events := events w |}.

Definition set_apiClient_headers (v : Headers) (w : World) : World :=
  {| cacheFile := cacheFile w; measurementsFile := measurementsFile w; baseURL := baseURL w;
     apiClient_baseURL := apiClient_baseURL w; apiClient_headers := v;
     memoryData := memoryData w; upstream := upstream w; prompts := prompts w;
     events := events w |}.

Definition set_memoryData (v : MemoryData) (w : World) : World :=
  {| cacheFile := cacheFile w; measurementsFile := measurementsFile w; baseURL := baseURL w;
     apiClient_baseURL := apiClient_baseURL w; apiClient_headers := apiClient_headers w;
     memoryData := v; upstream := upstream w; prompts := prompts w;
     events := events w |}.

Definition set_upstream (v : Upstream) (w : World) : World :=
  {| cacheFile := cacheFile w; measurementsFile := measurementsFile w; baseURL := baseURL w;
     apiClient_baseURL := apiClient_baseURL w; apiClient_headers := apiClient_headers w;
     memoryData := memoryData w; upstream := v; prompts := prompts w;
     events := events w |}.

Definition set_prompts (v : nat) (w : World) : World :=
  {| cacheFile := cacheFile w; measurementsFile := measurementsFile w; baseURL := baseURL w;
     apiClient_baseURL := apiClient_baseURL w; apiClient_headers := apiClient_headers w;
     memoryData := memoryData w; upstream := upstream w; prompts := v;
     events := events w |}.

Definition log (e : Event) (w : World) : World :=
  {| cacheFile := cacheFile w; measurementsFile := measurementsFile w; baseURL := baseURL w;
     apiClient_baseURL := apiClient_baseURL w; apiClient_headers := apiClient_headers w;
     memoryData := memoryData w; upstream := upstream w; prompts := prompts w;
     events := events w ++ [e] |}.

(** The process as it starts: [let baseURL = 'https://api.libreview.io'],
    [axios.create({ baseURL, ... })], an empty snapshot. *)
Definition boot (cache : option (Content CacheDoc)) (measurements : option (Content LogDoc))
    (u : Upstream) : World :=
  {| cacheFile := cache; measurementsFile := measurements;
     baseURL := "https://api.libreview.io";
     apiClient_baseURL := "https://api.libreview.io";
     apiClient_headers := no_headers;
     memoryData := memoryData0; upstream := u; prompts := 0%nat; events := [] |}.

(** *** The monad of the program: state, and exceptions that keep it *)

Definition M (A : Type) : Type := World -> Outcome A * World.

Definition ret {A : Type} (x : A) : M A := fun w => (Returned x, w).

Definition bind {A B : Type} (c : M A) (k : A -> M B) : M B :=
  fun w =>
    match c w with
    | (Returned x, w') => k x w'
    | (Thrown e, w') => (Thrown e, w')
    | (OutOfFuel, w') => (OutOfFuel, w')
    end.

Definition throw {A : Type} (e : Exn) : M A := fun w => (Thrown e, w).
Definition out_of_fuel {A : Type} : M A := fun w => (OutOfFuel, w).
Definition gets {A : Type} (f : World -> A) : M A := fun w => (Returned (f w), w).
Definition modify (f : World -> World) : M unit := fun w => (Returned tt, f w).

End Process.

Declare Scope js_scope.
Delimit Scope js_scope with js.
Notation "x <- c ;; k" := (bind c (fun x => k))
  (at level 61, c at next level, right associativity) : js_scope.
Notation "c ;; k" := (bind c (fun _ => k))
  (at level 61, right associativity) : js_scope.
Open Scope js_scope.

(** ** Code shared by the revisions *)

Section Shared.

Context {P : Platform}.

(** [askQuestion(query)] *)
Definition askQuestion (query : string) : M string :=
  n <- gets prompts ;;
  modify (fun w => log (Prompted query) (set_prompts (S n) w)) ;;
  ret (operator n).

(** *** Cache for the token (main_server.js, 88-101) *)

Definition readCache : M CacheDoc :=
  file <- gets cacheFile ;;
  match file with
  | None => ret (CObject empty_cache)           (* !fs.existsSync(CACHE_FILE) *)
  | Some raw =>
      match JSON_parse raw with
      | Some obj => ret obj
      | None =>                                 (* catch (err) *)
          modify (log (CouldNotParse "cache.json")) ;;
          ret (CObject empty_cache)
      end
  end.

Definition writeCache (obj : CacheDoc) : M unit :=
  modify (set_cacheFile (Some (Json (JSON_stringify obj)))).

(** *** Measurements file (main_server.js, 106-138) *)

Definition readMeasurementsFile : M (list Measurement) :=
  file <- gets measurementsFile ;;
  match file with
  | None => ret []                              (* !fs.existsSync(MEASUREMENTS_FILE) *)
  | Some raw =>
      match JSON_parse raw with
      | Some (JArray arr) => ret arr            (* Array.isArray(arr) *)
      | Some JOther => ret []
      | None =>                                 (* catch (err) *)
          modify (log (CouldNotParse "latestMeasurements.json")) ;;
          ret []
      end
  end.

Definition writeMeasurementsFile (arr : list Measurement) : M unit :=
  modify (set_measurementsFile (Some (Json (JArray arr)))).

(** [now] is the value of [new Date()] read inside the function. *)
Definition purgeOldMeasurements (now : Z) (arr : list Measurement) : list Measurement :=
  let todayStr := toLocaleDateString tz (Some now) in
  filter (fun m =>
            let d := m_Timestamp m in
            (toLocaleDateString tz d =? todayStr)%string) arr.

(** *** Requests through [apiClient] *)

(** The request that [apiClient] makes in the world [w]: its defaults at
    the moment of the call, with the [Authorization] header of the call, if
    any, in place of the default one. *)
Definition request_for (w : World) (method : Method) (path : string)
    (authorization : option string) (body : option (string * string)) : Request :=
  let defaults := apiClient_headers w in
  {| req_method := method;
     req_base := apiClient_baseURL w;
     req_path := path;
     req_headers :=
       match authorization with
       | Some v => {| Authorization := Some v;
                      Account_Id := Account_Id defaults;
                      patientid := patientid defaults |}
       | None => defaults
       end;
     req_body := body |}.

(** [await apiClient.get(...)], [await apiClient.post(...)]: the data of
    the response; a rejected request throws. *)
Definition send {A : Type}
    (serve : Request -> Upstream -> option A * Upstream)
    (method : Method) (path : string) (authorization : option string)
    (body : option (string * string)) : M A :=
  fun w =>
    let req := request_for w method path authorization body in
    let '(answer, u) := serve req (upstream w) in
    let w' := log (Sent req) (set_upstream u w) in
    match answer with
    | Some data => (Returned data, w')
    | None => (Thrown RequestFailed, w')
    end.

(** *** Login flow (main_server.js, 156-204) *)

Record Session : Type := {
  token : option string;
  userId : string;
  accountIdHash : string }.

Definition postLogin (email password : string) : M (option LoginResp) :=
  send serve_auth POST "/llu/auth/login" None (Some (email, password)).

Definition doAuthContinue (prevResponse : option LoginResp) : M (option LoginResp) :=
  match prevResponse with
  | None => throw TypeError
  | Some prev =>
      match login_data prev with
      | None => throw TypeError
      | Some data =>
          let stepType := step_type data in
          let token :=
            match authTicket data with
            | Some t => ticket_token t
            | None => None
            end in
          if negb (truthy stepType) || negb (truthy token) then throw MissingStepOrToken
          else
            send serve_auth POST ("/auth/continue/" ++ show_prop stepType)
                 (Some ("Bearer " ++ show_prop token)) None
      end
  end.

(** [respData?.data?.redirect] *)
Definition redirect_of (respData : option LoginResp) : bool :=
  match respData with
  | Some r =>
      match login_data r with
      | Some data => redirect data
      | None => false
      end
  | None => false
  end.

(** [respData.data.region], read once [respData?.data?.redirect] holds *)
Definition region_of (respData : option LoginResp) : option string :=
  match respData with
  | Some r =>
      match login_data r with
      | Some data => region data
      | None => None
      end
  | None => None
  end.

(** [respData?.status] *)
Definition status_of (respData : option LoginResp) : option Z :=
  match respData with
  | Some r => login_status r
  | None => None
  end.

Section LoginFlow.

(** [updateBaseURL] is what the revisions differ in. *)
Variable updateBaseURL : string -> M unit.

(** [while (respData?.data?.redirect) { ... }] *)
Fixpoint redirectLoop (fuel : nat) (email password : string)
    (respData : option LoginResp) : M (option LoginResp) :=
  if redirect_of respData then
    match fuel with
    | O => out_of_fuel
    | S fuel' =>
        let region := region_of respData in
        if negb (truthy region) then throw RedirectWithoutRegion
        else
          updateBaseURL (show_prop region) ;;
          respData' <- postLogin email password ;;
          redirectLoop fuel' email password respData'
    end
  else ret respData.

(** [while (respData?.status === 4) { ... }] *)
Fixpoint continueLoop (fuel : nat) (respData : option LoginResp) : M (option LoginResp) :=
  if strict_eq (status_of respData) 4 then
    match fuel with
    | O => out_of_fuel
    | S fuel' =>
        respData' <- doAuthContinue respData ;;
        continueLoop fuel' respData'
    end
  else ret respData.

(** The end of [doLoginFlow], after the two loops. *)
Definition finishLogin (respData : option LoginResp) : M Session :=
  if negb (strict_eq (status_of respData) 0) then throw (LoginStatus (status_of respData))
  else
    match respData with
    | Some r =>
        match login_data r with
        | Some data =>
            match authTicket data, user data with
            | Some ticket, Some u =>
                match user_id u with
                | Some userId =>
                    ret {| token := ticket_token ticket;
                           userId := userId;
                           accountIdHash := sha256Hex userId |}
                | None => throw TypeError     (* sha256Hex(undefined) *)
                end
            | _, _ => throw TypeError
            end
        | None => throw TypeError
        end
    | None => throw TypeError
    end.

Definition doLoginFlow (fuel : nat) (email password : string) : M Session :=
  respData <- postLogin email password ;;
  respData <- redirectLoop fuel email password respData ;;
  respData <- continueLoop fuel respData ;;
  finishLogin respData.

(** The first lines of [fetchAndStoreMeasurement] (main_server.js,
    298-310): the cached session, or a new one.  [promptAndLogin] is the
    branch taken when a key of the session is missing. *)
Definition promptAndLogin (fuel : nat) (cacheObj : CacheDoc) : M CacheDoc :=
  email <- askQuestion "LibreView Email: " ;;
  password <- askQuestion "LibreView Password: " ;;
  s <- doLoginFlow fuel email password ;;
  let cacheObj :=
    assign (fun keys =>
      {| cache_token := token s;
         cache_userId := Some (userId s);
         cache_accountIdHash := Some (accountIdHash s);
         cache_patientId := cache_patientId keys;
         cache_firstName := cache_firstName keys;
         cache_lastName := cache_lastName keys;
         cache_sensor := cache_sensor keys |}) cacheObj in
  writeCache cacheObj ;;
  ret cacheObj.

Definition ensureSession (fuel : nat) : M CacheDoc :=
  cacheObj <- readCache ;;
  if is_null cacheObj then throw TypeError      (* cacheObj.token *)
  else
    if negb (truthy (cache_token (keys_of cacheObj)))
       || negb (truthy (cache_userId (keys_of cacheObj)))
       || negb (truthy (cache_accountIdHash (keys_of cacheObj)))
    then promptAndLogin fuel cacheObj
    else ret cacheObj.

End LoginFlow.

(** *** parseLibreTimestamp (main_server.js, 249-264) *)

Definition parseLibreTimestamp (ts : string) : M JSDate :=
  let parts := split " " ts in
  let datePart := nth_error parts 0 in
  let timePart := nth_error parts 1 in
  let ampm := nth_error parts 2 in
  match datePart, timePart with
  | Some datePart, Some timePart =>
      let date := split "/" datePart in
      let month := nth_error date 0 in
      let day := nth_error date 1 in
      let year := nth_error date 2 in
      let time := split ":" timePart in
      let hh := nth_error time 0 in
      let mm := nth_error time 1 in
      let ss := nth_error time 2 in
      let hour := parseInt10 hh in
      let minute := parseInt10 mm in
      let second := parseInt10 ss in
      match ampm with
      | None => throw TypeError                 (* ampm.toUpperCase() *)
      | Some ampm =>
          let hour :=
            match hour with
            | Some h =>
                if (toUpperCase ampm =? "PM")%string && (h <? 12) then Some (h + 12)
                else hour
            | None => None
            end in
          let hour :=
            match hour with
            | Some h =>
                if (toUpperCase ampm =? "AM")%string && (h =? 12) then Some 0
                else hour
            | None => None
            end in
          ret (Date_of_components tz (toNumber year)
                 (option_map (fun m => m - 1) (toNumber month))
                 (toNumber day) hour minute second)
      end
  | _, _ => throw TypeError                     (* timePart.split(':') *)
  end.

(** [d.toISOString()]; the stamp is given by the instant it denotes. *)
Definition toISOString (d : JSDate) : M Z :=
  match d with
  | Some t => ret t
  | None => throw RangeError
  end.

(** [cgmResp.data.data?.connection?.glucoseMeasurement] *)
Definition latest_of (cgmData : option GraphData) : option GlucoseMeasurement :=
  match cgmData with
  | Some d =>
      match connection d with
      | Some c => glucoseMeasurement c
      | None => None
      end
  | None => None
  end.

(** The chain of timers that [fetchCycle] arms ([setTimeout(fetchCycle,
    ms)]): one cycle per pair of clock readings, each started by the timer
    of the one before; no timer is armed by a cycle that does not come
    back. *)
Fixpoint runTimers (fetchCycle : Z -> Z -> World -> option Z * World)
    (clock : list (Z * Z)) (w : World) : World :=
  match clock with
  | [] => w
  | (now, now') :: rest =>
      match fetchCycle now now' w with
      | (Some _, w') => runTimers fetchCycle rest w'
      | (None, w') => w'
      end
  end.

(** [arr[arr.length - 1]] *)
Fixpoint last_item {A : Type} (arr : list A) : option A :=
  match arr with
  | [] => None
  | [x] => Some x
  | _ :: rest => last_item rest
  end.

End Shared.

(** ** main_server.js *)

Module MainServer.

Section Cycle.

Context {P : Platform}.

(** main_server.js, 147-151 *)
Definition updateBaseURL (region : string) : M unit :=
  let url := "https://api-" ++ region ++ ".libreview.io" in
  modify (set_baseURL url) ;;
  modify (set_apiClient_baseURL url) ;;
  modify (log (UpdatedBaseURL url)).

Definition doLoginFlow : nat -> string -> string -> M Session :=
  doLoginFlow updateBaseURL.

(** [(parsedDate - prevDate) / 1000 / 60], [None] for NaN *)
Definition diffMinutes (parsedDate prevDate : JSDate) : option Q :=
  match parsedDate, prevDate with
  | Some t, Some p => Some (inject_Z (t - p) / 1000 / 60)%Q
  | _, _ => None
  end.

(** main_server.js, 353-366: the arrow number of the comparison with the
    previous item, when the two inner branches are taken. *)
Definition sinceLastArrow (parsedDate : JSDate) (latest : GlucoseMeasurement)
    (measurementsArr : list Measurement) : option Z :=
  match last_item measurementsArr with        (* measurementsArr.length > 0 *)
  | Some prev =>
      let prevDate := m_Timestamp prev in
      match diffMinutes parsedDate prevDate with
      | Some d =>
          if Qle_bool d 24 then
            let diffVal := ValueInMgPerDl latest - m_ValueInMgPerDl prev in
            Some (computeSinceLastTrendArrowNumber diffVal)
          else None
      | None => None                          (* NaN <= 24 *)
      end
  | None => None
  end.

(** main_server.js, 349-374: load the log, purge, compare with the
    previous item, append, persist.  [now] is the clock read by
    [purgeOldMeasurements]; the result is [sinceLastTrendEmoji]. *)
Definition storeMeasurement (now : Z) (parsedDate : JSDate) (isoStamp : Z)
    (latest : GlucoseMeasurement) : M string :=
  measurementsArr <- readMeasurementsFile ;;
  let measurementsArr := purgeOldMeasurements now measurementsArr in
  sinceLastTrendEmoji <-
    match sinceLastArrow parsedDate latest measurementsArr with
    | Some arrowNum =>
        modify (log (SinceLastTrendArrowLogged arrowNum (arrowToEmoji arrowNum))) ;;
        ret (arrowToEmoji arrowNum)
    | None => ret "N/A"
    end ;;
  let measurementsArr :=
    (measurementsArr ++
       [ {| m_Timestamp := Some isoStamp;
            m_ValueInMgPerDl := ValueInMgPerDl latest;
            m_TrendArrow := TrendArrow latest |} ])%list in
  writeMeasurementsFile measurementsArr ;;
  ret sinceLastTrendEmoji.

(** main_server.js, 379-382 *)
Definition deviceName (sensor : option Sensor) : string :=
  let name :=
    "Unknown (pt=" ++ match sensor with
                      | Some s => show_Z (pt s)
                      | None => "undefined"
                      end ++ ")" in
  let pt := option_map pt sensor in
  let name := if strict_eq pt 4 then "Freestyle Libre 3" else name in
  let name := if strict_eq pt 1 then "Freestyle Libre 2" else name in
  let name := if strict_eq pt 0 then "Freestyle Libre 1" else name in
  name.

(** main_server.js, 376-417 *)
Definition publish (c : Connection) (latest : GlucoseMeasurement) (isoStamp : Z)
    (sinceLastTrendEmoji : string) : M unit :=
  let colorNumber :=
    match MeasurementColor latest with
    | Some 0 | None => 0                      (* latest.MeasurementColor || 0 *)
    | Some n => n
    end in
  let colorName := measurementColorName colorNumber in
  let view {V : Type} (v : V) : MeasurementView V :=
    {| view_Timestamp := isoStamp;
       view_Value := v;
       view_TrendArrow := TrendArrow latest;
       TrendArrowEmoji := arrowToEmoji (TrendArrow latest);
       SinceLastTrendArrow := Some sinceLastTrendEmoji;
       view_MeasurementColor := Some colorNumber;
       MeasurementColorName := Some colorName |} in
  modify (set_memoryData
    {| patientInfo :=
         Some {| info_firstName := firstName c; info_lastName := lastName c;
                 info_patientId := None |};
       sensorInfo :=
         match sensor c with
         | Some s =>
             Some {| info_sn := sn s; activationUnix := a s;
                     activationDate := Some (a s * 1000);
                     ptName := deviceName (sensor c) |}
         | None => None
         end;
       measurementMgdl := Some (view (ValueInMgPerDl latest));
       measurementMmol := Some (view (mmolVal (ValueInMgPerDl latest))) |}).

(** main_server.js, 297-421.  The result is the ISO stamp, [None] for
    [null]. *)
Definition fetchAndStoreMeasurement (fuel : nat) (now : Z) : M (option Z) :=
  cacheObj <- ensureSession updateBaseURL fuel ;;
  modify (set_apiClient_headers
    {| Authorization := Some ("Bearer " ++ show_prop (cache_token (keys_of cacheObj)));
       Account_Id := cache_accountIdHash (keys_of cacheObj);
       patientid := cache_userId (keys_of cacheObj) |}) ;;
  connectionsResp <- send serve_connections GET "/llu/connections" None None ;;
  match connectionsResp with
  | None => throw TypeError
  | Some resp =>
      if negb (strict_eq (conn_status resp) 0)
      then throw (ConnectionsStatus (conn_status resp))
      else
        match conn_data resp with
        | None | Some [] => ret None          (* '[WARN] No connections found!' *)
        | Some (c :: _) =>
            cgmResp <- send serve_graph GET
              ("/llu/connections/" ++ show_prop (patientId c) ++ "/graph") None None ;;
            match cgmResp with
            | None => throw TypeError
            | Some cgm =>
                if negb (strict_eq (graph_status cgm) 0)
                then throw (CgmStatus (graph_status cgm))
                else
                  match latest_of (graph_data cgm) with
                  | None => ret None          (* '[WARN] No latest measurement from server!' *)
                  | Some latest =>
                      let rawTs := Timestamp latest in
                      parsedDate <- parseLibreTimestamp rawTs ;;
                      isoStamp <- toISOString parsedDate ;;
                      sinceLastTrendEmoji <-
                        storeMeasurement now parsedDate isoStamp latest ;;
                      publish c latest isoStamp sinceLastTrendEmoji ;;
                      ret (Some isoStamp)
                  end
            end
        end
  end.

(** main_server.js, 272-287.  [now] is the time value of [new Date()] read
    inside the function; [lastTimestamp] is the ISO stamp returned by the
    cycle, given by the instant it denotes.  The result is a number, [None]
    for NaN: the dates built on the way are Invalid Dates once the range of
    [Date] is left, and the difference of two time values is rounded to
    binary64. *)
Definition scheduleNextFetch (now : Z) (lastTimestamp : Z) : option Z :=
  let offsetSeconds := 3 in
  let lastDate := TimeClip lastTimestamp in
  let nextDate := Date_of_value (option_map (fun t => t + 120000) lastDate) in
  let finalDate := Date_of_value (option_map (fun t => t + offsetSeconds * 1000) nextDate) in
  let delayMs := option_map (fun t => round_binary64 (t - now)) finalDate in
  match delayMs with
  | Some d => if d <? 1000 then Some 30000 else Some d
  | None => None                              (* NaN < 1000 is false *)
  end.

(** main_server.js, 473-488: the delay after which the timer armed by
    [setTimeout] calls [fetchCycle] again; none while the cycle has not come
    back.  [now] is the clock read by the purge, [now'] the one read by
    [scheduleNextFetch]. *)
Definition fetchCycle (fuel : nat) (now now' : Z) (w : World) : option Z * World :=
  match fetchAndStoreMeasurement fuel now w with
  | (Returned (Some lastTimestamp), w') =>
      (Some (setTimeout (scheduleNextFetch now' lastTimestamp)), w')
  | (Returned None, w') => (Some (setTimeout (Some 60000)), w')  (* !lastTimestamp *)
  | (Thrown _, w') => (Some (setTimeout (Some 60000)), w')       (* catch (err) *)
  | (OutOfFuel, w') => (None, w')
  end.

Definition run (fuel : nat) : list (Z * Z) -> World -> World :=
  runTimers (fetchCycle fuel).

End Cycle.

End MainServer.

(** ** The revision that caches the patient *)

Module PatientCache.

Section Cycle.

Context {P : Platform}.

(** The region is not used in this revision: the template line is
    commented out. *)
Definition updateBaseURL (region : string) : M unit :=
  let url := "https://api.libreview.io" in
  modify (set_baseURL url) ;;
  modify (set_apiClient_baseURL url) ;;
  modify (log (UpdatedBaseURL url)).

Definition doLoginFlow : nat -> string -> string -> M Session :=
  doLoginFlow updateBaseURL.

(** "Fetch patientId and additional info if not cached": the cache
    object afterwards, [None] when the function returns [null]. *)
Definition resolvePatient (cacheObj : CacheDoc) : M (option CacheDoc) :=
  if negb (truthy (cache_patientId (keys_of cacheObj))) then
    connectionsResp <- send serve_connections GET "/llu/connections" None None ;;
    match connectionsResp with
    | None => throw TypeError
    | Some resp =>
        if negb (strict_eq (conn_status resp) 0)
        then throw (ConnectionsStatus (conn_status resp))
        else
          match conn_data resp with
          | None | Some [] => ret None        (* '[WARN] No connections found!' *)
          | Some (c :: _) =>
              let cacheObj :=
                assign (fun keys =>
                  {| cache_token := cache_token keys;
                     cache_userId := cache_userId keys;
                     cache_accountIdHash := cache_accountIdHash keys;
                     cache_patientId := patientId c;
                     cache_firstName := firstName c;
                     cache_lastName := lastName c;
                     cache_sensor := sensor c |}) cacheObj in
              writeCache cacheObj ;;
              ret (Some cacheObj)
          end
    end
  else ret (Some cacheObj).

(** "Update memoryData with patient and sensor info" *)
Definition publishPatient (cacheObj : CacheDoc) : M unit :=
  modify (fun w =>
    set_memoryData
      {| patientInfo :=
           Some {| info_firstName := cache_firstName (keys_of cacheObj);
                   info_lastName := cache_lastName (keys_of cacheObj);
                   info_patientId := cache_patientId (keys_of cacheObj) |};
         sensorInfo :=
           match cache_sensor (keys_of cacheObj) with
           | Some s =>
               let deviceName :=
                 if pt s =? 4 then "Freestyle Libre 3"
                 else if pt s =? 1 then "Freestyle Libre 2"
                 else if pt s =? 0 then "Freestyle Libre 1"
                 else "Unknown" in
               Some {| info_sn := sn s; activationUnix := a s;
                       activationDate := Some (a s * 1000);
                       ptName := deviceName |}
           | None => None
           end;
         measurementMgdl := measurementMgdl (memoryData w);
         measurementMmol := measurementMmol (memoryData w) |} w).

(** "Process latest measurement and store it" *)
Definition storeMeasurement (now : Z) (isoStamp : Z) (latest : GlucoseMeasurement) : M unit :=
  measurementsArr <- readMeasurementsFile ;;
  let measurementsArr := purgeOldMeasurements now measurementsArr in
  let measurementsArr :=
    (measurementsArr ++
       [ {| m_Timestamp := Some isoStamp;
            m_ValueInMgPerDl := ValueInMgPerDl latest;
            m_TrendArrow := TrendArrow latest |} ])%list in
  writeMeasurementsFile measurementsArr.

Definition publishMeasurement (isoStamp : Z) (latest : GlucoseMeasurement) : M unit :=
  let view {V : Type} (v : V) : MeasurementView V :=
    {| view_Timestamp := isoStamp;
       view_Value := v;
       view_TrendArrow := TrendArrow latest;
       TrendArrowEmoji := arrowToEmoji (TrendArrow latest);
       SinceLastTrendArrow := None;
       view_MeasurementColor := None;
       MeasurementColorName := None |} in
  modify (fun w =>
    set_memoryData
      {| patientInfo := patientInfo (memoryData w);
         sensorInfo := sensorInfo (memoryData w);
         measurementMgdl := Some (view (ValueInMgPerDl latest));
         measurementMmol := Some (view (mmolVal (ValueInMgPerDl latest))) |} w).

(** "Use the cached patientId to fetch the latest measurement", to the
    end of the function. *)
Definition fetchLatest (now : Z) (patientId : option string) : M (option Z) :=
  cgmResp <- send serve_graph GET
    ("/llu/connections/" ++ show_prop patientId ++ "/graph") None None ;;
  match cgmResp with
  | None => throw TypeError
  | Some cgm =>
      if negb (strict_eq (graph_status cgm) 0)
      then throw (CgmStatus (graph_status cgm))
      else
        match latest_of (graph_data cgm) with
        | None => ret None                    (* '[WARN] No latest measurement from server!' *)
        | Some latest =>
            let rawTs := Timestamp latest in
            parsedDate <- parseLibreTimestamp rawTs ;;
            isoStamp <- toISOString parsedDate ;;
            storeMeasurement now isoStamp latest ;;
            publishMeasurement isoStamp latest ;;
            ret (Some isoStamp)
        end
  end.

Definition fetchAndStoreMeasurement (fuel : nat) (now : Z) : M (option Z) :=
  cacheObj <- ensureSession updateBaseURL fuel ;;
  modify (fun w =>
    set_apiClient_headers
      {| Authorization := Some ("Bearer " ++ show_prop (cache_token (keys_of cacheObj)));
         Account_Id := cache_accountIdHash (keys_of cacheObj);
         patientid := patientid (apiClient_headers w) |} w) ;;
  resolved <- resolvePatient cacheObj ;;
  match resolved with
  | None => ret None
  | Some cacheObj =>
      publishPatient cacheObj ;;
      let patientId := cache_patientId (keys_of cacheObj) in
      fetchLatest now patientId
  end.

Definition scheduleNextFetch (now : Z) (lastTimestamp : Z) : option Z :=
  let offsetSeconds := 3 in
  let lastDate := TimeClip lastTimestamp in
  let nextDate := Date_of_value (option_map (fun t => t + 60000) lastDate) in
  let finalDate := Date_of_value (option_map (fun t => t + offsetSeconds * 1000) nextDate) in
  let delayMs := option_map (fun t => round_binary64 (t - now)) finalDate in
  match delayMs with
  | Some d => if d <? 1000 then Some 30000 else Some d
  | None => None                              (* NaN < 1000 is false *)
  end.

Definition fetchCycle (fuel : nat) (now now' : Z) (w : World) : option Z * World :=
  match fetchAndStoreMeasurement fuel now w with
  | (Returned (Some lastTimestamp), w') =>
      (Some (setTimeout (scheduleNextFetch now' lastTimestamp)), w')
  | (Returned None, w') => (Some (setTimeout (Some 60000)), w')
  | (Thrown _, w') => (Some (setTimeout (Some 60000)), w')
  | (OutOfFuel, w') => (None, w')
  end.

Definition run (fuel : nat) : list (Z * Z) -> World -> World :=
  runTimers (fetchCycle fuel).

End Cycle.

End PatientCache.

(** ** A small upstream service, to run the program on

    The service redirects every login made at the global address to region
    "eu"; at the regional address it asks for one continuation step ("tou")
    while its state says that the terms are pending, and logs in otherwise.
    It has one connection and one measurement. *)

Module Demo.

Definition ticket (t : string) (uid : option string) (status : Z) (step : option string)
    : LoginResp :=
  {| login_status := Some status;
     login_data :=
       Some {| redirect := false; region := None; step_type := step;
               authTicket := Some {| ticket_token := Some t |};
               user := Some {| user_id := uid |} |} |}.

Definition go_to (r : string) : LoginResp :=
  {| login_status := Some 0;
     login_data :=
       Some {| redirect := true; region := Some r; step_type := None;
               authTicket := None; user := None |} |}.

Definition auth (r : Request) (terms_pending : bool)
    : option (option LoginResp) * bool :=
  if (req_path r =? "/llu/auth/login")%string then
    if (req_base r =? "https://api-eu.libreview.io")%string then
      if terms_pending
      then (Some (Some (ticket "t1" (Some "u-0") 4 (Some "tou"))), terms_pending)
      else (Some (Some (ticket "t2" (Some "u-1") 0 None)), terms_pending)
    else (Some (Some (go_to "eu")), terms_pending)
  else if (req_path r =? "/auth/continue/tou")%string then
    match Authorization (req_headers r) with
    | Some "Bearer t1" => (Some (Some (ticket "t2" (Some "u-1") 0 None)), false)
    | _ => (None, terms_pending)
    end
  else (None, terms_pending).

Definition patient : Connection :=
  {| patientId := Some "p-1"; firstName := Some "Ada"; lastName := Some "Byron";
     sensor := Some {| sn := "SN-1"; a := 1736000000; pt := 4 |} |}.

Definition connections (r : Request) (u : bool)
    : option (option ConnectionsResp) * bool :=
  (Some (Some {| conn_status := Some 0; conn_data := Some [patient] |}), u).

Definition latest : GlucoseMeasurement :=
  {| Timestamp := "1/5/2025 10:33:54 PM"; ValueInMgPerDl := 100;
     TrendArrow := 3; MeasurementColor := Some 1 |}.

Definition graph (r : Request) (u : bool) : option (option GraphResp) * bool :=
  if (req_path r =? "/llu/connections/p-1/graph")%string then
    (Some (Some {| graph_status := Some 0;
                   graph_data :=
                     Some {| connection :=
                               Some {| glucoseMeasurement := Some latest |} |} |}), u)
  else (None, u).

(** UTC as the local zone, a stand-in for the digest, and an operator who
    types an address and then a password. *)
#[local] Instance platform : Platform :=
  {| tz := fixed_zone 0;
     sha256Hex := fun s => "sha256:" ++ s;
     operator := fun n => match n with O => "ada@example.org" | _ => "secret" end;
     Upstream := bool;
     serve_auth := auth;
     serve_connections := connections;
     serve_graph := graph |}.

(** The process at its start, with no store file. *)
Definition fresh (terms_pending : bool) : World := boot None None terms_pending.

(** The same, with the client already at the regional address. *)
Definition regional_world (terms_pending : bool) : World :=
  set_apiClient_baseURL "https://api-eu.libreview.io" (fresh terms_pending).

(** The cache object after a login, and the process started on it. *)
Definition session_cache : CacheObj :=
  {| cache_token := Some "t2"; cache_userId := Some "u-1";
     cache_accountIdHash := Some "sha256:u-1";
     cache_patientId := None; cache_firstName := None; cache_lastName := None;
     cache_sensor := None |}.

Definition logged_in : World := boot (Some (Json session_cache)) None false.

(** 2025-01-05T22:33:54Z, the instant of [latest] in this zone. *)
Definition t_latest : Z := 1736116434000.

(** The process one second after [latest] was taken, once the store step
    of main_server.js has run on it. *)
Definition stored_once : World :=
  snd (MainServer.storeMeasurement (t_latest + 1000) (Some t_latest) t_latest latest
         logged_in).

(** A reading one minute later, 4 mg/dL higher. *)
Definition later : GlucoseMeasurement :=
  {| Timestamp := "1/5/2025 10:34:54 PM"; ValueInMgPerDl := 104;
     TrendArrow := 4; MeasurementColor := Some 1 |}.





(** The caching revision: the cycle that resolves the patient, and two
    more cycles after it. *)
Definition resolved_once : World :=
  snd (PatientCache.fetchAndStoreMeasurement 1 (t_latest + 1000) logged_in).

Definition two_more : list (Z * Z) :=
  [(t_latest + 61000, t_latest + 62000); (t_latest + 121000, t_latest + 122000)].


(** The process whose log holds one item, dated an hour after [latest] and
    10 mg/dL higher. *)
Definition ahead_item : Measurement :=
  {| m_Timestamp := Some (t_latest + 3600000); m_ValueInMgPerDl := 110;
     m_TrendArrow := 3 |}.

Definition logged_ahead : World :=
  boot (Some (Json session_cache)) (Some (Json (JArray [ahead_item]))) false.

End Demo.

(** ** Vocabulary of the properties *)

Section Vocabulary.

Context {P : Platform}.

(** The measurement log as persisted: what [readMeasurementsFile] reads
    back. *)
Definition persistedLog (w : World) : list Measurement :=
  match measurementsFile w with
  | Some (Json (JArray arr)) => arr
  | _ => []
  end.

(** The item's local calendar date is the one of the instant [now]. *)
Definition todays (now : Z) (m : Measurement) : Prop :=
  toLocaleDateString tz (m_Timestamp m) = toLocaleDateString tz (Some now).

(** The local calendar date (year, month, day) at the instant [t]. *)
Definition local_date (t : Z) : Z * Z * Z :=
  civil_from_days ((t + tz t true) / msPerDay).

Definition same_date (d d' : Z * Z * Z) : bool :=
  let '(y, m, dd) := d in
  let '(y', m', dd') := d' in
  (y =? y') && (m =? m') && (dd =? dd').

(** The today-filtered log: the items of [arr], in their order, whose
    timestamp is a date of the local calendar day of [now]. *)
Definition todays_items (now : Z) (arr : list Measurement) : list Measurement :=
  filter (fun m =>
            match m_Timestamp m with
            | Some t => same_date (local_date t) (local_date now)
            | None => false
            end) arr.

(** The arrow numbers of the since-last classifications carried out. *)
Fixpoint classifications (evs : list Event) : list Z :=
  match evs with
  | [] => []
  | SinceLastTrendArrowLogged arrowNum _ :: rest => arrowNum :: classifications rest
  | _ :: rest => classifications rest
  end.

(** The item that a cycle appends for a reading. *)
Definition item_of (isoStamp : Z) (latest : GlucoseMeasurement) : Measurement :=
  {| m_Timestamp := Some isoStamp;
     m_ValueInMgPerDl := ValueInMgPerDl latest;
     m_TrendArrow := TrendArrow latest |}.

(** The world after a read of a store file: a warning is logged when the
    text does not parse. *)
Definition warned {A : Type} (name : string) (file : option (Content A)) (w : World) : World :=
  match file with
  | Some (Garbage _) => log (CouldNotParse name) w
  | _ => w
  end.

(** The world after the store step of main_server.js. *)
Definition stored (now : Z) (parsedDate : JSDate) (isoStamp : Z)
    (latest : GlucoseMeasurement) (w : World) : World :=
  let kept := purgeOldMeasurements now (persistedLog w) in
  let w1 := warned "latestMeasurements.json" (measurementsFile w) w in
  let w2 :=
    match MainServer.sinceLastArrow parsedDate latest kept with
    | Some n => log (SinceLastTrendArrowLogged n (arrowToEmoji n)) w1
    | None => w1
    end in
  set_measurementsFile (Some (Json (JArray (kept ++ [item_of isoStamp latest])%list))) w2.

(** The world after [send] got the answer [u] from the service. *)
Definition sent (req : Request) (u : Upstream) (w : World) : World :=
  log (Sent req) (set_upstream u w).

(** The continuation loop from the response [r] in the world [w]: each
    round posts to the continuation endpoint of the step type of the
    working response, with its token as bearer, and the answer becomes
    the working response; the loop ends with the first answer whose
    status is not 4. *)
Inductive continued : World -> LoginResp -> World -> option LoginResp -> Prop :=
| continued_once (w : World) (r : LoginResp) (data : LoginData) (ticket : AuthTicket)
    (stepType tok : string) (answer : option LoginResp) (u : Upstream) :
    login_status r = Some 4 ->
    login_data r = Some data ->
    step_type data = Some stepType -> stepType <> EmptyString ->
    authTicket data = Some ticket ->
    ticket_token ticket = Some tok -> tok <> EmptyString ->
    let req := request_for w POST ("/auth/continue/" ++ stepType)
                 (Some ("Bearer " ++ tok)) None in
    serve_auth req (upstream w) = (Some answer, u) ->
    status_of answer <> Some 4 ->
    continued w r (sent req u w) answer
| continued_again (w : World) (r : LoginResp) (data : LoginData) (ticket : AuthTicket)
    (stepType tok : string) (r1 : LoginResp) (u : Upstream)
    (w' : World) (final : option LoginResp) :
    login_status r = Some 4 ->
    login_data r = Some data ->
    step_type data = Some stepType -> stepType <> EmptyString ->
    authTicket data = Some ticket ->
    ticket_token ticket = Some tok -> tok <> EmptyString ->
    let req := request_for w POST ("/auth/continue/" ++ stepType)
                 (Some ("Bearer " ++ tok)) None in
    serve_auth req (upstream w) = (Some (Some r1), u) ->
    login_status r1 = Some 4 ->
    continued (sent req u w) r1 w' final ->
    continued w r w' final.

(** The session that [doLoginFlow] builds from a response. *)
Definition session_from (r : LoginResp) (s : Session) : Prop :=
  exists data ticket u uid,
    login_data r = Some data /\ authTicket data = Some ticket
    /\ user data = Some u /\ user_id u = Some uid
    /\ s = {| token := ticket_token ticket; userId := uid;
              accountIdHash := sha256Hex uid |}.

(** The regional address of main_server.js. *)
Definition regional (region : string) : string :=
  "https://api-" ++ region ++ ".libreview.io".

(** Replaying a list of events from the client address [base]: every
    request must go to the address in force, which each switch replaces;
    the result is the address in force at the end. *)
Fixpoint routed (base : string) (evs : list Event) : option string :=
  match evs with
  | [] => Some base
  | Sent r :: rest => if (req_base r =? base)%string then routed base rest else None
  | UpdatedBaseURL url :: rest => routed url rest
  | _ :: rest => routed base rest
  end.

(** The number of switches of the address. *)
Fixpoint switches (evs : list Event) : nat :=
  match evs with
  | [] => 0
  | UpdatedBaseURL _ :: rest => S (switches rest)
  | _ :: rest => switches rest
  end.

(** The event is a request for the connections listing. *)
Definition is_listing (e : Event) : bool :=
  match e with
  | Sent r => (req_path r =? "/llu/connections")%string
  | _ => false
  end.

(** The session and the patient are both in the cache object. *)
Definition resolved (c : CacheObj) : Prop :=
  truthy (cache_token c) = true /\ truthy (cache_userId c) = true
  /\ truthy (cache_accountIdHash c) = true /\ truthy (cache_patientId c) = true.

(** The event is no switch of the address, and a request only to [base]. *)
Definition goes_to (base : string) (e : Event) : Prop :=
  match e with
  | Sent r => req_base r = base
  | UpdatedBaseURL _ => False
  | _ => True
  end.

(** A step of the process that only adds events, with every request sent
    to the address in force. *)
Definition follows_switches (w w' : World) : Prop :=
  exists new, events w' = (events w ++ new)%list
              /\ routed (apiClient_baseURL w) new = Some (apiClient_baseURL w').

(** A step of the process that leaves the cache file and the client
    address alone and sends every request to that address. *)
Definition stays_put (w w' : World) : Prop :=
  cacheFile w' = cacheFile w
  /\ apiClient_baseURL w' = apiClient_baseURL w
  /\ exists new, events w' = (events w ++ new)%list
                 /\ Forall (goes_to (apiClient_baseURL w)) new.

(** The path of the graph of a patient. *)
Definition graph_path (patientId : option string) : string :=
  "/llu/connections/" ++ show_prop patientId ++ "/graph".

(** The event is no request, or a request for the graph of [patientId]. *)
Definition graph_only (patientId : option string) (e : Event) : Prop :=
  match e with
  | Sent r => req_method r = GET /\ req_path r = graph_path patientId
  | _ => True
  end.

(** A step of the process that leaves the cache file alone and asks the
    service for nothing but the graph of [patientId]. *)
Definition asks_graph_of (patientId : option string) (w w' : World) : Prop :=
  cacheFile w' = cacheFile w
  /\ exists new, events w' = (events w ++ new)%list
                 /\ Forall (graph_only patientId) new.

(** A step of the process that leaves the published patient alone. *)
Definition same_patient (w w' : World) : Prop :=
  patientInfo (memoryData w') = patientInfo (memoryData w).

(** The patient of a cache object, as published and as cached. *)
Definition profile_of (c : CacheObj) : PatientInfo :=
  {| info_firstName := cache_firstName c; info_lastName := cache_lastName c;
     info_patientId := cache_patientId c |}.

Definition with_patient (c : CacheObj) (conn : Connection) : CacheObj :=
  {| cache_token := cache_token c;
     cache_userId := cache_userId c;
     cache_accountIdHash := cache_accountIdHash c;
     cache_patientId := patientId conn;
     cache_firstName := firstName conn;
     cache_lastName := lastName conn;
     cache_sensor := sensor conn |}.

(** The headers that a cycle of the caching revision attaches. *)
Definition with_session_headers (c : CacheObj) (w : World) : World :=
  set_apiClient_headers
    {| Authorization := Some ("Bearer " ++ show_prop (cache_token c));
       Account_Id := cache_accountIdHash c;
       patientid := patientid (apiClient_headers w) |} w.

(** The world after [updateBaseURL(region)] of main_server.js. *)
Definition switched (region : string) (w : World) : World :=
  log (UpdatedBaseURL (regional region))
    (set_apiClient_baseURL (regional region) (set_baseURL (regional region) w)).

(** The cache file holds a session. *)
Definition has_session (w : World) : Prop :=
  exists c : CacheObj,
    cacheFile w = Some (Json c)
    /\ truthy (cache_token c) = true /\ truthy (cache_userId c) = true
    /\ truthy (cache_accountIdHash c) = true.

(** The cache file holds the object [c], with a session and a patient. *)
Definition has_patient (c : CacheObj) (w : World) : Prop :=
  cacheFile w = Some (Json c) /\ resolved c.

(** Every run of [c] is a step in the relation [R]. *)
Definition keeps {A : Type} (R : World -> World -> Prop) (c : M A) : Prop :=
  forall w, R w (snd (c w)).

End Vocabulary.

(** ** The query surface (main_server.js, 426-467) *)

(** The four routes that [startHttpsServer] installs. *)
Inductive Route : Type :=
| patient_info          (* '/patient-info' *)
| sensor_info           (* '/sensor-info' *)
| measurement_mgdl      (* '/measurement-mgdl' *)
| measurement_mmol.     (* '/measurement-mmol' *)

Inductive Payload : Type :=
| ErrorJson (error : string)
| PatientJson (p : PatientInfo)
| SensorJson (s : SensorInfo)
| MgdlJson (m : MeasurementView Z)
| MmolJson (m : MeasurementView float).

Record Reply : Type := { reply_status : Z; reply_json : Payload }.

(** The handler of a route, on the snapshot it reads: [res.status(404).json
    (...)] when the part is [null], [res.json(...)] otherwise. *)
Definition startHttpsServer (route : Route) (memoryData : MemoryData) : Reply :=
  match route with
  | patient_info =>
      match patientInfo memoryData with
      | None => {| reply_status := 404; reply_json := ErrorJson "No patient info available" |}
      | Some p => {| reply_status := 200; reply_json := PatientJson p |}
      end
  | sensor_info =>
      match sensorInfo memoryData with
      | None => {| reply_status := 404; reply_json := ErrorJson "No sensor info available" |}
      | Some s => {| reply_status := 200; reply_json := SensorJson s |}
      end
  | measurement_mgdl =>
      match measurementMgdl memoryData with
      | None =>
          {| reply_status := 404; reply_json := ErrorJson "No mg/dL measurement available" |}
      | Some m => {| reply_status := 200; reply_json := MgdlJson m |}
      end
  | measurement_mmol =>
      match measurementMmol memoryData with
      | None =>
          {| reply_status := 404; reply_json := ErrorJson "No mmol measurement available" |}
      | Some m => {| reply_status := 200; reply_json := MmolJson m |}
      end
  end.

(** ** More vocabulary *)

(** The upstream timestamp of a local date and time on the 12-hour clock,
    as in the source's comment, "1/5/2025 10:33:54 PM". *)
Definition pad2 (n : Z) : string :=
  if n <? 10 then String "0" (show_Z n) else show_Z n.

Definition libreTimestamp (month day year hour12 minute second : Z) (pm : bool) : string :=
  show_Z month ++ "/" ++ show_Z day ++ "/" ++ show_Z year ++ " "
  ++ show_Z hour12 ++ ":" ++ pad2 minute ++ ":" ++ pad2 second ++ " "
  ++ (if pm then "PM" else "AM").

(** The hour of the day of an hour on the 12-hour clock. *)
Definition hour24 (hour12 : Z) (pm : bool) : Z :=
  if pm then (if hour12 <? 12 then hour12 + 12 else hour12)
  else (if hour12 =? 12 then 0 else hour12).

(** The number read from a decimal numeral after the digits that gave
    [acc]. *)
Fixpoint uint_value (d : Decimal.uint) (acc : Z) : Z :=
  match d with
  | Decimal.Nil => acc
  | Decimal.D0 l => uint_value l (10 * acc + 0)
  | Decimal.D1 l => uint_value l (10 * acc + 1)
  | Decimal.D2 l => uint_value l (10 * acc + 2)
  | Decimal.D3 l => uint_value l (10 * acc + 3)
  | Decimal.D4 l => uint_value l (10 * acc + 4)
  | Decimal.D5 l => uint_value l (10 * acc + 5)
  | Decimal.D6 l => uint_value l (10 * acc + 6)
  | Decimal.D7 l => uint_value l (10 * acc + 7)
  | Decimal.D8 l => uint_value l (10 * acc + 8)
  | Decimal.D9 l => uint_value l (10 * acc + 9)
  end.

(** Every character of the string passes the test. *)
Fixpoint all_chars (f : ascii -> bool) (s : string) : bool :=
  match s with
  | EmptyString => true
  | String c rest => f c && all_chars f rest
  end.

(** The number of occurrences of a character. *)
Fixpoint occurrences (c : ascii) (s : string) : nat :=
  match s with
  | EmptyString => 0
  | String c' rest => if Ascii.eqb c' c then S (occurrences c rest) else occurrences c rest
  end.

Section MoreVocabulary.

Context {P : Platform}.

(** A step of the process that leaves the measurement log and the published
    snapshot alone. *)
Definition quiet_store (w w' : World) : Prop :=
  measurementsFile w' = measurementsFile w /\ memoryData w' = memoryData w.

(** A step of the process that leaves the cache file alone. *)
Definition same_cache (w w' : World) : Prop := cacheFile w' = cacheFile w.

(** The event is no request, or a request with the headers [h]. *)
Definition carries (h : Headers) (e : Event) : Prop :=
  match e with
  | Sent r => req_headers r = h
  | _ => True
  end.

(** A step of the process that leaves the default headers alone and sends
    every request with them. *)
Definition sends_defaults (w w' : World) : Prop :=
  apiClient_headers w' = apiClient_headers w
  /\ exists new, events w' = (events w ++ new)%list
                 /\ Forall (carries (apiClient_headers w)) new.

(** A step of the process that asks the operator nothing, and takes no
    event back. *)
Definition asks_nothing (w w' : World) : Prop :=
  prompts w' = prompts w /\ exists new, events w' = (events w ++ new)%list.

(** A step of the process that leaves the patient and the sensor of the
    published snapshot alone. *)
Definition same_profile (w w' : World) : Prop :=
  patientInfo (memoryData w') = patientInfo (memoryData w)
  /\ sensorInfo (memoryData w') = sensorInfo (memoryData w).

(** A step of the process that leaves the measurement log and the two
    published measurements alone. *)
Definition quiet_measurements (w w' : World) : Prop :=
  measurementsFile w' = measurementsFile w
  /\ measurementMgdl (memoryData w') = measurementMgdl (memoryData w)
  /\ measurementMmol (memoryData w') = measurementMmol (memoryData w).

(** The object that [readCache] returns. *)
Definition cached (w : World) : CacheDoc :=
  match cacheFile w with
  | Some (Json c) => c
  | _ => CObject empty_cache
  end.

(** The three keys of a session are there. *)
Definition complete (c : CacheObj) : bool :=
  truthy (cache_token c) && truthy (cache_userId c) && truthy (cache_accountIdHash c).

(** Every run of [c] either returns a value that passes [good], or is a
    step in the relation [R]. *)
Definition keeps_unless {A : Type} (R : World -> World -> Prop) (good : A -> Prop)
    (c : M A) : Prop :=
  forall w, (exists x, fst (c w) = Returned x /\ good x) \/ R w (snd (c w)).

(** A relation between worlds that every step of the process stays in,
    as long as the step writes no store file and publishes nothing: it does
    not look at the events, the upstream service, the prompts, the
    addresses or the headers. *)
Class Insensitive (R : World -> World -> Prop) : Prop := {
  ins_refl : forall w, R w w;
  ins_trans : forall w1 w2 w3, R w1 w2 -> R w2 w3 -> R w1 w3;
  ins_log : forall e w w', R w w' -> R w (log e w');
  ins_upstream : forall u w w', R w w' -> R w (set_upstream u w');
  ins_prompts : forall n w w', R w w' -> R w (set_prompts n w');
  ins_baseURL : forall url w w', R w w' -> R w (set_baseURL url w');
  ins_apiClient_baseURL : forall url w w', R w w' -> R w (set_apiClient_baseURL url w');
  ins_apiClient_headers : forall h w w', R w w' -> R w (set_apiClient_headers h w') }.

(** The world after the operator was asked for the address and for the
    password. *)
Definition asked_credentials (w : World) : World :=
  log (Prompted "LibreView Password: ")
    (set_prompts (S (S (prompts w)))
       (log (Prompted "LibreView Email: ") (set_prompts (S (prompts w)) w))).

(** The session headers that a cycle of main_server.js attaches. *)
Definition session_headers (c : CacheObj) : Headers :=
  {| Authorization := Some ("Bearer " ++ show_prop (cache_token c));
     Account_Id := cache_accountIdHash c;
     patientid := cache_userId c |}.

(** The cache object after a login. *)
Definition with_session (c : CacheObj) (s : Session) : CacheObj :=
  {| cache_token := token s;
     cache_userId := Some (userId s);
     cache_accountIdHash := Some (accountIdHash s);
     cache_patientId := cache_patientId c;
     cache_firstName := cache_firstName c;
     cache_lastName := cache_lastName c;
     cache_sensor := cache_sensor c |}.

(** The number of requests among the events. *)
Fixpoint requests (evs : list Event) : nat :=
  match evs with
  | [] => 0
  | Sent _ :: rest => S (requests rest)
  | _ :: rest => requests rest
  end.

End MoreVocabulary.

(** ** A second small service, with a reading of one's choice

    It logs nobody in: it is used with a session already in the cache. *)

Module Lab.

Definition graph (reading : GlucoseMeasurement) (r : Request) (u : unit)
    : option (option GraphResp) * unit :=
  (Some (Some {| graph_status := Some 0;
                 graph_data :=
                   Some {| connection :=
                             Some {| glucoseMeasurement := Some reading |} |} |}), u).

Definition connections (r : Request) (u : unit) : option (option ConnectionsResp) * unit :=
  (Some (Some {| conn_status := Some 0; conn_data := Some [Demo.patient] |}), u).

(** A service in need of maintenance: every login is redirected to region
    "eu", wherever it is sent. *)
Definition auth (r : Request) (u : unit) : option (option LoginResp) * unit :=
  (Some (Some (Demo.go_to "eu")), u).

#[local] Instance platform (reading : GlucoseMeasurement) : Platform :=
  {| tz := fixed_zone 0;
     sha256Hex := fun s => "sha256:" ++ s;
     operator := fun n => match n with O => "ada@example.org" | _ => "secret" end;
     Upstream := unit;
     serve_auth := auth;
     serve_connections := connections;
     serve_graph := graph reading |}.

(** A reading whose timestamp is in another format. *)
Definition iso_reading : GlucoseMeasurement :=
  {| Timestamp := "2025-01-05T22:33:54"; ValueInMgPerDl := 100;
     TrendArrow := 3; MeasurementColor := None |}.



Definition worded_reading : GlucoseMeasurement :=
  {| Timestamp := "Jan/5/2025 10:33:54 PM"; ValueInMgPerDl := 100;
     TrendArrow := 3; MeasurementColor := None |}.

Definition logged_in (reading : GlucoseMeasurement) : World (P := platform reading) :=
  boot (P := platform reading) (Some (Json Demo.session_cache)) None tt.

(** The process started on a cache that holds session and patient. *)
Definition patient_cached (reading : GlucoseMeasurement) : World (P := platform reading) :=
  boot (P := platform reading)
    (Some (Json (with_patient Demo.session_cache Demo.patient))) None tt.

End Lab.


(** A service that plays a script: each request to the authentication
    endpoints is answered by the next entry of the script (rejected when the
    script is over); the listing and the graph are always answered the same
    way. *)
Module Script.

Definition auth (r : Request) (script : list (option (option LoginResp)))
    : option (option LoginResp) * list (option (option LoginResp)) :=
  match script with
  | [] => (None, [])
  | answer :: rest => (answer, rest)
  end.

#[local] Instance platform (listing : option (option ConnectionsResp))
    (chart : option (option GraphResp)) : Platform :=
  {| tz := fixed_zone 0;
     sha256Hex := fun s => "sha256:" ++ s;
     operator := fun n => match n with O => "ada@example.org" | _ => "secret" end;
     Upstream := list (option (option LoginResp));
     serve_auth := auth;
     serve_connections := fun _ script => (listing, script);
     serve_graph := fun _ script => (chart, script) |}.

(** The process at its start, with the given cache file and script, and a
    service that has no connection to list. *)
Definition start (cache : option (Content CacheDoc))
    (script : list (option (option LoginResp)))
    : World (P := platform (Some (Some {| conn_status := Some 0; conn_data := Some [] |})) None) :=
  boot (P := platform (Some (Some {| conn_status := Some 0; conn_data := Some [] |})) None)
    cache None script.

(** A redirect that names no region. *)
Definition redirect_nowhere : LoginResp :=
  {| login_status := Some 0;
     login_data :=
       Some {| redirect := true; region := None; step_type := None;
               authTicket := None; user := None |} |}.

(** A step of the login without the token that continues it. *)
Definition step_without_token : LoginResp :=
  {| login_status := Some 4;
     login_data :=
       Some {| redirect := false; region := None; step_type := Some "tou";
               authTicket := None; user := None |} |}.

(** A final answer that names no user. *)
Definition ticket_without_user : LoginResp :=
  {| login_status := Some 0;
     login_data :=
       Some {| redirect := false; region := None; step_type := None;
               authTicket := Some {| ticket_token := Some "t2" |}; user := None |} |}.

End Script.
(** * Properties *)

(** ** Numbers, dates and timers *)


Lemma TimeClip_valid (t : Z) : Z.abs t <= maxTime -> TimeClip t = Some t.
Proof.
  intros Hz. unfold TimeClip.
  destruct (Z.leb_spec (Z.abs t) maxTime); [reflexivity | lia].
Qed.

Lemma round_binary64_exact (z : Z) : Z.abs z < 2 ^ 53 -> round_binary64 z = z.
Proof.
  intros Hz. unfold round_binary64. cbv zeta.
  destruct (Z.ltb_spec (Z.abs z) (2 ^ 53)); [reflexivity | lia].
Qed.

(** Above 2^53 the rounded value stays above 2^53, on either side of
    zero. *)
Lemma round_binary64_large (z : Z) :
  2 ^ 53 <= Z.abs z ->
  (0 < z -> 2 ^ 53 <= round_binary64 z) /\ (z < 0 -> round_binary64 z <= - 2 ^ 53).
Proof.
  intros H. unfold round_binary64. cbv zeta.
  destruct (Z.ltb_spec (Z.abs z) (2 ^ 53)) as [Hlt | _]; [lia |].
  set (a := Z.abs z) in *. set (e := Z.log2 a - 52).
  assert (Ha : 0 < a) by (change (2 ^ 53) with 9007199254740992 in H; lia).
  assert (Hlog : 53 <= Z.log2 a).
  { rewrite <- (Z.log2_pow2 53) by lia. apply Z.log2_le_mono. exact H. }
  assert (He : 1 <= e) by (unfold e; lia).
  assert (Hpow : 0 < 2 ^ e) by (apply Z.pow_pos_nonneg; lia).
  assert (Hq : 2 ^ 52 <= a / 2 ^ e).
  { apply Z.div_le_lower_bound; [exact Hpow |].
    rewrite <- Z.pow_add_r by lia. replace (e + 52) with (Z.log2 a) by (unfold e; lia).
    apply Z.log2_spec. exact Ha. }
  assert (He2 : 2 <= 2 ^ e).
  { change 2 with (2 ^ 1) at 1. apply Z.pow_le_mono_r; lia. }
  set (q := if (a mod 2 ^ e <? 2 ^ (e - 1))
               || (a mod 2 ^ e =? 2 ^ (e - 1)) && Z.even (a / 2 ^ e)
            then a / 2 ^ e else a / 2 ^ e + 1).
  assert (Hq' : 2 ^ 52 <= q) by (unfold q; destruct (_ || _); lia).
  assert (Hprod : 2 ^ 53 <= q * 2 ^ e).
  { change (2 ^ 53) with (2 ^ 52 * 2). change (2 ^ 52) with 4503599627370496 in *. nia. }
  split; intros Hs.
  - rewrite (Z.sgn_pos z Hs). lia.
  - rewrite (Z.sgn_neg z Hs). lia.
Qed.

(** Rounding to binary64 does not cross the floor of the scheduler. *)
Lemma round_binary64_floor (z : Z) :
  (round_binary64 z <? 1000) = (z <? 1000).
Proof.
  destruct (Z.lt_ge_cases (Z.abs z) (2 ^ 53)) as [Hs | Hl].
  - rewrite (round_binary64_exact z Hs). reflexivity.
  - destruct (round_binary64_large z Hl) as [Hpos Hneg].
    change (2 ^ 53) with 9007199254740992 in *.
    destruct (Z.ltb_spec z 1000), (Z.ltb_spec (round_binary64 z) 1000);
      try reflexivity; lia.
Qed.

Lemma setTimeout_range (delay : option Z) : 1 <= setTimeout delay <= 2147483647.
Proof.
  unfold setTimeout. destruct delay as [d |]; [| lia].
  destruct (Z.leb_spec 1 d), (Z.leb_spec d 2147483647); simpl; lia.
Qed.

(** ** Trend and unit engine *)

(** C5.  The since-last classification of an integer difference is a trend
    code in 1..5: 3 exactly at 0, 4 on 1..5, 5 above 5, 2 on -5..-1, 1 below
    -5; the threshold edges 5, 6, -5, -6 give 4, 5, 2, 1. *)
Theorem computeSinceLastTrendArrowNumber_table (diff : Z) :
  1 <= computeSinceLastTrendArrowNumber diff <= 5
  /\ computeSinceLastTrendArrowNumber 0 = 3
  /\ (0 < diff <= 5 -> computeSinceLastTrendArrowNumber diff = 4)
  /\ (5 < diff -> computeSinceLastTrendArrowNumber diff = 5)
  /\ (-5 <= diff < 0 -> computeSinceLastTrendArrowNumber diff = 2)
  /\ (diff < -5 -> computeSinceLastTrendArrowNumber diff = 1)
  /\ computeSinceLastTrendArrowNumber 5 = 4
  /\ computeSinceLastTrendArrowNumber 6 = 5
  /\ computeSinceLastTrendArrowNumber (-5) = 2
  /\ computeSinceLastTrendArrowNumber (-6) = 1.
Proof.
  unfold computeSinceLastTrendArrowNumber.
  repeat split; try reflexivity;
    destruct (Z.eqb_spec diff 0), (Z.ltb_spec 0 diff), (Z.leb_spec diff 5),
      (Z.ltb_spec 5 diff), (Z.ltb_spec diff 0), (Z.leb_spec (-5) diff);
    simpl; lia.
Qed.

Lemma computeSinceLastTrendArrowNumber_table_witness :
  computeSinceLastTrendArrowNumber 4 = 4 /\ computeSinceLastTrendArrowNumber (-9) = 1.
Proof.
  split.
  - destruct (computeSinceLastTrendArrowNumber_table 4) as (_ & _ & H & _).
    apply H. lia.
  - destruct (computeSinceLastTrendArrowNumber_table (-9)) as (_ & _ & _ & _ & _ & H & _).
    apply H. lia.
Defined.







(** The rounding of a difference of time values, on the binary64 numbers
    themselves: [round_binary64 z] is the integer that the binary64 number
    nearest to [z] holds, at and around the first gaps of the format and
    at the largest difference of two time values. *)
Lemma round_binary64_samples :
  forallb (fun z => PrimFloat.Leibniz.eqb (double_of_Z (round_binary64 z)) (double_of_Z z)
                    && (round_binary64 (round_binary64 z) =? round_binary64 z))
    [2 ^ 53 - 1; 2 ^ 53; 2 ^ 53 + 1; 2 ^ 53 + 2; 2 ^ 53 + 3; 2 ^ 54 + 2; 2 ^ 54 + 6;
     2 ^ 54 - 1; 2 * maxTime + 123000; 2 * maxTime - 1; - (2 ^ 53 + 1); - (2 ^ 53 + 3);
     - (2 * maxTime + 1)] = true
  /\ round_binary64 (2 ^ 53 + 1) = 2 ^ 53
  /\ round_binary64 (2 ^ 53 + 3) = 2 ^ 53 + 4
  /\ round_binary64 (2 ^ 54 + 2) = 2 ^ 54
  /\ round_binary64 (2 ^ 54 + 6) = 2 ^ 54 + 8.
Proof. repeat split; vm_compute; reflexivity. Qed.




Open Scope list_scope.

(** ** The monad *)

Section MonadFacts.

Context {P : Platform}.

Lemma bind_ret_l {A B : Type} (x : A) (k : A -> M B) (w : World) :
  bind (ret x) k w = k x w.
Proof. reflexivity. Qed.

Lemma bind_modify {B : Type} (f : World -> World) (k : unit -> M B) (w : World) :
  bind (modify f) k w = k tt (f w).
Proof. reflexivity. Qed.

Lemma bind_gets {A B : Type} (f : World -> A) (k : A -> M B) (w : World) :
  bind (gets f) k w = k (f w) w.
Proof. reflexivity. Qed.

Lemma bind_assoc {A B C : Type} (c : M A) (k : A -> M B) (h : B -> M C) (w : World) :
  bind (bind c k) h w = bind c (fun x => bind (k x) h) w.
Proof. unfold bind. destruct (c w) as [[x | e |] w1]; reflexivity. Qed.

Lemma bind_Returned {A B : Type} (c : M A) (k : A -> M B) (w w1 : World) (x : A) :
  c w = (Returned x, w1) -> bind c k w = k x w1.
Proof. intros H. unfold bind. rewrite H. reflexivity. Qed.

Lemma bind_inv_Returned {A B : Type} (c : M A) (k : A -> M B) (w w' : World) (y : B) :
  bind c k w = (Returned y, w') ->
  exists x w1, c w = (Returned x, w1) /\ k x w1 = (Returned y, w').
Proof.
  unfold bind. destruct (c w) as [[x | e |] w1]; intros H; try discriminate.
  exists x, w1. split; [reflexivity | exact H].
Qed.

End MonadFacts.

Ltac bind_inv H :=
  let x := fresh "x" in
  let w := fresh "w" in
  let E := fresh "E" in
  apply bind_inv_Returned in H; destruct H as (x & w & E & H).

(** ** The store files *)

Section StoreFacts.

Context {P : Platform}.

Lemma readMeasurementsFile_eq (w : World) :
  readMeasurementsFile w
  = (Returned (persistedLog w),
     warned "latestMeasurements.json" (measurementsFile w) w).
Proof.
  unfold readMeasurementsFile, persistedLog, warned. rewrite bind_gets.
  destruct (measurementsFile w) as [[raw | [arr |]] |]; reflexivity.
Qed.


Lemma persistedLog_warned {A : Type} (name : string) (file : option (Content A)) (w : World) :
  persistedLog (warned name file w) = persistedLog w.
Proof. destruct file as [[raw | v] |]; reflexivity. Qed.

Lemma purge_all_today (now : Z) (arr : list Measurement) :
  Forall (todays now) (purgeOldMeasurements now arr).
Proof.
  unfold purgeOldMeasurements. apply Forall_forall. intros m Hm.
  apply filter_In in Hm. destruct Hm as [_ Hm].
  apply String.eqb_eq in Hm. exact Hm.
Qed.

(** A rendered integer starts with a digit or a minus sign. *)
Lemma show_Z_head (z : Z) :
  exists c s, show_Z z = String c s /\ c <> "I"%char.
Proof.
  unfold show_Z.
  destruct z as [| p | p]; simpl.
  - eexists _, _. split; [reflexivity | discriminate].
  - unfold NilZero.string_of_uint.
    destruct (Pos.to_uint p); simpl;
      eexists _, _; (split; [reflexivity | discriminate]).
  - eexists _, _. split; [reflexivity | discriminate].
Qed.

Lemma today_is_a_date (t : Z) : toLocaleDateString tz (Some t) <> "Invalid Date".
Proof.
  unfold toLocaleDateString.
  destruct (civil_from_days ((t + tz t true) / msPerDay)) as [[y m] d].
  destruct (show_Z_head m) as (c & s & E & Hc). rewrite E. simpl.
  intros H. inversion H. contradiction.
Qed.

(** What the purge keeps has a date. *)
Lemma purge_dated (now : Z) (arr : list Measurement) (m : Measurement) :
  In m (purgeOldMeasurements now arr) -> exists p, m_Timestamp m = Some p.
Proof.
  intros Hm. pose proof (purge_all_today now arr) as H.
  rewrite Forall_forall in H. specialize (H m Hm). unfold todays in H.
  destruct (m_Timestamp m) as [p |]; [exists p; reflexivity |].
  exfalso. apply (today_is_a_date now). symmetry. exact H.
Qed.

Lemma last_item_In {A : Type} (arr : list A) (x : A) :
  last_item arr = Some x -> In x arr.
Proof.
  induction arr as [| y [| z rest] IH]; simpl; intros H.
  - discriminate.
  - inversion H. left. reflexivity.
  - right. apply IH. exact H.
Qed.



Lemma last_item_nil {A : Type} (arr : list A) : last_item arr = None -> arr = [].
Proof.
  induction arr as [| y [| z rest] IH]; simpl; intros H.
  - reflexivity.
  - discriminate.
  - specialize (IH H). discriminate.
Qed.

(** The gap test of the source, [diffMinutes <= 24], on milliseconds. *)
Lemma within_24_minutes (d : Z) :
  Qle_bool (inject_Z d / 1000 / 60) 24 = (d <=? 24 * 60 * 1000).
Proof.
  cbv beta iota zeta delta [Qle_bool Qdiv Qmult Qinv inject_Z Qnum Qden].
  rewrite !Pos2Z.inj_mul.
  destruct (Z.leb_spec d (24 * 60 * 1000)); [apply Z.leb_le | apply Z.leb_gt]; lia.
Qed.

Lemma storeMeasurement_eq (now : Z) (parsedDate : JSDate) (isoStamp : Z)
    (latest : GlucoseMeasurement) (w : World) :
  MainServer.storeMeasurement now parsedDate isoStamp latest w
  = (Returned
       match MainServer.sinceLastArrow parsedDate latest
               (purgeOldMeasurements now (persistedLog w)) with
       | Some n => arrowToEmoji n
       | None => "N/A"
       end,
     stored now parsedDate isoStamp latest w).
Proof.
  unfold MainServer.storeMeasurement, stored.
  rewrite (bind_Returned _ _ _ _ _ (readMeasurementsFile_eq w)).
  destruct (MainServer.sinceLastArrow parsedDate latest
              (purgeOldMeasurements now (persistedLog w))) as [n |]; reflexivity.
Qed.

Lemma classifications_app (evs evs' : list Event) :
  classifications (evs ++ evs') = (classifications evs ++ classifications evs')%list.
Proof.
  induction evs as [| e rest IH]; [reflexivity |].
  destruct e; simpl; rewrite IH; reflexivity.
Qed.

Lemma classifications_warned {A : Type} (name : string) (file : option (Content A)) (w : World) :
  classifications (events (warned name file w)) = classifications (events w).
Proof.
  destruct file as [[raw | v] |]; try reflexivity.
  simpl. rewrite classifications_app. simpl. apply app_nil_r.
Qed.

End StoreFacts.

(** ** The store files and the store step *)

Section StoreProperties.

Context {P : Platform}.



End StoreProperties.

(** ** The login flow *)

Section LoginFacts.

Context {P : Platform}.

Lemma truthy_Some (s : string) : truthy (Some s) = true <-> s <> EmptyString.
Proof.
  simpl. destruct (String.eqb_spec s EmptyString); simpl; split; intros H;
    try reflexivity; try discriminate; try assumption; contradiction.
Qed.

Lemma truthy_inv (x : option string) :
  truthy x = true -> exists s, x = Some s /\ s <> EmptyString.
Proof.
  destruct x as [s |]; [| discriminate].
  intros H. exists s. split; [reflexivity | apply truthy_Some; exact H].
Qed.

Lemma strict_eq_true (x : option Z) (n : Z) : strict_eq x n = true <-> x = Some n.
Proof.
  destruct x as [z |]; simpl.
  - rewrite Z.eqb_eq. split; intros H; [subst; reflexivity | inversion H; reflexivity].
  - split; discriminate.
Qed.

Lemma strict_eq_false (x : option Z) (n : Z) : strict_eq x n = false <-> x <> Some n.
Proof.
  split.
  - intros H E. apply strict_eq_true in E. congruence.
  - intros H. destruct (strict_eq x n) eqn:E; [| reflexivity].
    apply strict_eq_true in E. contradiction.
Qed.

Lemma send_eq {A : Type} (serve : Request -> Upstream -> option A * Upstream)
    (method : Method) (path : string) (authorization : option string)
    (body : option (string * string)) (w : World) :
  send serve method path authorization body w
  = let req := request_for w method path authorization body in
    (match fst (serve req (upstream w)) with
     | Some data => Returned data
     | None => Thrown RequestFailed
     end,
     sent req (snd (serve req (upstream w))) w).
Proof.
  unfold send, sent. cbn zeta.
  destruct (serve _ (upstream w)) as [[data |] u]; reflexivity.
Qed.

Lemma send_Returned {A : Type} (serve : Request -> Upstream -> option A * Upstream)
    (method : Method) (path : string) (authorization : option string)
    (body : option (string * string)) (w w' : World) (data : A) :
  send serve method path authorization body w = (Returned data, w') ->
  exists u, serve (request_for w method path authorization body) (upstream w)
            = (Some data, u)
            /\ w' = sent (request_for w method path authorization body) u w.
Proof.
  rewrite send_eq. cbn zeta.
  destruct (serve _ (upstream w)) as [[d |] u]; simpl; intros H; inversion H.
  exists u. split; reflexivity.
Qed.

Lemma send_answer {A : Type} (serve : Request -> Upstream -> option A * Upstream)
    (method : Method) (path : string) (authorization : option string)
    (body : option (string * string)) (w : World) (data : A) (u : Upstream) :
  serve (request_for w method path authorization body) (upstream w) = (Some data, u) ->
  send serve method path authorization body w
  = (Returned data, sent (request_for w method path authorization body) u w).
Proof. intros H. rewrite send_eq. cbn zeta. rewrite H. reflexivity. Qed.

(** What a successful continuation step did. *)
Lemma doAuthContinue_Returned (r : LoginResp) (w w' : World) (answer : option LoginResp) :
  doAuthContinue (Some r) w = (Returned answer, w') ->
  exists data ticket stepType tok u,
    login_data r = Some data
    /\ step_type data = Some stepType /\ stepType <> EmptyString
    /\ authTicket data = Some ticket
    /\ ticket_token ticket = Some tok /\ tok <> EmptyString
    /\ serve_auth (request_for w POST ("/auth/continue/" ++ stepType)%string
                     (Some ("Bearer " ++ tok)%string) None) (upstream w)
       = (Some answer, u)
    /\ w' = sent (request_for w POST ("/auth/continue/" ++ stepType)%string
                    (Some ("Bearer " ++ tok)%string) None) u w.
Proof.
  unfold doAuthContinue.
  destruct (login_data r) as [data |] eqn:Hd; [| discriminate].
  destruct (truthy (step_type data)) eqn:Hstep; [| discriminate].
  destruct (authTicket data) as [ticket |] eqn:Hticket; [| discriminate].
  destruct (truthy (ticket_token ticket)) eqn:Htok; [| discriminate].
  simpl. intros H.
  destruct (truthy_inv _ Hstep) as (stepType & Es & Hs).
  destruct (truthy_inv _ Htok) as (tok & Et & Ht).
  rewrite Es, Et in H. simpl in H.
  apply send_Returned in H. destruct H as (u & Hserve & Hw).
  exists data, ticket, stepType, tok, u. repeat split; assumption.
Qed.

Lemma doAuthContinue_step (r : LoginResp) (data : LoginData) (ticket : AuthTicket)
    (stepType tok : string) :
  login_data r = Some data ->
  step_type data = Some stepType -> stepType <> EmptyString ->
  authTicket data = Some ticket ->
  ticket_token ticket = Some tok -> tok <> EmptyString ->
  doAuthContinue (Some r)
  = send serve_auth POST ("/auth/continue/" ++ stepType)%string
      (Some ("Bearer " ++ tok)%string) None.
Proof.
  intros Hdata Hstep Hs Hticket Htok Ht. unfold doAuthContinue.
  rewrite Hdata, Hticket, Hstep, Htok.
  apply truthy_Some in Hs, Ht. rewrite Hs, Ht. reflexivity.
Qed.

Section Loops.

Variable updateBaseURL : string -> M unit.

Lemma continueLoop_done (fuel : nat) (respData : option LoginResp) :
  status_of respData <> Some 4 -> continueLoop fuel respData = ret respData.
Proof.
  intros H. apply strict_eq_false in H. destruct fuel; simpl; rewrite H; reflexivity.
Qed.

Lemma continueLoop_round (fuel : nat) (r : LoginResp) :
  login_status r = Some 4 ->
  continueLoop (S fuel) (Some r)
  = bind (doAuthContinue (Some r)) (continueLoop fuel).
Proof. intros H. simpl. rewrite H. reflexivity. Qed.

(** The loop does what [continued] says... *)
Lemma continueLoop_sound (fuel : nat) :
  forall (r : LoginResp) (w w' : World) (final : option LoginResp),
    login_status r = Some 4 ->
    continueLoop fuel (Some r) w = (Returned final, w') ->
    continued w r w' final.
Proof.
  induction fuel as [| fuel IH]; intros r w w' final H4 Hloop.
  - simpl in Hloop. rewrite H4 in Hloop. discriminate.
  - rewrite (continueLoop_round fuel r H4) in Hloop. bind_inv Hloop.
    destruct (doAuthContinue_Returned _ _ _ _ E)
      as (data & ticket & stepType & tok & u & Hd & Hs & Hs' & Ht & Hk & Hk' & Hserve & Hw).
    subst w0.
    destruct (strict_eq (status_of x) 4) eqn:Hx.
    + apply strict_eq_true in Hx.
      destruct x as [r1 |]; [| discriminate].
      eapply continued_again; eauto.
    + apply strict_eq_false in Hx.
      rewrite (continueLoop_done fuel x Hx) in Hloop. inversion Hloop; subst.
      eapply continued_once; eauto.
Qed.

(** ... and with enough fuel it returns what [continued] says. *)
Lemma continueLoop_complete (r : LoginResp) (w w' : World) (final : option LoginResp) :
  continued w r w' final ->
  exists n, forall fuel, (n <= fuel)%nat ->
    continueLoop fuel (Some r) w = (Returned final, w').
Proof.
  induction 1 as [w r data ticket stepType tok answer u H4 Hd Hs Hs' Ht Hk Hk' req Hserve Hend
                 | w r data ticket stepType tok r1 u w' final H4 Hd Hs Hs' Ht Hk Hk' req
                     Hserve H4' Hrest IH].
  - subst req. exists 1%nat. intros [| fuel] Hfuel; [lia |].
    rewrite (continueLoop_round fuel r H4).
    rewrite (doAuthContinue_step r data ticket stepType tok Hd Hs Hs' Ht Hk Hk').
    rewrite (bind_Returned _ _ _ _ _ (send_answer _ _ _ _ _ _ _ _ Hserve)).
    rewrite (continueLoop_done fuel answer Hend). reflexivity.
  - subst req. destruct IH as [n IH]. exists (S n). intros [| fuel] Hfuel; [lia |].
    rewrite (continueLoop_round fuel r H4).
    rewrite (doAuthContinue_step r data ticket stepType tok Hd Hs Hs' Ht Hk Hk').
    rewrite (bind_Returned _ _ _ _ _ (send_answer _ _ _ _ _ _ _ _ Hserve)).
    apply IH. lia.
Qed.

Lemma continued_ends (w w' : World) (r : LoginResp) (final : option LoginResp) :
  continued w r w' final -> status_of final <> Some 4.
Proof. induction 1; assumption. Qed.

Lemma finishLogin_Returned (respData : option LoginResp) (w w' : World) (s : Session) :
  finishLogin respData w = (Returned s, w') ->
  exists final, respData = Some final /\ login_status final = Some 0
                /\ session_from final s /\ w' = w.
Proof.
  unfold finishLogin.
  destruct (strict_eq (status_of respData) 0) eqn:H0; [| discriminate].
  apply strict_eq_true in H0. simpl.
  destruct respData as [final |]; [| discriminate].
  destruct (login_data final) as [data |] eqn:Hd; [| discriminate].
  destruct (authTicket data) as [ticket |] eqn:Ht; [| discriminate].
  destruct (user data) as [u |] eqn:Hu; [| discriminate].
  destruct (user_id u) as [uid |] eqn:Hid; [| discriminate].
  intros H. inversion H; subst.
  exists final. repeat split; [exact H0 |].
  exists data, ticket, u, uid. repeat split; assumption.
Qed.

Lemma finishLogin_session (final : LoginResp) (s : Session) (w : World) :
  login_status final = Some 0 -> session_from final s ->
  finishLogin (Some final) w = (Returned s, w).
Proof.
  intros H0 (data & ticket & u & uid & Hd & Ht & Hu & Hid & Hs).
  unfold finishLogin. simpl. rewrite H0, Hd, Ht, Hu, Hid, Hs. reflexivity.
Qed.

End Loops.

End LoginFacts.

Section LoginProperties.

Context {P : Platform}.

Lemma redirectLoop_done (updateBaseURL : string -> M unit) (fuel : nat)
    (email password : string) (respData : option LoginResp) :
  redirect_of respData = false ->
  redirectLoop updateBaseURL fuel email password respData = ret respData.
Proof. intros H. destruct fuel; simpl; rewrite H; reflexivity. Qed.

(** C3.  While the working response has status 4 the flow posts to the
    continuation endpoint of its step type, with its token as bearer, and
    goes on with the answer; a flow that returns a session has gone through
    such rounds from the login response down to a response of status 0, and
    the token and the user of the session are those of that last response;
    the loop returns as soon as the fuel covers the rounds.  In particular
    a login response of status 4 followed by a continuation response of
    status 0 gives the session of the continuation response. *)
Theorem continuation_decides_session (updateBaseURL : string -> M unit) :
  (forall fuel r data ticket stepType tok,
      login_status r = Some 4 ->
      login_data r = Some data ->
      step_type data = Some stepType -> stepType <> EmptyString ->
      authTicket data = Some ticket ->
      ticket_token ticket = Some tok -> tok <> EmptyString ->
      continueLoop (S fuel) (Some r)
      = bind (send serve_auth POST ("/auth/continue/" ++ stepType)%string
                (Some ("Bearer " ++ tok)%string) None)
             (continueLoop fuel))
  /\ (forall fuel email password w s w',
        doLoginFlow updateBaseURL fuel email password w = (Returned s, w') ->
        exists r0 w0 final,
          bind (postLogin email password)
               (redirectLoop updateBaseURL fuel email password) w
          = (Returned (Some r0), w0)
          /\ (login_status r0 = Some 4 -> continued w0 r0 w' (Some final))
          /\ (login_status r0 <> Some 4 -> final = r0 /\ w' = w0)
          /\ login_status final = Some 0
          /\ session_from final s)
  /\ (forall r w w' final,
        continued w r w' final ->
        exists n, forall fuel, (n <= fuel)%nat ->
          continueLoop fuel (Some r) w = (Returned final, w'))
  /\ (forall fuel email password w r0 u0 data ticket stepType tok final u1 s,
        let login := request_for w POST "/llu/auth/login" None (Some (email, password)) in
        serve_auth login (upstream w) = (Some (Some r0), u0) ->
        redirect_of (Some r0) = false ->
        login_status r0 = Some 4 ->
        login_data r0 = Some data ->
        step_type data = Some stepType -> stepType <> EmptyString ->
        authTicket data = Some ticket ->
        ticket_token ticket = Some tok -> tok <> EmptyString ->
        let w0 := sent login u0 w in
        let continuation :=
          request_for w0 POST ("/auth/continue/" ++ stepType)%string
            (Some ("Bearer " ++ tok)%string) None in
        serve_auth continuation u0 = (Some (Some final), u1) ->
        login_status final = Some 0 ->
        session_from final s ->
        doLoginFlow updateBaseURL (S fuel) email password w
        = (Returned s, sent continuation u1 w0)).
Proof.
  split; [| split; [| split]].
  - intros fuel r data ticket stepType tok H4 Hd Hs Hs' Ht Hk Hk'.
    rewrite (continueLoop_round fuel r H4).
    rewrite (doAuthContinue_step r data ticket stepType tok Hd Hs Hs' Ht Hk Hk').
    reflexivity.
  - intros fuel email password w s w' Hflow.
    unfold doLoginFlow in Hflow.
    bind_inv Hflow. bind_inv Hflow. bind_inv Hflow.
    destruct (finishLogin_Returned _ _ _ _ Hflow) as (final & Ex & H0 & Hs & Hw).
    subst x1 w'.
    destruct (strict_eq (status_of x0) 4) eqn:H4.
    + apply strict_eq_true in H4. destruct x0 as [r0 |]; [| discriminate].
      exists r0, w1, final. simpl in H4.
      split; [rewrite (bind_Returned _ _ _ _ _ E); exact E0 |].
      split; [intros _; apply (continueLoop_sound fuel); assumption |].
      split; [intros Hn; contradiction |].
      split; assumption.
    + apply strict_eq_false in H4.
      rewrite (continueLoop_done fuel x0 H4) in E1. inversion E1; subst.
      exists final, w2, final.
      split; [rewrite (bind_Returned _ _ _ _ _ E); exact E0 |].
      split; [intros H4'; simpl in H4; contradiction |].
      split; [intros _; split; reflexivity |].
      split; assumption.
  - intros r w w' final Hc. apply continueLoop_complete. exact Hc.
  - intros fuel email password w r0 u0 data ticket stepType tok final u1 s login
           Hlogin Hred H4 Hd Hs Hs' Ht Hk Hk' w0 continuation Hcont H0 Hsession.
    subst continuation w0 login.
    unfold doLoginFlow, postLogin.
    rewrite (bind_Returned _ _ _ _ _ (send_answer _ _ _ _ _ _ _ _ Hlogin)).
    rewrite (redirectLoop_done updateBaseURL (S fuel) email password _ Hred).
    rewrite bind_ret_l.
    rewrite (continueLoop_round fuel r0 H4).
    rewrite (doAuthContinue_step r0 data ticket stepType tok Hd Hs Hs' Ht Hk Hk').
    rewrite bind_assoc.
    rewrite (bind_Returned _ _ _ _ _ (send_answer serve_auth _ _ _ _ _ _ _ Hcont)).
    assert (Hend : status_of (Some final) <> Some 4)
      by (simpl; rewrite H0; discriminate).
    rewrite (continueLoop_done fuel (Some final) Hend). rewrite bind_ret_l.
    apply finishLogin_session; assumption.
Qed.


End LoginProperties.

Lemma continuation_decides_session_witness :
  exists w',
    doLoginFlow (P := Demo.platform) MainServer.updateBaseURL 1 "ada@example.org" "secret"
      (Demo.regional_world true)
    = (Returned {| token := Some "t2"; userId := "u-1"; accountIdHash := "sha256:u-1" |}, w').
Proof.
  eexists.
  destruct (continuation_decides_session (P := Demo.platform) MainServer.updateBaseURL)
    as (_ & _ & _ & H).
  eapply (H 0%nat "ada@example.org" "secret" (Demo.regional_world true)
            (Demo.ticket "t1" (Some "u-0") 4 (Some "tou")) true _ _ "tou" "t1"
            (Demo.ticket "t2" (Some "u-1") 0 None) false);
    try reflexivity; try discriminate.
  eexists _, _, _, _. repeat split; reflexivity.
Defined.

(** ** Steps of the process that stay within a relation *)

Section KeepsRules.

Context {P : Platform}.

Variable R : World -> World -> Prop.
Hypothesis R_refl : forall w, R w w.
Hypothesis R_trans : forall w1 w2 w3, R w1 w2 -> R w2 w3 -> R w1 w3.

Lemma keeps_ret {A : Type} (x : A) : keeps R (ret x).
Proof. intros w. apply R_refl. Qed.

Lemma keeps_throw {A : Type} (e : Exn) : keeps R (throw (A := A) e).
Proof. intros w. apply R_refl. Qed.

Lemma keeps_out_of_fuel {A : Type} : keeps R (out_of_fuel (A := A)).
Proof. intros w. apply R_refl. Qed.

Lemma keeps_gets {A : Type} (f : World -> A) : keeps R (gets f).
Proof. intros w. apply R_refl. Qed.

Lemma keeps_bind {A B : Type} (c : M A) (k : A -> M B) :
  keeps R c -> (forall x, keeps R (k x)) -> keeps R (bind c k).
Proof.
  intros Hc Hk w. specialize (Hc w). unfold bind.
  destruct (c w) as [[x | e |] w1]; simpl in Hc |- *; try exact Hc.
  apply (R_trans _ _ _ Hc). apply Hk.
Qed.

Lemma keeps_modify (f : World -> World) :
  (forall w, R w (f w)) -> keeps R (modify f).
Proof. intros H w. apply H. Qed.

Lemma keeps_send {A : Type} (serve : Request -> Upstream -> option A * Upstream)
    (method : Method) (path : string) (authorization : option string)
    (body : option (string * string)) :
  (forall w u, R w (sent (request_for w method path authorization body) u w)) ->
  keeps R (send serve method path authorization body).
Proof. intros H w. rewrite send_eq. apply H. Qed.

(** The chain of timers stays within [R] when each cycle does. *)
Lemma runTimers_keeps (cycle : Z -> Z -> World -> option Z * World) :
  (forall now now' w, R w (snd (cycle now now' w))) ->
  forall clock w, R w (runTimers cycle clock w).
Proof.
  intros Hcycle clock. induction clock as [| [now now'] rest IH]; intros w; simpl.
  - apply R_refl.
  - specialize (Hcycle now now' w).
    destruct (cycle now now' w) as [[delay |] w']; simpl in Hcycle.
    + apply (R_trans _ _ _ Hcycle). apply IH.
    + exact Hcycle.
Qed.

End KeepsRules.

Create HintDb keeps.

(** The structure of a program piece, down to its primitive steps: [prim]
    proves a primitive step, [refl] and [trans] are the two laws of the
    relation. *)
Ltac keeps_with refl trans prim :=
  repeat (cbn zeta;
    lazymatch goal with
    | |- keeps _ (bind _ _) => apply keeps_bind; [ trans | | intros ? ]
    | |- keeps _ (ret _) => apply keeps_ret; refl
    | |- keeps _ (throw _) => apply keeps_throw; refl
    | |- keeps _ out_of_fuel => apply keeps_out_of_fuel; refl
    | |- keeps _ (gets _) => apply keeps_gets; refl
    | |- keeps _ (modify _) => apply keeps_modify; intros ?; prim
    | |- keeps _ (send _ _ _ _ _) => apply keeps_send; intros ? ?; prim
    | |- keeps _ (match ?x with _ => _ end) => destruct x
    | |- keeps _ _ => solve [eauto with keeps]
    end).

(** *** Requests follow the switches of the address *)

Section FollowsSwitches.

Context {P : Platform}.

Lemma routed_app (base : string) (evs evs' : list Event) :
  routed base (evs ++ evs')
  = match routed base evs with
    | Some base' => routed base' evs'
    | None => None
    end.
Proof.
  revert base. induction evs as [| e rest IH]; intros base; [reflexivity |].
  destruct e; simpl; try apply IH.
  destruct (req_base r =? base)%string; [apply IH | reflexivity].
Qed.

Lemma follows_refl (w : World) : follows_switches w w.
Proof. exists []. split; [symmetry; apply app_nil_r | reflexivity]. Qed.

Lemma follows_trans (w1 w2 w3 : World) :
  follows_switches w1 w2 -> follows_switches w2 w3 -> follows_switches w1 w3.
Proof.
  intros (n1 & E1 & H1) (n2 & E2 & H2). exists (n1 ++ n2). split.
  - rewrite E2, E1, app_assoc. reflexivity.
  - rewrite routed_app, H1. exact H2.
Qed.

Lemma follows_quiet (w w' : World) :
  events w' = events w -> apiClient_baseURL w' = apiClient_baseURL w ->
  follows_switches w w'.
Proof.
  intros He Hb. exists []. split; [rewrite He; symmetry; apply app_nil_r |].
  simpl. rewrite Hb. reflexivity.
Qed.

Lemma follows_event (w w' : World) (e : Event) (base : string) :
  events w' = events w ++ [e] ->
  routed (apiClient_baseURL w) [e] = Some base ->
  apiClient_baseURL w' = base ->
  follows_switches w w'.
Proof. intros He Hr Hb. exists [e]. split; [exact He | rewrite Hb; exact Hr]. Qed.

End FollowsSwitches.

Ltac follows_prim :=
  first
    [ apply follows_quiet; reflexivity
    | eapply follows_event;
      [ reflexivity | simpl; rewrite ?String.eqb_refl; reflexivity | reflexivity ] ].

Ltac follows_tac :=
  keeps_with ltac:(exact follows_refl) ltac:(exact follows_trans) ltac:(follows_prim).

Section FollowsSwitchesProgram.

Context {P : Platform}.

Lemma follows_readCache : keeps follows_switches readCache.
Proof. unfold readCache. follows_tac. Qed.

Lemma follows_writeCache (obj : CacheDoc) : keeps follows_switches (writeCache obj).
Proof. unfold writeCache. follows_tac. Qed.

Lemma follows_askQuestion (q : string) : keeps follows_switches (askQuestion q).
Proof. unfold askQuestion. follows_tac. Qed.

Lemma follows_readMeasurementsFile : keeps follows_switches readMeasurementsFile.
Proof. unfold readMeasurementsFile. follows_tac. Qed.

Lemma follows_writeMeasurementsFile (arr : list Measurement) :
  keeps follows_switches (writeMeasurementsFile arr).
Proof. unfold writeMeasurementsFile. follows_tac. Qed.

Lemma follows_postLogin (email password : string) :
  keeps follows_switches (postLogin email password).
Proof. unfold postLogin. follows_tac. Qed.

Lemma follows_doAuthContinue (prev : option LoginResp) :
  keeps follows_switches (doAuthContinue prev).
Proof. unfold doAuthContinue. follows_tac. Qed.

Lemma follows_updateBaseURL (region : string) :
  keeps follows_switches (MainServer.updateBaseURL region).
Proof.
  intros w. exists [UpdatedBaseURL (regional region)]. split; reflexivity.
Qed.

Lemma follows_parseLibreTimestamp (ts : string) :
  keeps follows_switches (parseLibreTimestamp ts).
Proof. unfold parseLibreTimestamp. follows_tac. Qed.

Lemma follows_toISOString (d : JSDate) : keeps follows_switches (toISOString d).
Proof. unfold toISOString. follows_tac. Qed.

Hint Resolve follows_readCache follows_writeCache follows_askQuestion
  follows_readMeasurementsFile follows_writeMeasurementsFile follows_postLogin
  follows_doAuthContinue follows_updateBaseURL follows_parseLibreTimestamp
  follows_toISOString : keeps.

Lemma follows_redirectLoop (fuel : nat) (email password : string) :
  forall respData,
    keeps follows_switches
      (redirectLoop MainServer.updateBaseURL fuel email password respData).
Proof.
  induction fuel as [| fuel IH]; intros respData; simpl; follows_tac.
Qed.

Lemma follows_continueLoop (fuel : nat) :
  forall respData, keeps follows_switches (continueLoop fuel respData).
Proof.
  induction fuel as [| fuel IH]; intros respData; simpl; follows_tac.
Qed.

Lemma follows_finishLogin (respData : option LoginResp) :
  keeps follows_switches (finishLogin respData).
Proof. unfold finishLogin. follows_tac. Qed.

Hint Resolve follows_redirectLoop follows_continueLoop follows_finishLogin : keeps.

Lemma follows_doLoginFlow (fuel : nat) (email password : string) :
  keeps follows_switches (doLoginFlow MainServer.updateBaseURL fuel email password).
Proof. unfold doLoginFlow. follows_tac. Qed.

Hint Resolve follows_doLoginFlow : keeps.

Lemma follows_ensureSession (fuel : nat) :
  keeps follows_switches (ensureSession MainServer.updateBaseURL fuel).
Proof. unfold ensureSession, promptAndLogin. follows_tac. Qed.

Lemma follows_storeMeasurement (now : Z) (parsedDate : JSDate) (isoStamp : Z)
    (latest : GlucoseMeasurement) :
  keeps follows_switches (MainServer.storeMeasurement now parsedDate isoStamp latest).
Proof. unfold MainServer.storeMeasurement. follows_tac. Qed.

Lemma follows_publish (c : Connection) (latest : GlucoseMeasurement) (isoStamp : Z)
    (s : string) :
  keeps follows_switches (MainServer.publish c latest isoStamp s).
Proof. unfold MainServer.publish. follows_tac. Qed.

Hint Resolve follows_ensureSession follows_storeMeasurement follows_publish : keeps.

Lemma follows_fetchAndStoreMeasurement (fuel : nat) (now : Z) :
  keeps follows_switches (MainServer.fetchAndStoreMeasurement fuel now).
Proof. unfold MainServer.fetchAndStoreMeasurement. follows_tac. Qed.

Lemma follows_fetchCycle (fuel : nat) (now now' : Z) (w : World) :
  follows_switches w (snd (MainServer.fetchCycle fuel now now' w)).
Proof.
  unfold MainServer.fetchCycle.
  pose proof (follows_fetchAndStoreMeasurement fuel now w) as H.
  destruct (MainServer.fetchAndStoreMeasurement fuel now w) as [[[t |] | e |] w'];
    exact H.
Qed.

End FollowsSwitchesProgram.

(** *** With a cached session, requests stay at one address *)

Section StaysPut.

Context {P : Platform}.

Lemma stays_refl (w : World) : stays_put w w.
Proof.
  split; [reflexivity |]. split; [reflexivity |].
  exists []. split; [symmetry; apply app_nil_r | constructor].
Qed.

Lemma stays_trans (w1 w2 w3 : World) :
  stays_put w1 w2 -> stays_put w2 w3 -> stays_put w1 w3.
Proof.
  intros (C1 & B1 & n1 & E1 & F1) (C2 & B2 & n2 & E2 & F2).
  split; [congruence |]. split; [congruence |].
  exists (n1 ++ n2). split.
  - rewrite E2, E1, app_assoc. reflexivity.
  - apply Forall_app. split; [exact F1 | rewrite <- B1; exact F2].
Qed.

Lemma stays_quiet (w w' : World) :
  cacheFile w' = cacheFile w -> apiClient_baseURL w' = apiClient_baseURL w ->
  events w' = events w -> stays_put w w'.
Proof.
  intros Hc Hb He. split; [exact Hc |]. split; [exact Hb |].
  exists []. split; [rewrite He; symmetry; apply app_nil_r | constructor].
Qed.

Lemma stays_event (w w' : World) (e : Event) :
  cacheFile w' = cacheFile w -> apiClient_baseURL w' = apiClient_baseURL w ->
  events w' = events w ++ [e] -> goes_to (apiClient_baseURL w) e -> stays_put w w'.
Proof.
  intros Hc Hb He Hg. split; [exact Hc |]. split; [exact Hb |].
  exists [e]. split; [exact He | constructor; [exact Hg | constructor]].
Qed.

End StaysPut.

Ltac stays_prim :=
  first
    [ apply stays_quiet; reflexivity
    | eapply stays_event; [ reflexivity | reflexivity | reflexivity | exact I ]
    | eapply stays_event; [ reflexivity | reflexivity | reflexivity | reflexivity ] ].

Ltac stays_tac :=
  keeps_with ltac:(exact stays_refl) ltac:(exact stays_trans) ltac:(stays_prim).

Section StaysPutProgram.

Context {P : Platform}.

Lemma stays_readMeasurementsFile : keeps stays_put readMeasurementsFile.
Proof. unfold readMeasurementsFile. stays_tac. Qed.

Lemma stays_writeMeasurementsFile (arr : list Measurement) :
  keeps stays_put (writeMeasurementsFile arr).
Proof. unfold writeMeasurementsFile. stays_tac. Qed.

Lemma stays_parseLibreTimestamp (ts : string) : keeps stays_put (parseLibreTimestamp ts).
Proof. unfold parseLibreTimestamp. stays_tac. Qed.

Lemma stays_toISOString (d : JSDate) : keeps stays_put (toISOString d).
Proof. unfold toISOString. stays_tac. Qed.

Hint Resolve stays_readMeasurementsFile stays_writeMeasurementsFile
  stays_parseLibreTimestamp stays_toISOString : keeps.

Lemma stays_storeMeasurement (now : Z) (parsedDate : JSDate) (isoStamp : Z)
    (latest : GlucoseMeasurement) :
  keeps stays_put (MainServer.storeMeasurement now parsedDate isoStamp latest).
Proof. unfold MainServer.storeMeasurement. stays_tac. Qed.

Lemma stays_publish (c : Connection) (latest : GlucoseMeasurement) (isoStamp : Z)
    (s : string) :
  keeps stays_put (MainServer.publish c latest isoStamp s).
Proof. unfold MainServer.publish. stays_tac. Qed.

Hint Resolve stays_storeMeasurement stays_publish : keeps.

(** With a session in the cache file nobody is prompted and nothing is
    sent before the listing. *)
Lemma ensureSession_cached (updateBaseURL : string -> M unit) (fuel : nat)
    (w : World) (c : CacheObj) :
  cacheFile w = Some (Json c) ->
  truthy (cache_token c) = true -> truthy (cache_userId c) = true ->
  truthy (cache_accountIdHash c) = true ->
  ensureSession updateBaseURL fuel w = (Returned c, w).
Proof.
  intros Hfile Ht Hu Ha. unfold ensureSession, readCache.
  rewrite bind_assoc, bind_gets, Hfile. simpl JSON_parse. cbv iota.
  rewrite bind_ret_l. cbn [is_null keys_of]. rewrite Ht, Hu, Ha. reflexivity.
Qed.

Lemma stays_fetchAndStoreMeasurement (fuel : nat) (now : Z) (w : World) :
  has_session w ->
  stays_put w (snd (MainServer.fetchAndStoreMeasurement fuel now w)).
Proof.
  intros (c & Hfile & Ht & Hu & Ha). unfold MainServer.fetchAndStoreMeasurement.
  rewrite (bind_Returned _ _ _ _ _
             (ensureSession_cached MainServer.updateBaseURL fuel w c Hfile Ht Hu Ha)).
  match goal with
  | |- stays_put w (snd (?rest w)) =>
      assert (H : keeps stays_put rest) by stays_tac; apply H
  end.
Qed.

(** The same for the chain of timers; the session stays in the cache. *)
Lemma stays_run (fuel : nat) (clock : list (Z * Z)) (w : World) :
  has_session w -> stays_put w (MainServer.run fuel clock w).
Proof.
  intros Hs.
  apply (runTimers_keeps (fun w w' => has_session w -> stays_put w w')); [| | | exact Hs].
  - intros w0 _. apply stays_refl.
  - intros w1 w2 w3 H12 H23 H1. specialize (H12 H1).
    apply (stays_trans _ _ _ H12). apply H23.
    destruct H1 as (c & Hfile & Hc). destruct H12 as (Hcache & _).
    exists c. rewrite Hcache. split; assumption.
  - intros now now' w0 H0. unfold MainServer.fetchCycle.
    pose proof (stays_fetchAndStoreMeasurement fuel now w0 H0) as H.
    destruct (MainServer.fetchAndStoreMeasurement fuel now w0) as [[[t |] | e |] w'];
      exact H.
Qed.

(** main_server.js keeps no patient in the cache: with a session cached,
    the first thing a cycle sends is the request for the connections
    listing. *)
Lemma main_server_lists_every_cycle (fuel : nat) (now : Z) (c : CacheObj) (w : World) :
  cacheFile w = Some (Json c) ->
  truthy (cache_token c) = true -> truthy (cache_userId c) = true ->
  truthy (cache_accountIdHash c) = true ->
  let w1 :=
    set_apiClient_headers
      {| Authorization := Some ("Bearer " ++ show_prop (cache_token c))%string;
         Account_Id := cache_accountIdHash c;
         patientid := cache_userId c |} w in
  exists rest,
    events (snd (MainServer.fetchAndStoreMeasurement fuel now w))
    = events w ++ Sent (request_for w1 GET "/llu/connections" None None) :: rest.
Proof.
  intros Hfile Ht Hu Ha w1. subst w1. unfold MainServer.fetchAndStoreMeasurement.
  rewrite (bind_Returned _ _ _ _ _
             (ensureSession_cached MainServer.updateBaseURL fuel w c Hfile Ht Hu Ha)).
  rewrite bind_modify. unfold bind at 1. rewrite send_eq. cbn zeta.
  destruct (fst (serve_connections _ _)) as [data |].
  - match goal with
    | |- exists rest, events (snd (?k ?w1)) = _ =>
        assert (H : keeps stays_put k) by stays_tac;
        destruct (H w1) as (_ & _ & new & Hnew & _)
    end.
    exists new. rewrite Hnew. simpl. rewrite <- app_assoc. reflexivity.
  - exists []. reflexivity.
Qed.

End StaysPutProgram.

Section RegionProperties.

Context {P : Platform}.

Lemma updateBaseURL_eq (region : string) (w : World) :
  MainServer.updateBaseURL region w = (Returned tt, switched region w).
Proof. reflexivity. Qed.

Lemma redirectLoop_unfold (updateBaseURL : string -> M unit) (fuel : nat)
    (email password : string) (respData : option LoginResp) :
  redirectLoop updateBaseURL (S fuel) email password respData
  = if redirect_of respData then
      if negb (truthy (region_of respData)) then throw RedirectWithoutRegion
      else
        bind (updateBaseURL (show_prop (region_of respData)))
          (fun _ => bind (postLogin email password)
                      (redirectLoop updateBaseURL fuel email password))
    else ret respData.
Proof. reflexivity. Qed.

Lemma redirectLoop_round (fuel : nat) (email password : string) (r : LoginResp)
    (data : LoginData) (R : string) (w : World) :
  login_data r = Some data -> redirect data = true ->
  region data = Some R -> R <> EmptyString ->
  redirectLoop MainServer.updateBaseURL (S fuel) email password (Some r) w
  = bind (postLogin email password)
         (redirectLoop MainServer.updateBaseURL fuel email password) (switched R w).
Proof.
  intros Hd Hred Hreg HR. rewrite redirectLoop_unfold.
  unfold redirect_of, region_of. rewrite Hd, Hred, Hreg.
  apply truthy_Some in HR. rewrite HR. cbn [negb].
  rewrite (bind_Returned _ _ _ _ _ (updateBaseURL_eq _ w)). reflexivity.
Qed.

(** The caching revision has the regional template commented out: whatever
    the region, its [updateBaseURL] puts the client back at the global
    address. *)
Lemma caching_revision_ignores_region (region : string) (w : World) :
  apiClient_baseURL (snd (PatientCache.updateBaseURL region w))
  = "https://api.libreview.io"%string.
Proof. reflexivity. Qed.

(** C4.  On a redirect with region R the flow switches the address of the
    client to the regional one and posts the login again, there; one
    redirect followed by a login of status 0 gives the session with
    exactly one switch; every request of the process goes to the address
    of the latest switch; and once a session is cached, the cycles switch
    no more and send every request to the address then in force. *)
Theorem redirect_switches_region :
  (forall fuel email password r data R w,
      login_data r = Some data -> redirect data = true ->
      region data = Some R -> R <> EmptyString ->
      redirectLoop MainServer.updateBaseURL (S fuel) email password (Some r) w
      = bind (postLogin email password)
             (redirectLoop MainServer.updateBaseURL fuel email password) (switched R w)
      /\ apiClient_baseURL (switched R w) = regional R
      /\ req_base (request_for (switched R w) POST "/llu/auth/login" None
                     (Some (email, password))) = regional R)
  /\ (forall fuel email password w r1 u1 data R final u2 s,
        let login0 := request_for w POST "/llu/auth/login" None (Some (email, password)) in
        serve_auth login0 (upstream w) = (Some (Some r1), u1) ->
        login_data r1 = Some data -> redirect data = true ->
        region data = Some R -> R <> EmptyString ->
        let w1 := switched R (sent login0 u1 w) in
        let login1 := request_for w1 POST "/llu/auth/login" None (Some (email, password)) in
        serve_auth login1 u1 = (Some (Some final), u2) ->
        redirect_of (Some final) = false ->
        login_status final = Some 0 ->
        session_from final s ->
        let w' := sent login1 u2 w1 in
        let new := [Sent login0; UpdatedBaseURL (regional R); Sent login1] in
        MainServer.doLoginFlow (S fuel) email password w = (Returned s, w')
        /\ events w' = events w ++ new
        /\ switches new = 1%nat
        /\ req_base login0 = apiClient_baseURL w
        /\ req_base login1 = regional R
        /\ baseURL w' = regional R
        /\ apiClient_baseURL w' = regional R)
  /\ (forall fuel clock w,
        follows_switches w (MainServer.run fuel clock w))
  /\ (forall fuel clock w,
        has_session w -> stays_put w (MainServer.run fuel clock w)).
Proof.
  split; [| split; [| split]].
  - intros fuel email password r data R w Hd Hred Hreg HR.
    split; [apply (redirectLoop_round fuel email password r data R w); assumption |].
    split; reflexivity.
  - intros fuel email password w r1 u1 data R final u2 s login0 Hlogin0 Hd Hred Hreg HR
           w1 login1 Hlogin1 Hstop H0 Hsession w' new.
    subst new w' login1 w1 login0.
    split; [| repeat split; simpl; rewrite <- ?app_assoc; reflexivity].
    unfold MainServer.doLoginFlow, doLoginFlow, postLogin.
    rewrite (bind_Returned _ _ _ _ _ (send_answer _ _ _ _ _ _ _ _ Hlogin0)).
    assert (Hloop :
      redirectLoop MainServer.updateBaseURL (S fuel) email password (Some r1)
        (sent (request_for w POST "/llu/auth/login" None (Some (email, password))) u1 w)
      = (Returned (Some final),
         sent (request_for
                 (switched R
                    (sent (request_for w POST "/llu/auth/login" None
                             (Some (email, password))) u1 w))
                 POST "/llu/auth/login" None (Some (email, password))) u2
           (switched R
              (sent (request_for w POST "/llu/auth/login" None
                       (Some (email, password))) u1 w)))).
    { rewrite (redirectLoop_round fuel email password r1 data R _ Hd Hred Hreg HR).
      unfold postLogin.
      rewrite (bind_Returned _ _ _ _ _ (send_answer serve_auth _ _ _ _ _ _ _ Hlogin1)).
      rewrite (redirectLoop_done _ fuel email password _ Hstop). reflexivity. }
    rewrite (bind_Returned _ _ _ _ _ Hloop).
    assert (Hend : status_of (Some final) <> Some 4)
      by (simpl; rewrite H0; discriminate).
    rewrite (continueLoop_done (S fuel) (Some final) Hend). rewrite bind_ret_l.
    apply finishLogin_session; assumption.
  - intros fuel clock w. unfold MainServer.run.
    apply (runTimers_keeps follows_switches follows_refl follows_trans).
    intros now now' w0. apply follows_fetchCycle.
  - intros fuel clock w. apply stays_run.
Qed.

End RegionProperties.

Lemma redirect_switches_region_witness :
  exists w',
    MainServer.doLoginFlow (P := Demo.platform) 1 "ada@example.org" "secret" (Demo.fresh false)
    = (Returned {| token := Some "t2"; userId := "u-1"; accountIdHash := "sha256:u-1" |}, w')
    /\ apiClient_baseURL w' = "https://api-eu.libreview.io"
    /\ switches (events w') = 1%nat.
Proof.
  destruct (redirect_switches_region (P := Demo.platform)) as (_ & H & _).
  destruct (H 0%nat "ada@example.org" "secret" (Demo.fresh false)
              (Demo.go_to "eu") false
              {| redirect := true; region := Some "eu"; step_type := None;
                 authTicket := None; user := None |} "eu"
              (Demo.ticket "t2" (Some "u-1") 0 None) false
              {| token := Some "t2"; userId := "u-1"; accountIdHash := "sha256:u-1" |})
    as (Hflow & Hevents & Hswitches & _ & _ & _ & Hbase);
    try reflexivity; try discriminate.
  - eexists _, _, _, _. repeat split; reflexivity.
  - eexists. split; [exact Hflow |]. split; [exact Hbase |].
    rewrite Hevents. exact Hswitches.
Defined.

(** ** The revision that caches the patient *)

Section AsksGraph.

Context {P : Platform}.

Variable pid : option string.

Lemma asks_refl (w : World) : asks_graph_of pid w w.
Proof.
  split; [reflexivity |]. exists []. split; [symmetry; apply app_nil_r | constructor].
Qed.

Lemma asks_trans (w1 w2 w3 : World) :
  asks_graph_of pid w1 w2 -> asks_graph_of pid w2 w3 -> asks_graph_of pid w1 w3.
Proof.
  intros (C1 & n1 & E1 & F1) (C2 & n2 & E2 & F2).
  split; [congruence |]. exists (n1 ++ n2). split.
  - rewrite E2, E1, app_assoc. reflexivity.
  - apply Forall_app. split; assumption.
Qed.

Lemma asks_quiet (w w' : World) :
  cacheFile w' = cacheFile w -> events w' = events w -> asks_graph_of pid w w'.
Proof.
  intros Hc He. split; [exact Hc |].
  exists []. split; [rewrite He; symmetry; apply app_nil_r | constructor].
Qed.

Lemma asks_event (w w' : World) (e : Event) :
  cacheFile w' = cacheFile w -> events w' = events w ++ [e] ->
  graph_only pid e -> asks_graph_of pid w w'.
Proof.
  intros Hc He Hg. split; [exact Hc |].
  exists [e]. split; [exact He | constructor; [exact Hg | constructor]].
Qed.

Lemma same_patient_refl (w : World) : same_patient w w.
Proof. reflexivity. Qed.

Lemma same_patient_trans (w1 w2 w3 : World) :
  same_patient w1 w2 -> same_patient w2 w3 -> same_patient w1 w3.
Proof. unfold same_patient. congruence. Qed.

(** A request for a graph is no request for the listing. *)
Lemma graph_only_no_listing (new : list Event) :
  Forall (graph_only pid) new -> forallb (fun e => negb (is_listing e)) new = true.
Proof.
  induction 1 as [| e rest He _ IH]; [reflexivity |].
  simpl. rewrite IH, andb_true_r.
  destruct e; try reflexivity.
  destruct He as [_ Hpath]. simpl. rewrite Hpath. reflexivity.
Qed.

End AsksGraph.

Ltac asks_prim :=
  first
    [ apply asks_quiet; reflexivity
    | eapply asks_event; [ reflexivity | reflexivity | exact I ]
    | eapply asks_event; [ reflexivity | reflexivity | split; reflexivity ] ].

Ltac asks_tac :=
  keeps_with ltac:(apply asks_refl) ltac:(apply asks_trans) ltac:(asks_prim).

Ltac same_patient_tac :=
  keeps_with ltac:(exact same_patient_refl) ltac:(exact same_patient_trans)
             ltac:(reflexivity).

Section PatientCacheProperties.

Context {P : Platform}.

Lemma asks_readMeasurementsFile (pid : option string) :
  keeps (asks_graph_of pid) readMeasurementsFile.
Proof. unfold readMeasurementsFile. asks_tac. Qed.

Lemma asks_parseLibreTimestamp (pid : option string) (ts : string) :
  keeps (asks_graph_of pid) (parseLibreTimestamp ts).
Proof. unfold parseLibreTimestamp. asks_tac. Qed.

Lemma asks_toISOString (pid : option string) (d : JSDate) :
  keeps (asks_graph_of pid) (toISOString d).
Proof. unfold toISOString. asks_tac. Qed.

Lemma same_patient_readMeasurementsFile : keeps same_patient readMeasurementsFile.
Proof. unfold readMeasurementsFile. same_patient_tac. Qed.

Lemma same_patient_parseLibreTimestamp (ts : string) :
  keeps same_patient (parseLibreTimestamp ts).
Proof. unfold parseLibreTimestamp. same_patient_tac. Qed.

Lemma same_patient_toISOString (d : JSDate) : keeps same_patient (toISOString d).
Proof. unfold toISOString. same_patient_tac. Qed.

Hint Resolve asks_readMeasurementsFile asks_parseLibreTimestamp asks_toISOString
  same_patient_readMeasurementsFile same_patient_parseLibreTimestamp
  same_patient_toISOString : keeps.

Lemma asks_fetchLatest (now : Z) (pid : option string) :
  keeps (asks_graph_of pid) (PatientCache.fetchLatest now pid).
Proof.
  unfold PatientCache.fetchLatest, PatientCache.storeMeasurement,
    PatientCache.publishMeasurement, writeMeasurementsFile.
  asks_tac.
Qed.

Lemma same_patient_fetchLatest (now : Z) (pid : option string) :
  keeps same_patient (PatientCache.fetchLatest now pid).
Proof.
  unfold PatientCache.fetchLatest, PatientCache.storeMeasurement,
    PatientCache.publishMeasurement, writeMeasurementsFile.
  same_patient_tac.
Qed.

(** A cycle that finds the patient in the cache. *)
Lemma cycle_from_cache (fuel : nat) (now : Z) (c : CacheObj) (w : World) :
  has_patient c w ->
  PatientCache.fetchAndStoreMeasurement fuel now w
  = PatientCache.fetchLatest now (cache_patientId c)
      (set_memoryData
         (memoryData (snd (PatientCache.publishPatient c (with_session_headers c w))))
         (with_session_headers c w)).
Proof.
  intros (Hfile & Ht & Hu & Ha & Hp). unfold PatientCache.fetchAndStoreMeasurement.
  rewrite (bind_Returned _ _ _ _ _
             (ensureSession_cached PatientCache.updateBaseURL fuel w c Hfile Ht Hu Ha)).
  rewrite bind_modify. unfold PatientCache.resolvePatient. cbn [keys_of].
  rewrite Hp. cbn [negb].
  rewrite bind_ret_l. reflexivity.
Qed.

Lemma asks_cycle (fuel : nat) (now : Z) (c : CacheObj) (w : World) :
  has_patient c w ->
  asks_graph_of (cache_patientId c) w
    (snd (PatientCache.fetchAndStoreMeasurement fuel now w)).
Proof.
  intros H. rewrite (cycle_from_cache fuel now c w H).
  eapply asks_trans; [| apply asks_fetchLatest].
  apply asks_quiet; reflexivity.
Qed.

Lemma published_from_cache (fuel : nat) (now : Z) (c : CacheObj) (w : World) :
  has_patient c w ->
  patientInfo (memoryData (snd (PatientCache.fetchAndStoreMeasurement fuel now w)))
  = Some (profile_of c).
Proof.
  intros H. rewrite (cycle_from_cache fuel now c w H).
  rewrite (same_patient_fetchLatest now (cache_patientId c) _). reflexivity.
Qed.

Lemma asks_run (fuel : nat) (clock : list (Z * Z)) (c : CacheObj) (w : World) :
  has_patient c w ->
  asks_graph_of (cache_patientId c) w (PatientCache.run fuel clock w).
Proof.
  intros Hp.
  apply (runTimers_keeps
           (fun w w' => has_patient c w -> asks_graph_of (cache_patientId c) w w'));
    [| | | exact Hp].
  - intros w0 _. apply asks_refl.
  - intros w1 w2 w3 H12 H23 H1. specialize (H12 H1).
    apply (asks_trans _ _ _ _ H12). apply H23.
    destruct H1 as (Hfile & Hc). destruct H12 as (Hcache & _).
    split; [rewrite Hcache; exact Hfile | exact Hc].
  - intros now now' w0 H0. unfold PatientCache.fetchCycle.
    pose proof (asks_cycle fuel now c w0 H0) as H.
    destruct (PatientCache.fetchAndStoreMeasurement fuel now w0) as [[[t |] | e |] w'];
      exact H.
Qed.

(** The cycle that resolves the patient. *)
Lemma cycle_resolving (fuel : nat) (now : Z) (c : CacheObj) (w : World)
    (resp : ConnectionsResp) (conn : Connection) (others : list Connection)
    (u1 : Upstream) :
  cacheFile w = Some (Json c) ->
  truthy (cache_token c) = true -> truthy (cache_userId c) = true ->
  truthy (cache_accountIdHash c) = true ->
  truthy (cache_patientId c) = false ->
  serve_connections (request_for (with_session_headers c w) GET "/llu/connections" None None)
    (upstream w) = (Some (Some resp), u1) ->
  conn_status resp = Some 0 ->
  conn_data resp = Some (conn :: others) ->
  let listed :=
    sent (request_for (with_session_headers c w) GET "/llu/connections" None None) u1
      (with_session_headers c w) in
  let cached := set_cacheFile (Some (Json (with_patient c conn))) listed in
  PatientCache.fetchAndStoreMeasurement fuel now w
  = PatientCache.fetchLatest now (patientId conn)
      (set_memoryData
         (memoryData (snd (PatientCache.publishPatient (with_patient c conn) cached)))
         cached).
Proof.
  intros Hfile Ht Hu Ha Hp Hlist Hstatus Hdata listed cached. subst cached listed.
  unfold PatientCache.fetchAndStoreMeasurement.
  rewrite (bind_Returned _ _ _ _ _
             (ensureSession_cached PatientCache.updateBaseURL fuel w c Hfile Ht Hu Ha)).
  rewrite bind_modify. unfold PatientCache.resolvePatient. cbn [keys_of].
  rewrite Hp. cbn [negb].
  rewrite bind_assoc.
  rewrite (bind_Returned _ _ _ _ _ (send_answer serve_connections _ _ _ _ _ _ _ Hlist)).
  rewrite Hstatus, Hdata. reflexivity.
Qed.

(** C8.  Resolving the patient writes the profile (patient id, names,
    sensor) into the cache file, next to the session, and the cycle that
    does so publishes it; from then on, for every chain of cycles, the
    cache file stays as it is and the only requests sent are for the graph
    of the cached patient: no cycle asks for the connections listing again,
    and each one publishes the cached profile. *)
Theorem patient_resolved_once :
  (forall c w resp conn others u1,
      truthy (cache_patientId c) = false ->
      serve_connections (request_for w GET "/llu/connections" None None) (upstream w)
      = (Some (Some resp), u1) ->
      conn_status resp = Some 0 ->
      conn_data resp = Some (conn :: others) ->
      PatientCache.resolvePatient c w
      = (Returned (Some (with_patient c conn)),
         set_cacheFile (Some (Json (with_patient c conn)))
           (sent (request_for w GET "/llu/connections" None None) u1 w)))
  /\ (forall fuel now (c : CacheObj) w resp conn others u1,
      cacheFile w = Some (Json c) ->
      truthy (cache_token c) = true -> truthy (cache_userId c) = true ->
      truthy (cache_accountIdHash c) = true ->
      truthy (cache_patientId c) = false ->
      serve_connections
        (request_for (with_session_headers c w) GET "/llu/connections" None None)
        (upstream w) = (Some (Some resp), u1) ->
      conn_status resp = Some 0 ->
      conn_data resp = Some (conn :: others) ->
      truthy (patientId conn) = true ->
      let w' := snd (PatientCache.fetchAndStoreMeasurement fuel now w) in
      has_patient (with_patient c conn) w'
      /\ patientInfo (memoryData w') = Some (profile_of (with_patient c conn)))
  /\ (forall fuel clock c w,
        has_patient c w ->
        let w' := PatientCache.run fuel clock w in
        has_patient c w'
        /\ exists new,
             events w' = events w ++ new
             /\ Forall (graph_only (cache_patientId c)) new
             /\ forallb (fun e => negb (is_listing e)) new = true)
  /\ (forall fuel now c w,
        has_patient c w ->
        patientInfo
          (memoryData (snd (PatientCache.fetchAndStoreMeasurement fuel now w)))
        = Some (profile_of c)).
Proof.
  split; [| split; [| split]].
  - intros c w resp conn others u1 Hp Hlist Hstatus Hdata.
    unfold PatientCache.resolvePatient. cbn [keys_of]. rewrite Hp. cbn [negb].
    rewrite (bind_Returned _ _ _ _ _ (send_answer serve_connections _ _ _ _ _ _ _ Hlist)).
    rewrite Hstatus, Hdata. reflexivity.
  - intros fuel now c w resp conn others u1 Hfile Ht Hu Ha Hp Hlist Hstatus Hdata Hpid w'.
    subst w'.
    rewrite (cycle_resolving fuel now c w resp conn others u1
               Hfile Ht Hu Ha Hp Hlist Hstatus Hdata).
    split.
    + split; [| repeat split; assumption].
      destruct (asks_fetchLatest now (patientId conn)
                  (set_memoryData
                     (memoryData
                        (snd (PatientCache.publishPatient (with_patient c conn)
                                (set_cacheFile (Some (Json (with_patient c conn)))
                                   (sent (request_for (with_session_headers c w) GET
                                            "/llu/connections" None None) u1
                                      (with_session_headers c w))))))
                     (set_cacheFile (Some (Json (with_patient c conn)))
                        (sent (request_for (with_session_headers c w) GET
                                 "/llu/connections" None None) u1
                           (with_session_headers c w))))) as (Hcache & _).
      rewrite Hcache. reflexivity.
    + rewrite (same_patient_fetchLatest now (patientId conn) _). reflexivity.
  - intros fuel clock c w Hp w'. subst w'.
    destruct (asks_run fuel clock c w Hp) as (Hcache & new & Hevents & Hnew).
    split.
    + destruct Hp as (Hfile & Hc). split; [rewrite Hcache; exact Hfile | exact Hc].
    + exists new. split; [exact Hevents |]. split; [exact Hnew |].
      apply (graph_only_no_listing _ _ Hnew).
  - intros fuel now c w Hp. apply published_from_cache. exact Hp.
Qed.

End PatientCacheProperties.

Lemma patient_resolved_once_witness :
  cacheFile (PatientCache.run (P := Demo.platform) 1 Demo.two_more Demo.resolved_once)
  = Some (Json (with_patient Demo.session_cache Demo.patient))
  /\ exists new,
       events (PatientCache.run (P := Demo.platform) 1 Demo.two_more Demo.resolved_once)
       = events Demo.resolved_once ++ new
       /\ forallb (fun e => negb (is_listing e)) new = true.
Proof.
  destruct (patient_resolved_once (P := Demo.platform)) as (_ & Hfirst & Hnext & _).
  destruct (Hfirst 1%nat (Demo.t_latest + 1000) Demo.session_cache Demo.logged_in
              {| conn_status := Some 0; conn_data := Some [Demo.patient] |}
              Demo.patient [] false)
    as [Hpatient _]; try reflexivity.
  destruct (Hnext 1%nat Demo.two_more _ _ Hpatient)
    as ((Hcache & _) & new & Hevents & _ & Hnone).
  split; [exact Hcache |]. exists new. split; assumption.
Defined.

(** ** The scheduler *)

Section SchedulerProperties.

Context {P : Platform}.

Lemma toISOString_Returned (d : JSDate) (w w' : World) (t : Z) :
  toISOString d w = (Returned t, w') -> d = Some t /\ w' = w.
Proof.
  destruct d as [t0 |]; [| discriminate].
  intros H. inversion H. split; reflexivity.
Qed.





(** The scheduler on a stamp whose target is a valid time value. *)
Lemma scheduleNextFetch_eq (interval : Z) (schedule : Z -> Z -> option Z) (now T : Z) :
  (forall n t,
      schedule n t
      = match option_map (fun t => round_binary64 (t - n))
                (Date_of_value
                   (option_map (fun t => t + 3 * 1000)
                      (Date_of_value (option_map (fun t => t + interval) (TimeClip t)))))
        with
        | Some d => if d <? 1000 then Some 30000 else Some d
        | None => None
        end) ->
  0 <= interval ->
  Z.abs T <= maxTime -> T + interval + 3000 <= maxTime ->
  let delay := T + interval + 3 * 1000 - now in
  schedule now T = Some (if 1000 <=? delay then round_binary64 delay else 30000).
Proof.
  intros Hschedule Hi HT Hend delay. rewrite Hschedule.
  rewrite (TimeClip_valid T HT). cbn [option_map Date_of_value].
  rewrite (TimeClip_valid (T + interval)) by lia. cbn [option_map Date_of_value].
  rewrite (TimeClip_valid (T + interval + 3 * 1000)) by lia. cbn [option_map].
  fold delay. rewrite round_binary64_floor.
  destruct (Z.ltb_spec delay 1000), (Z.leb_spec 1000 delay); try reflexivity; lia.
Qed.


End SchedulerProperties.



(** ** The store step on the small service *)




(** * Further properties of the code *)

(** ** Glyphs, colours and delays *)

Lemma arrowToEmoji_cases (n : Z) :
  n = 1 \/ n = 2 \/ n = 3 \/ n = 4 \/ n = 5 \/ arrowToEmoji n = "❓"%string.
Proof.
  destruct n as [| p | p]; [tauto | | tauto].
  destruct p as [[[p | p |] | [p | p |] |] | [[p | p |] | [p | p |] |] |]; tauto.
Qed.

Lemma classify_range (diff : Z) : 1 <= computeSinceLastTrendArrowNumber diff <= 5.
Proof.
  unfold computeSinceLastTrendArrowNumber.
  destruct (diff =? 0), ((0 <? diff) && (diff <=? 5)), (5 <? diff),
    ((diff <? 0) && (-5 <=? diff)); lia.
Qed.

(** X1.  [arrowToEmoji] gives five different glyphs on 1..5 and the question
    mark on every other number, and on no number the marker "N/A". *)
Theorem arrowToEmoji_glyphs (m n : Z) :
  (arrowToEmoji n = "❓"%string <-> ~ 1 <= n <= 5)
  /\ (1 <= m <= 5 -> 1 <= n <= 5 -> m <> n -> arrowToEmoji m <> arrowToEmoji n)
  /\ arrowToEmoji n <> "N/A"%string.
Proof.
  split; [| split].
  - split.
    + intros H Hn.
      assert (C : n = 1 \/ n = 2 \/ n = 3 \/ n = 4 \/ n = 5) by lia.
      destruct C as [-> | [-> | [-> | [-> | ->]]]]; discriminate H.
    + intros Hn.
      destruct (arrowToEmoji_cases n) as [E | [E | [E | [E | [E | E]]]]];
        try exact E; lia.
  - intros Hm Hn.
    assert (Cm : m = 1 \/ m = 2 \/ m = 3 \/ m = 4 \/ m = 5) by lia.
    assert (Cn : n = 1 \/ n = 2 \/ n = 3 \/ n = 4 \/ n = 5) by lia.
    destruct Cm as [-> | [-> | [-> | [-> | ->]]]];
      destruct Cn as [-> | [-> | [-> | [-> | ->]]]];
      intros Hmn; try (exfalso; apply Hmn; reflexivity); discriminate.
  - destruct (arrowToEmoji_cases n) as [-> | [-> | [-> | [-> | [-> | E]]]]];
      try discriminate.
    rewrite E. discriminate.
Qed.

Lemma arrowToEmoji_glyphs_witness :
  arrowToEmoji 9 = "❓"%string /\ arrowToEmoji 2 <> arrowToEmoji 4.
Proof.
  split.
  - destruct (arrowToEmoji_glyphs 1 9) as ((_ & H) & _). apply H. lia.
  - destruct (arrowToEmoji_glyphs 2 4) as (_ & H & _). apply H; lia.
Defined.

(** X2.  [measurementColorName] names the four colours 1..4 and answers
    "unknown" on every other number; a reading without colour, or with
    colour 0, is published with colour 0 and the name "unknown", and any
    other colour with its own name. *)
Theorem colour_of_a_reading (n : Z) :
  (measurementColorName n = "unknown"%string <-> ~ 1 <= n <= 4)
  /\ (forall {P : Platform} c latest T s (w : World),
        let published := memoryData (snd (MainServer.publish c latest T s w)) in
        let colour :=
          match MeasurementColor latest with
          | Some k => k
          | None => 0
          end in
        option_map view_MeasurementColor (measurementMgdl published) = Some (Some colour)
        /\ option_map MeasurementColorName (measurementMgdl published)
           = Some (Some (measurementColorName colour))
        /\ option_map view_MeasurementColor (measurementMmol published) = Some (Some colour)
        /\ option_map MeasurementColorName (measurementMmol published)
           = Some (Some (measurementColorName colour))).
Proof.
  split.
  - split.
    + intros H Hn. assert (C : n = 1 \/ n = 2 \/ n = 3 \/ n = 4) by lia.
      destruct C as [-> | [-> | [-> | ->]]]; discriminate H.
    + intros Hn. destruct n as [| p | p]; try reflexivity.
      destruct p as [[[p | p |] | [p | p |] |] | [[p | p |] | [p | p |] |] |];
        try reflexivity; lia.
  - intros P c latest T s w published colour. subst published colour.
    unfold MainServer.publish. simpl.
    destruct (MeasurementColor latest) as [[| p | p] |]; repeat split; reflexivity.
Qed.

Lemma colour_of_a_reading_witness : measurementColorName 99 = "unknown"%string.
Proof. destruct (colour_of_a_reading 99) as ((_ & H) & _). apply H. lia. Defined.

(** X3.  Every timer that [fetchCycle] arms, also after a failure, fires
    after at least 1 ms and at most 2^31 - 1 ms.  When the target of a
    stamp (the stamp plus the interval plus 3 s) is a valid time value and
    no more than 2^31 - 1 ms ahead of the clock, the timer fires after at
    least one second and never before the target: after the fallback of
    30 s, or exactly at the target.  The same holds in the caching revision,
    with its interval of 60 s. *)
Theorem delays_are_bounded {P : Platform} (now T : Z) :
  (forall fuel now0 w delay,
      fst (MainServer.fetchCycle fuel now0 now w) = Some delay ->
      1 <= delay <= 2147483647)
  /\ (forall fuel now0 w delay,
        fst (PatientCache.fetchCycle fuel now0 now w) = Some delay ->
        1 <= delay <= 2147483647)
  /\ (Z.abs T <= maxTime -> T + 123000 <= maxTime -> T + 123000 - now <= 2147483647 ->
      let fires := setTimeout (MainServer.scheduleNextFetch now T) in
      1000 <= fires /\ T + 123000 <= now + fires
      /\ (fires = 30000 \/ now + fires = T + 123000))
  /\ (Z.abs T <= maxTime -> T + 63000 <= maxTime -> T + 63000 - now <= 2147483647 ->
      let fires := setTimeout (PatientCache.scheduleNextFetch now T) in
      1000 <= fires /\ T + 63000 <= now + fires
      /\ (fires = 30000 \/ now + fires = T + 63000)).
Proof.
  assert (Hfires : forall d,
             d <= 2147483647 ->
             let fires := setTimeout (Some (if 1000 <=? d then round_binary64 d
                                            else 30000)) in
             1000 <= fires /\ d <= fires /\ (fires = 30000 \/ fires = d)).
  { intros d Hd. cbv zeta. destruct (Z.leb_spec 1000 d) as [Hlow | Hlow].
    - rewrite round_binary64_exact
        by (change (2 ^ 53) with 9007199254740992; lia).
      unfold setTimeout.
      destruct (Z.leb_spec 1 d), (Z.leb_spec d 2147483647); simpl; lia.
    - simpl. lia. }
  split; [| split; [| split]].
  - intros fuel now0 w delay. unfold MainServer.fetchCycle.
    destruct (MainServer.fetchAndStoreMeasurement fuel now0 w) as [[[t |] | e |] w'];
      cbn [fst]; intros H; try discriminate H;
      injection H as H; rewrite <- H; first [apply setTimeout_range | lia].
  - intros fuel now0 w delay. unfold PatientCache.fetchCycle.
    destruct (PatientCache.fetchAndStoreMeasurement fuel now0 w) as [[[t |] | e |] w'];
      cbn [fst]; intros H; try discriminate H;
      injection H as H; rewrite <- H; first [apply setTimeout_range | lia].
  - intros HT Hend Hnear. cbv zeta.
    rewrite (scheduleNextFetch_eq 120000 MainServer.scheduleNextFetch now T)
      by (reflexivity || lia).
    destruct (Hfires (T + 120000 + 3 * 1000 - now)) as (H1 & H2 & H3); [lia |]. lia.
  - intros HT Hend Hnear. cbv zeta.
    rewrite (scheduleNextFetch_eq 60000 PatientCache.scheduleNextFetch now T)
      by (reflexivity || lia).
    destruct (Hfires (T + 60000 + 3 * 1000 - now)) as (H1 & H2 & H3); [lia |]. lia.
Qed.

Lemma delays_are_bounded_witness :
  setTimeout (MainServer.scheduleNextFetch (Demo.t_latest + 2000) Demo.t_latest) = 121000
  /\ 1000 <= setTimeout (MainServer.scheduleNextFetch (Demo.t_latest + 2000) Demo.t_latest).
Proof.
  split; [reflexivity |].
  destruct (delays_are_bounded (P := Demo.platform) (Demo.t_latest + 2000) Demo.t_latest)
    as (_ & _ & H & _).
  destruct H as (H & _); [vm_compute; discriminate | vm_compute; discriminate
                         | vm_compute; discriminate | exact H].
Defined.

(** ** The purge and the log *)

Section PurgeProperties.

Context {P : Platform}.

Lemma purge_app (now : Z) (arr arr' : list Measurement) :
  purgeOldMeasurements now (arr ++ arr')
  = purgeOldMeasurements now arr ++ purgeOldMeasurements now arr'.
Proof. unfold purgeOldMeasurements. apply filter_app. Qed.

Lemma purge_keeps_todays (now : Z) (arr : list Measurement) :
  Forall (todays now) arr -> purgeOldMeasurements now arr = arr.
Proof.
  unfold purgeOldMeasurements. cbv zeta.
  induction 1 as [| m rest Hm _ IH]; [reflexivity |].
  cbn [filter]. unfold todays in Hm. rewrite Hm, String.eqb_refl. f_equal. exact IH.
Qed.


(** X4.  The purge keeps the items in their order and keeps an item exactly
    when its date string is today's; purging twice is purging once; an item
    whose stamp is no date is always dropped; and an item of the same local
    day as the clock (the same number of whole days since the epoch on the
    local clock, each instant read with the offset from UTC that the rules
    of the zone give it) is always kept. *)
Theorem purge_keeps_the_day (now : Z) (arr arr' : list Measurement) (m : Measurement) :
  purgeOldMeasurements now (purgeOldMeasurements now arr) = purgeOldMeasurements now arr
  /\ purgeOldMeasurements now (arr ++ arr')
     = purgeOldMeasurements now arr ++ purgeOldMeasurements now arr'
  /\ (length (purgeOldMeasurements now arr) <= length arr)%nat
  /\ (m_Timestamp m = None -> ~ In m (purgeOldMeasurements now arr))
  /\ (forall t, In m arr -> m_Timestamp m = Some t ->
                (t + tz t true) / msPerDay = (now + tz now true) / msPerDay ->
                In m (purgeOldMeasurements now arr)).
Proof.
  split; [apply purge_keeps_todays, purge_all_today |].
  split; [apply purge_app |].
  split; [unfold purgeOldMeasurements; apply filter_length_le |].
  split.
  - intros Hm Hin. destruct (purge_dated now arr m Hin) as [p Hp]. congruence.
  - intros t Hin Hm Hday. unfold purgeOldMeasurements. apply filter_In.
    split; [exact Hin |]. rewrite Hm. unfold toLocaleDateString. rewrite Hday.
    apply String.eqb_refl.
Qed.

Lemma store_cache_eq (now isoStamp : Z) (latest : GlucoseMeasurement) (w : World) :
  PatientCache.storeMeasurement now isoStamp latest w
  = (Returned tt,
     set_measurementsFile
       (Some (Json (JArray (purgeOldMeasurements now (persistedLog w)
                            ++ [item_of isoStamp latest]))))
       (warned "latestMeasurements.json" (measurementsFile w) w)).
Proof.
  unfold PatientCache.storeMeasurement.
  rewrite (bind_Returned _ _ _ _ _ (readMeasurementsFile_eq w)). reflexivity.
Qed.


End PurgeProperties.

Lemma purge_keeps_the_day_witness :
  In (item_of Demo.t_latest Demo.latest)
    (purgeOldMeasurements (P := Demo.platform) (Demo.t_latest + 1000)
       [item_of Demo.t_latest Demo.latest]).
Proof.
  destruct (purge_keeps_the_day (P := Demo.platform) (Demo.t_latest + 1000)
              [item_of Demo.t_latest Demo.latest] [] (item_of Demo.t_latest Demo.latest))
    as (_ & _ & _ & _ & H).
  apply (H Demo.t_latest); [left; reflexivity | reflexivity | reflexivity].
Defined.


(** ** Steps that touch neither the log nor the snapshot, nor the cache *)

Ltac ins_prim :=
  unfold sent;
  repeat first
    [ apply ins_log | apply ins_upstream | apply ins_prompts | apply ins_baseURL
    | apply ins_apiClient_baseURL | apply ins_apiClient_headers ];
  apply ins_refl.

Ltac ins_tac := keeps_with ltac:(apply ins_refl) ltac:(apply ins_trans) ltac:(ins_prim).

Section InsensitiveProgram.

Context {P : Platform}.

Variable R : World -> World -> Prop.
Context {R_ins : Insensitive R}.

Lemma ins_readCache : keeps R readCache.
Proof. unfold readCache. ins_tac. Qed.

Lemma ins_readMeasurementsFile : keeps R readMeasurementsFile.
Proof. unfold readMeasurementsFile. ins_tac. Qed.

Lemma ins_askQuestion (q : string) : keeps R (askQuestion q).
Proof. unfold askQuestion. ins_tac. Qed.

Lemma ins_send {A : Type} (serve : Request -> Upstream -> option A * Upstream)
    (method : Method) (path : string) (authorization : option string)
    (body : option (string * string)) :
  keeps R (send serve method path authorization body).
Proof. ins_tac. Qed.

Lemma ins_postLogin (email password : string) : keeps R (postLogin email password).
Proof. unfold postLogin. apply ins_send. Qed.

Lemma ins_doAuthContinue (prev : option LoginResp) : keeps R (doAuthContinue prev).
Proof. unfold doAuthContinue. ins_tac. Qed.

Lemma ins_parseLibreTimestamp (ts : string) : keeps R (parseLibreTimestamp ts).
Proof. unfold parseLibreTimestamp. ins_tac. Qed.

Lemma ins_toISOString (d : JSDate) : keeps R (toISOString d).
Proof. unfold toISOString. ins_tac. Qed.

Lemma ins_updateBaseURL (region : string) : keeps R (MainServer.updateBaseURL region).
Proof. unfold MainServer.updateBaseURL. ins_tac. Qed.

Lemma ins_updateBaseURL_caching (region : string) :
  keeps R (PatientCache.updateBaseURL region).
Proof. unfold PatientCache.updateBaseURL. ins_tac. Qed.

Hint Resolve ins_readCache ins_readMeasurementsFile ins_askQuestion ins_postLogin
  ins_doAuthContinue ins_parseLibreTimestamp ins_toISOString : keeps.

Section AnyRevision.

Variable updateBaseURL : string -> M unit.
Hypothesis ins_update : forall region, keeps R (updateBaseURL region).

Hint Resolve ins_update : keeps.

Lemma ins_redirectLoop (fuel : nat) (email password : string) :
  forall respData, keeps R (redirectLoop updateBaseURL fuel email password respData).
Proof. induction fuel as [| fuel IH]; intros respData; simpl; ins_tac. Qed.

Lemma ins_continueLoop (fuel : nat) :
  forall respData, keeps R (continueLoop fuel respData).
Proof. induction fuel as [| fuel IH]; intros respData; simpl; ins_tac. Qed.

Lemma ins_finishLogin (respData : option LoginResp) : keeps R (finishLogin respData).
Proof. unfold finishLogin. ins_tac. Qed.

Hint Resolve ins_redirectLoop ins_continueLoop ins_finishLogin : keeps.

Lemma ins_doLoginFlow (fuel : nat) (email password : string) :
  keeps R (doLoginFlow updateBaseURL fuel email password).
Proof. unfold doLoginFlow. ins_tac. Qed.

End AnyRevision.

End InsensitiveProgram.

Section UnlessRules.

Context {P : Platform}.

Variable R : World -> World -> Prop.
Context {R_ins : Insensitive R}.

Lemma unless_keeps {A : Type} (good : A -> Prop) (c : M A) :
  keeps R c -> keeps_unless R good c.
Proof. intros H w. right. apply H. Qed.

Lemma unless_bind {A B : Type} (good : B -> Prop) (c : M A) (k : A -> M B) :
  keeps R c -> (forall x, keeps_unless R good (k x)) -> keeps_unless R good (bind c k).
Proof.
  intros Hc Hk w. specialize (Hc w). unfold bind.
  destruct (c w) as [[x | e |] w1]; simpl in Hc |- *; try (right; exact Hc).
  destruct (Hk x w1) as [Hgood | Hr]; [left; exact Hgood |].
  right. apply (ins_trans _ _ _ Hc Hr).
Qed.

End UnlessRules.

#[local] Instance quiet_store_insensitive {P : Platform} : Insensitive quiet_store.
Proof.
  split; unfold quiet_store.
  - intros w. split; reflexivity.
  - intros w1 w2 w3 [A1 B1] [A2 B2]. split; congruence.
  - intros e w w' H. exact H.
  - intros u w w' H. exact H.
  - intros n w w' H. exact H.
  - intros url w w' H. exact H.
  - intros url w w' H. exact H.
  - intros h w w' H. exact H.
Qed.

#[local] Instance same_cache_insensitive {P : Platform} : Insensitive same_cache.
Proof.
  split; unfold same_cache.
  - intros w. reflexivity.
  - intros w1 w2 w3 A1 A2. congruence.
  - intros e w w' H. exact H.
  - intros u w w' H. exact H.
  - intros n w w' H. exact H.
  - intros url w w' H. exact H.
  - intros url w w' H. exact H.
  - intros h w w' H. exact H.
Qed.

#[local] Hint Resolve ins_readCache ins_readMeasurementsFile ins_askQuestion ins_postLogin
  ins_doAuthContinue ins_parseLibreTimestamp ins_toISOString ins_send
  ins_updateBaseURL ins_updateBaseURL_caching ins_doLoginFlow
  quiet_store_insensitive same_cache_insensitive : keeps.

(** ** The snapshot and the query surface *)

Section SnapshotProperties.

Context {P : Platform}.

Lemma quiet_writeCache (obj : CacheDoc) : keeps quiet_store (writeCache obj).
Proof. intros w. split; reflexivity. Qed.

Hint Resolve quiet_writeCache : keeps.

Lemma quiet_ensureSession (fuel : nat) :
  keeps quiet_store (ensureSession MainServer.updateBaseURL fuel).
Proof. unfold ensureSession, promptAndLogin. ins_tac. Qed.

Lemma store_publish_returns (now : Z) (parsedDate : JSDate) (isoStamp : Z)
    (latest : GlucoseMeasurement) (c : Connection) (w : World) :
  exists x,
    fst (bind (MainServer.storeMeasurement now parsedDate isoStamp latest)
           (fun s => bind (MainServer.publish c latest isoStamp s)
                       (fun _ => ret (Some isoStamp))) w) = Returned x
    /\ x <> None.
Proof.
  rewrite (bind_Returned _ _ _ _ _ (storeMeasurement_eq now parsedDate isoStamp latest w)).
  exists (Some isoStamp). split; [reflexivity | discriminate].
Qed.

(** X6.  A cycle of main_server.js that does not return a stamp (it threw,
    found no connection or no measurement, or did not come back) has
    touched neither the measurement log nor the published snapshot: both
    are replaced only at the end of a successful cycle, and every route
    answers as before. *)
Theorem snapshot_changes_only_on_success (fuel : nat) (now : Z) (w : World) :
  let run := MainServer.fetchAndStoreMeasurement fuel now w in
  (forall T, fst run <> Returned (Some T)) ->
  measurementsFile (snd run) = measurementsFile w
  /\ memoryData (snd run) = memoryData w
  /\ forall route,
       startHttpsServer route (memoryData (snd run))
       = startHttpsServer route (memoryData w).
Proof.
  intros run Hfail.
  assert (H : keeps_unless quiet_store (fun o : option Z => o <> None)
                (MainServer.fetchAndStoreMeasurement fuel now)).
  { unfold MainServer.fetchAndStoreMeasurement.
    apply (unless_bind quiet_store); [apply quiet_ensureSession | intros cacheObj].
    apply (unless_bind quiet_store); [ins_tac | intros _].
    apply (unless_bind quiet_store); [ins_tac | intros [resp |]]; [| apply (unless_keeps quiet_store); ins_tac].
    destruct (negb (strict_eq (conn_status resp) 0)); [apply (unless_keeps quiet_store); ins_tac |].
    destruct (conn_data resp) as [[| c others] |];
      try solve [apply (unless_keeps quiet_store); ins_tac].
    apply (unless_bind quiet_store); [ins_tac | intros [cgm |]]; [| apply (unless_keeps quiet_store); ins_tac].
    destruct (negb (strict_eq (graph_status cgm) 0)); [apply (unless_keeps quiet_store); ins_tac |].
    destruct (latest_of (graph_data cgm)) as [latest |]; [| apply (unless_keeps quiet_store); ins_tac].
    cbn zeta.
    apply (unless_bind quiet_store); [ins_tac | intros parsedDate].
    apply (unless_bind quiet_store); [ins_tac | intros isoStamp].
    intros w0. left. apply store_publish_returns. }
  destruct (H w) as [(x & Hx & Hgood) | [Hlog Hsnap]].
  - exfalso. destruct x as [T |]; [apply (Hfail T); exact Hx | apply Hgood; reflexivity].
  - fold run in Hlog, Hsnap. split; [exact Hlog |]. split; [exact Hsnap |].
    intros route. rewrite Hsnap. reflexivity.
Qed.

(** What a cycle that returns a stamp has gone through. *)
Lemma cycle_Returned_inv (fuel : nat) (now : Z) (w w' : World) (T : Z) :
  MainServer.fetchAndStoreMeasurement fuel now w = (Returned (Some T), w') ->
  exists c latest w3,
    w' = snd (MainServer.publish c latest T
                match MainServer.sinceLastArrow (Some T) latest
                        (purgeOldMeasurements now (persistedLog w3)) with
                | Some n => arrowToEmoji n
                | None => "N/A"%string
                end
                (stored now (Some T) T latest w3)).
Proof.
  unfold MainServer.fetchAndStoreMeasurement. intros H.
  bind_inv H. rewrite bind_modify in H. bind_inv H.
  destruct x0 as [resp |]; [| discriminate].
  destruct (negb (strict_eq (conn_status resp) 0)); [discriminate |].
  destruct (conn_data resp) as [[| c others] |]; try discriminate.
  bind_inv H.
  destruct x0 as [cgm |]; [| discriminate].
  destruct (negb (strict_eq (graph_status cgm) 0)); [discriminate |].
  destruct (latest_of (graph_data cgm)) as [latest |]; [| discriminate].
  cbn zeta in H. bind_inv H. bind_inv H. bind_inv H. bind_inv H.
  inversion H; subst.
  destruct (toISOString_Returned _ _ _ _ E3) as [Hd Hw]. subst.
  rewrite storeMeasurement_eq in E4. inversion E4; subst.
  exists c, latest, w3. unfold MainServer.publish in E5 |- *. inversion E5; subst.
  reflexivity.
Qed.

(** X7.  Until a cycle has published, every route answers 404.  After a
    cycle of main_server.js that returned the stamp [T], the patient and the
    two measurement routes answer 200; the two measurements carry the stamp
    [T], the same trend arrow, glyph, since-last trend and colour; the
    mmol/L value is the conversion of the mg/dL value. *)
Theorem routes_after_a_cycle (fuel : nat) (now : Z) (w w' : World) (T : Z) :
  MainServer.fetchAndStoreMeasurement fuel now w = (Returned (Some T), w') ->
  (forall route cache measurements u,
      reply_status (startHttpsServer route (memoryData (boot cache measurements u))) = 404)
  /\ exists p mgdl mmol,
       startHttpsServer patient_info (memoryData w')
       = {| reply_status := 200; reply_json := PatientJson p |}
       /\ startHttpsServer measurement_mgdl (memoryData w')
          = {| reply_status := 200; reply_json := MgdlJson mgdl |}
       /\ startHttpsServer measurement_mmol (memoryData w')
          = {| reply_status := 200; reply_json := MmolJson mmol |}
       /\ view_Timestamp mgdl = T /\ view_Timestamp mmol = T
       /\ view_Value mmol = mmolVal (view_Value mgdl)
       /\ view_TrendArrow mmol = view_TrendArrow mgdl
       /\ TrendArrowEmoji mgdl = arrowToEmoji (view_TrendArrow mgdl)
       /\ TrendArrowEmoji mmol = TrendArrowEmoji mgdl
       /\ SinceLastTrendArrow mmol = SinceLastTrendArrow mgdl
       /\ view_MeasurementColor mmol = view_MeasurementColor mgdl
       /\ MeasurementColorName mmol = MeasurementColorName mgdl.
Proof.
  intros Hcycle. split.
  - intros [] cache measurements u; reflexivity.
  - destruct (cycle_Returned_inv fuel now w w' T Hcycle) as (c & latest & w3 & ->).
    unfold MainServer.publish. simpl.
    eexists _, _, _. repeat split; reflexivity.
Qed.

End SnapshotProperties.

Lemma snapshot_changes_only_on_success_witness :
  memoryData
    (snd (MainServer.fetchAndStoreMeasurement (P := Lab.platform Lab.iso_reading) 1
            (Demo.t_latest + 1000) (Lab.logged_in Lab.iso_reading)))
  = memoryData0.
Proof.
  destruct (snapshot_changes_only_on_success (P := Lab.platform Lab.iso_reading) 1
              (Demo.t_latest + 1000) (Lab.logged_in Lab.iso_reading))
    as (_ & H & _).
  - intros T. discriminate.
  - exact H.
Defined.

Lemma routes_after_a_cycle_witness :
  exists mmol,
    startHttpsServer measurement_mmol
      (memoryData
         (snd (MainServer.fetchAndStoreMeasurement (P := Demo.platform) 1
                 (Demo.t_latest + 1000) Demo.logged_in)))
    = {| reply_status := 200; reply_json := MmolJson mmol |}
    /\ view_Timestamp mmol = Demo.t_latest.
Proof.
  destruct (routes_after_a_cycle (P := Demo.platform) 1 (Demo.t_latest + 1000)
              Demo.logged_in
              (snd (MainServer.fetchAndStoreMeasurement (P := Demo.platform) 1
                      (Demo.t_latest + 1000) Demo.logged_in))
              Demo.t_latest)
    as (_ & p & mgdl & mmol & _ & _ & Hmmol & _ & Hstamp & _).
  - reflexivity.
  - exists mmol. split; [exact Hmmol | exact Hstamp].
Defined.

(** ** The login flow: refusals and the cache *)

Section LoginRefusals.

Context {P : Platform}.

Lemma bind_Thrown {A B : Type} (c : M A) (k : A -> M B) (w w1 : World) (e : Exn) :
  c w = (Thrown e, w1) -> bind c k w = (Thrown e, w1).
Proof. intros H. unfold bind. rewrite H. reflexivity. Qed.

Lemma bind_OutOfFuel {A B : Type} (c : M A) (k : A -> M B) (w w1 : World) :
  c w = (OutOfFuel, w1) -> bind c k w = (OutOfFuel, w1).
Proof. intros H. unfold bind. rewrite H. reflexivity. Qed.

Variable updateBaseURL : string -> M unit.

Lemma login_answered (fuel : nat) (email password : string) (w : World)
    (answer : option LoginResp) (u : Upstream) :
  serve_auth (request_for w POST "/llu/auth/login" None (Some (email, password)))
    (upstream w) = (Some answer, u) ->
  doLoginFlow updateBaseURL fuel email password w
  = bind (redirectLoop updateBaseURL fuel email password answer)
      (fun respData => bind (continueLoop fuel respData) finishLogin)
      (sent (request_for w POST "/llu/auth/login" None (Some (email, password))) u w).
Proof.
  intros H. unfold doLoginFlow, postLogin.
  rewrite (bind_Returned _ _ _ _ _ (send_answer _ _ _ _ _ _ _ _ H)). reflexivity.
Qed.

(** X8.  The login flow gives up after its first request, with nothing
    switched and nothing more sent, when the request is rejected
    ([RequestFailed]), when the answer asks for a redirect without naming a
    region, and when the answer asks for no redirect and has a status other
    than 0 and 4: the exception then carries that status. *)
Theorem login_refused (fuel : nat) (email password : string) (w : World) :
  let login := request_for w POST "/llu/auth/login" None (Some (email, password)) in
  (forall u,
      serve_auth login (upstream w) = (None, u) ->
      doLoginFlow updateBaseURL fuel email password w = (Thrown RequestFailed, sent login u w))
  /\ (forall answer u,
        serve_auth login (upstream w) = (Some answer, u) ->
        redirect_of answer = true -> truthy (region_of answer) = false ->
        doLoginFlow updateBaseURL (S fuel) email password w
        = (Thrown RedirectWithoutRegion, sent login u w))
  /\ (forall answer u,
        serve_auth login (upstream w) = (Some answer, u) ->
        redirect_of answer = false ->
        status_of answer <> Some 4 -> status_of answer <> Some 0 ->
        doLoginFlow updateBaseURL fuel email password w
        = (Thrown (LoginStatus (status_of answer)), sent login u w)).
Proof.
  cbn zeta. split; [| split].
  - intros u H. unfold doLoginFlow, postLogin, bind at 1.
    rewrite send_eq. cbn zeta. rewrite H. reflexivity.
  - intros answer u H Hred Hreg. rewrite (login_answered _ _ _ _ _ _ H).
    unfold bind at 1. rewrite redirectLoop_unfold, Hred, Hreg. reflexivity.
  - intros answer u H Hred H4 H0. rewrite (login_answered _ _ _ _ _ _ H).
    rewrite (redirectLoop_done _ fuel email password _ Hred), bind_ret_l.
    rewrite (continueLoop_done fuel answer H4), bind_ret_l.
    unfold finishLogin. apply strict_eq_false in H0. rewrite H0. reflexivity.
Qed.

(** X9.  An answer of status 4 that lacks the step type or the token makes
    the flow throw the "missing step type or token" error without posting
    any continuation; an answer of status 0 without ticket, user or user id
    makes it throw a [TypeError]: no session is made of it.  An answer of
    status 0 whose ticket has no token does give a session, without
    token. *)
Theorem login_malformed (fuel : nat) (email password : string) (w : World)
    (r : LoginResp) (data : LoginData) (u : Upstream) :
  let login := request_for w POST "/llu/auth/login" None (Some (email, password)) in
  serve_auth login (upstream w) = (Some (Some r), u) ->
  login_data r = Some data ->
  redirect data = false ->
  (login_status r = Some 4 ->
   truthy (step_type data) = false
   \/ truthy (match authTicket data with Some t => ticket_token t | None => None end) = false ->
   doLoginFlow updateBaseURL (S fuel) email password w
   = (Thrown MissingStepOrToken, sent login u w))
  /\ (login_status r = Some 0 ->
      authTicket data = None \/ user data = None
      \/ (exists usr, user data = Some usr /\ user_id usr = None) ->
      doLoginFlow updateBaseURL fuel email password w = (Thrown TypeError, sent login u w))
  /\ (login_status r = Some 0 ->
      forall ticket usr uid,
        authTicket data = Some ticket -> ticket_token ticket = None ->
        user data = Some usr -> user_id usr = Some uid ->
        doLoginFlow updateBaseURL fuel email password w
        = (Returned {| token := None; userId := uid; accountIdHash := sha256Hex uid |},
           sent login u w)).
Proof.
  intros login H Hd Hred. subst login.
  assert (Hred' : redirect_of (Some r) = false) by (simpl; rewrite Hd; exact Hred).
  split; [| split].
  - intros H4 Hmiss. rewrite (login_answered _ _ _ _ _ _ H).
    rewrite (redirectLoop_done _ (S fuel) email password _ Hred'), bind_ret_l.
    rewrite (continueLoop_round fuel r H4). unfold doAuthContinue. rewrite Hd.
    destruct Hmiss as [Hs | Ht].
    + rewrite Hs. reflexivity.
    + rewrite Ht, orb_true_r. reflexivity.
  - intros H0 Hmiss. rewrite (login_answered _ _ _ _ _ _ H).
    rewrite (redirectLoop_done _ fuel email password _ Hred'), bind_ret_l.
    assert (Hend : status_of (Some r) <> Some 4) by (simpl; rewrite H0; discriminate).
    rewrite (continueLoop_done fuel (Some r) Hend), bind_ret_l.
    unfold finishLogin. change (status_of (Some r)) with (login_status r). rewrite H0, Hd. simpl.
    destruct Hmiss as [Ht | [Hu | (usr & Hu & Hid)]].
    + rewrite Ht. reflexivity.
    + rewrite Hu. destruct (authTicket data); reflexivity.
    + rewrite Hu, Hid. destruct (authTicket data); reflexivity.
  - intros H0 ticket usr uid Ht Htok Hu Hid. rewrite (login_answered _ _ _ _ _ _ H).
    rewrite (redirectLoop_done _ fuel email password _ Hred'), bind_ret_l.
    assert (Hend : status_of (Some r) <> Some 4) by (simpl; rewrite H0; discriminate).
    rewrite (continueLoop_done fuel (Some r) Hend), bind_ret_l.
    unfold finishLogin. change (status_of (Some r)) with (login_status r). rewrite H0, Hd, Ht, Hu, Hid, Htok. reflexivity.
Qed.

Lemma doLoginFlow_session (fuel : nat) (email password : string) (w w' : World)
    (s : Session) :
  doLoginFlow updateBaseURL fuel email password w = (Returned s, w') ->
  accountIdHash s = sha256Hex (userId s).
Proof.
  unfold doLoginFlow. intros H. bind_inv H. bind_inv H. bind_inv H.
  destruct (finishLogin_Returned _ _ _ _ H)
    as (final & _ & _ & (data & ticket & usr & uid & _ & _ & _ & _ & ->) & _).
  reflexivity.
Qed.

Hypothesis update_keeps_cache : forall region, keeps same_cache (updateBaseURL region).

(** X10.  Asking for the credentials and logging in runs the login flow
    on the two answers of the operator, and the flow never writes the cache
    file.  When the flow returns a session, its token, its user id and its
    digest are assigned to the cache object, whose other keys stay; the
    cache file is written with that object, which is returned.  When the
    flow throws or does not come back, so does the step, and the cache file
    is as it was.  For a cache object that is a plain object the file then
    holds the session; for an array, a number, a string or a boolean the
    file written holds no session. *)
Theorem login_writes_cache_on_success (fuel : nat) (cacheObj : CacheDoc) (w : World) :
  let flow :=
    doLoginFlow updateBaseURL fuel (operator (prompts w)) (operator (S (prompts w)))
      (asked_credentials w) in
  cacheFile (snd flow) = cacheFile w
  /\ match fst flow with
     | Returned s =>
         let cacheObj' := assign (fun keys => with_session keys s) cacheObj in
         promptAndLogin updateBaseURL fuel cacheObj w
         = (Returned cacheObj',
            set_cacheFile (Some (Json (JSON_stringify cacheObj'))) (snd flow))
         /\ accountIdHash s = sha256Hex (userId s)
         /\ (forall keys, cacheObj = CObject keys ->
             JSON_stringify cacheObj' = CObject (with_session keys s))
         /\ ((forall keys, cacheObj <> CObject keys) ->
             complete (keys_of (JSON_stringify cacheObj')) = false)
     | Thrown e => promptAndLogin updateBaseURL fuel cacheObj w = (Thrown e, snd flow)
     | OutOfFuel => promptAndLogin updateBaseURL fuel cacheObj w = (OutOfFuel, snd flow)
     end.
Proof.
  cbn zeta.
  assert (Hrun : promptAndLogin updateBaseURL fuel cacheObj w
                 = bind (doLoginFlow updateBaseURL fuel (operator (prompts w))
                           (operator (S (prompts w))))
                     (fun s =>
                        bind (writeCache (assign (fun keys => with_session keys s) cacheObj))
                          (fun _ => ret (assign (fun keys => with_session keys s) cacheObj)))
                     (asked_credentials w)) by reflexivity.
  rewrite Hrun.
  pose proof (ins_doLoginFlow same_cache updateBaseURL update_keeps_cache fuel
                (operator (prompts w)) (operator (S (prompts w))) (asked_credentials w))
    as Hkeep.
  unfold same_cache in Hkeep. split; [exact Hkeep |].
  destruct (doLoginFlow updateBaseURL fuel (operator (prompts w))
              (operator (S (prompts w))) (asked_credentials w)) as [[s | e |] w3] eqn:Hflow;
    cbn [fst snd].
  - rewrite (bind_Returned _ _ _ _ _ Hflow).
    split; [reflexivity |].
    split; [apply (doLoginFlow_session _ _ _ _ _ _ Hflow) |].
    split.
    + intros keys ->. reflexivity.
    + intros Hother. destruct cacheObj as [keys | elements keys | text |];
        try reflexivity.
      exfalso. apply (Hother keys). reflexivity.
  - apply (bind_Thrown _ _ _ _ _ Hflow).
  - apply (bind_OutOfFuel _ _ _ _ Hflow).
Qed.

End LoginRefusals.

Lemma login_refused_witness :
  fst (doLoginFlow MainServer.updateBaseURL 0 "ada@example.org" "secret"
         (Script.start None [None]))
  = Thrown RequestFailed
  /\ fst (doLoginFlow MainServer.updateBaseURL 1 "ada@example.org" "secret"
            (Script.start None [Some (Some Script.redirect_nowhere)]))
     = Thrown RedirectWithoutRegion
  /\ fst (doLoginFlow MainServer.updateBaseURL 0 "ada@example.org" "secret"
            (Script.start None [Some (Some (Demo.ticket "t" (Some "u-1") 2 None))]))
     = Thrown (LoginStatus (Some 2)).
Proof.
  split; [| split].
  - destruct (login_refused MainServer.updateBaseURL 0 "ada@example.org" "secret"
                (Script.start None [None])) as (H & _ & _).
    rewrite (H _ eq_refl). reflexivity.
  - destruct (login_refused MainServer.updateBaseURL 0 "ada@example.org" "secret"
                (Script.start None [Some (Some Script.redirect_nowhere)])) as (_ & H & _).
    rewrite (H _ _ eq_refl eq_refl eq_refl). reflexivity.
  - destruct (login_refused MainServer.updateBaseURL 0 "ada@example.org" "secret"
                (Script.start None [Some (Some (Demo.ticket "t" (Some "u-1") 2 None))]))
      as (_ & _ & H).
    rewrite (H _ _ eq_refl eq_refl); [reflexivity | discriminate | discriminate].
Defined.

Lemma login_malformed_witness :
  fst (doLoginFlow MainServer.updateBaseURL 1 "ada@example.org" "secret"
         (Script.start None [Some (Some Script.step_without_token)]))
  = Thrown MissingStepOrToken
  /\ fst (doLoginFlow MainServer.updateBaseURL 0 "ada@example.org" "secret"
            (Script.start None [Some (Some Script.ticket_without_user)]))
     = Thrown TypeError.
Proof.
  split.
  - destruct (login_malformed MainServer.updateBaseURL 0 "ada@example.org" "secret"
                (Script.start None [Some (Some Script.step_without_token)])
                Script.step_without_token _ _ eq_refl eq_refl eq_refl) as (H & _ & _).
    rewrite (H eq_refl (or_intror eq_refl)). reflexivity.
  - destruct (login_malformed MainServer.updateBaseURL 0 "ada@example.org" "secret"
                (Script.start None [Some (Some Script.ticket_without_user)])
                Script.ticket_without_user _ _ eq_refl eq_refl eq_refl) as (_ & H & _).
    rewrite (H eq_refl (or_intror (or_introl eq_refl))). reflexivity.
Defined.

Lemma login_writes_cache_on_success_witness :
  cacheFile
    (snd (promptAndLogin MainServer.updateBaseURL 1 empty_cache
            (Script.start None [Some (Some (Demo.ticket "t2" (Some "u-1") 0 None))])))
  = Some (Json Demo.session_cache)
  /\ cacheFile
       (snd (promptAndLogin MainServer.updateBaseURL 1 (CScalar "42")
               (Script.start (Some (Json (CScalar "42")))
                  [Some (Some (Demo.ticket "t2" (Some "u-1") 0 None))])))
     = Some (Json (CScalar "42"))
  /\ cacheFile
       (snd (promptAndLogin MainServer.updateBaseURL 1 Demo.session_cache
               (Script.start (Some (Json Demo.session_cache))
                  [Some (Some Script.ticket_without_user)])))
     = Some (Json Demo.session_cache).
Proof.
  split; [| split].
  - destruct (login_writes_cache_on_success MainServer.updateBaseURL
                (ins_updateBaseURL same_cache) 1 empty_cache
                (Script.start None [Some (Some (Demo.ticket "t2" (Some "u-1") 0 None))]))
      as (_ & H & _).
    rewrite H. reflexivity.
  - destruct (login_writes_cache_on_success MainServer.updateBaseURL
                (ins_updateBaseURL same_cache) 1 (CScalar "42")
                (Script.start (Some (Json (CScalar "42")))
                   [Some (Some (Demo.ticket "t2" (Some "u-1") 0 None))]))
      as (_ & H & _).
    rewrite H. reflexivity.
  - destruct (login_writes_cache_on_success MainServer.updateBaseURL
                (ins_updateBaseURL same_cache) 1 Demo.session_cache
                (Script.start (Some (Json Demo.session_cache))
                   [Some (Some Script.ticket_without_user)])) as (Hsame & H).
    cbn [fst] in H. rewrite H. exact Hsame.
Defined.

(** ** Sessions: headers, prompts and the address of the caching revision *)

Section SendsDefaults.

Context {P : Platform}.

Lemma defaults_refl (w : World) : sends_defaults w w.
Proof.
  split; [reflexivity |]. exists []. split; [symmetry; apply app_nil_r | constructor].
Qed.

Lemma defaults_trans (w1 w2 w3 : World) :
  sends_defaults w1 w2 -> sends_defaults w2 w3 -> sends_defaults w1 w3.
Proof.
  intros (H1 & n1 & E1 & F1) (H2 & n2 & E2 & F2).
  split; [congruence |]. exists (n1 ++ n2). split.
  - rewrite E2, E1, app_assoc. reflexivity.
  - apply Forall_app. split; [exact F1 | rewrite <- H1; exact F2].
Qed.

Lemma defaults_quiet (w w' : World) :
  apiClient_headers w' = apiClient_headers w -> events w' = events w ->
  sends_defaults w w'.
Proof.
  intros Hh He. split; [exact Hh |].
  exists []. split; [rewrite He; symmetry; apply app_nil_r | constructor].
Qed.

Lemma defaults_event (w w' : World) (e : Event) :
  apiClient_headers w' = apiClient_headers w -> events w' = events w ++ [e] ->
  carries (apiClient_headers w) e -> sends_defaults w w'.
Proof.
  intros Hh He Hc. split; [exact Hh |].
  exists [e]. split; [exact He | constructor; [exact Hc | constructor]].
Qed.

Lemma asks_nothing_refl (w : World) : asks_nothing w w.
Proof. split; [reflexivity |]. exists []. symmetry. apply app_nil_r. Qed.

Lemma asks_nothing_trans (w1 w2 w3 : World) :
  asks_nothing w1 w2 -> asks_nothing w2 w3 -> asks_nothing w1 w3.
Proof.
  intros (H1 & n1 & E1) (H2 & n2 & E2). split; [congruence |].
  exists (n1 ++ n2). rewrite E2, E1, app_assoc. reflexivity.
Qed.

Lemma asks_nothing_quiet (w w' : World) :
  prompts w' = prompts w -> events w' = events w -> asks_nothing w w'.
Proof.
  intros Hp He. split; [exact Hp |]. exists []. rewrite He. symmetry. apply app_nil_r.
Qed.

Lemma asks_nothing_event (w w' : World) (e : Event) :
  prompts w' = prompts w -> events w' = events w ++ [e] -> asks_nothing w w'.
Proof. intros Hp He. split; [exact Hp |]. exists [e]. exact He. Qed.

End SendsDefaults.

Ltac defaults_prim :=
  first
    [ apply defaults_quiet; reflexivity
    | eapply defaults_event; [ reflexivity | reflexivity | exact I ]
    | eapply defaults_event; [ reflexivity | reflexivity | reflexivity ] ].

Ltac defaults_tac :=
  keeps_with ltac:(exact defaults_refl) ltac:(exact defaults_trans) ltac:(defaults_prim).

Ltac silent_prim :=
  first
    [ apply asks_nothing_quiet; reflexivity
    | eapply asks_nothing_event; reflexivity ].

Ltac silent_tac :=
  keeps_with ltac:(exact asks_nothing_refl) ltac:(exact asks_nothing_trans)
             ltac:(silent_prim).

Section SessionProperties.

Context {P : Platform}.

Lemma defaults_readMeasurementsFile : keeps sends_defaults readMeasurementsFile.
Proof. unfold readMeasurementsFile. defaults_tac. Qed.

Lemma defaults_parseLibreTimestamp (ts : string) :
  keeps sends_defaults (parseLibreTimestamp ts).
Proof. unfold parseLibreTimestamp. defaults_tac. Qed.

Lemma defaults_toISOString (d : JSDate) : keeps sends_defaults (toISOString d).
Proof. unfold toISOString. defaults_tac. Qed.

Hint Resolve defaults_readMeasurementsFile defaults_parseLibreTimestamp
  defaults_toISOString : keeps.

Lemma defaults_after_headers (fuel : nat) (now : Z) (c : CacheObj) (w : World) :
  cacheFile w = Some (Json c) -> complete c = true ->
  exists rest,
    MainServer.fetchAndStoreMeasurement fuel now w
    = rest (set_apiClient_headers (session_headers c) w)
    /\ keeps sends_defaults rest.
Proof.
  intros Hfile Hc. unfold complete in Hc.
  apply andb_prop in Hc. destruct Hc as [Hc Ha]. apply andb_prop in Hc.
  destruct Hc as [Ht Hu].
  unfold MainServer.fetchAndStoreMeasurement.
  rewrite (bind_Returned _ _ _ _ _
             (ensureSession_cached MainServer.updateBaseURL fuel w c Hfile Ht Hu Ha)).
  rewrite bind_modify. eexists. split; [reflexivity |].
  unfold MainServer.storeMeasurement, writeMeasurementsFile, MainServer.publish.
  defaults_tac.
Qed.

Lemma defaults_after_headers_caching (fuel : nat) (now : Z) (c : CacheObj) (w : World) :
  cacheFile w = Some (Json c) -> complete c = true ->
  exists rest,
    PatientCache.fetchAndStoreMeasurement fuel now w
    = rest (with_session_headers c w)
    /\ keeps sends_defaults rest.
Proof.
  intros Hfile Hc. unfold complete in Hc.
  apply andb_prop in Hc. destruct Hc as [Hc Ha]. apply andb_prop in Hc.
  destruct Hc as [Ht Hu].
  unfold PatientCache.fetchAndStoreMeasurement.
  rewrite (bind_Returned _ _ _ _ _
             (ensureSession_cached PatientCache.updateBaseURL fuel w c Hfile Ht Hu Ha)).
  rewrite bind_modify. eexists. split; [reflexivity |].
  unfold PatientCache.resolvePatient, PatientCache.publishPatient, PatientCache.fetchLatest,
    PatientCache.storeMeasurement, PatientCache.publishMeasurement, writeCache,
    writeMeasurementsFile.
  defaults_tac.
Qed.

(** X11.  With a complete session in the cache, every request of a cycle
    carries the session: in main_server.js the bearer token, the account
    digest and the user id as [patientid]; in the caching revision the
    bearer token and the account digest, and whatever [patientid] the
    client had. *)
Theorem requests_carry_the_session (fuel : nat) (now : Z) (c : CacheObj) (w : World) :
  cacheFile w = Some (Json c) -> complete c = true ->
  (exists new,
      events (snd (MainServer.fetchAndStoreMeasurement fuel now w)) = events w ++ new
      /\ Forall (carries {| Authorization := Some ("Bearer " ++ show_prop (cache_token c))%string;
                            Account_Id := cache_accountIdHash c;
                            patientid := cache_userId c |}) new)
  /\ (exists new,
        events (snd (PatientCache.fetchAndStoreMeasurement fuel now w)) = events w ++ new
        /\ Forall (carries {| Authorization := Some ("Bearer " ++ show_prop (cache_token c))%string;
                              Account_Id := cache_accountIdHash c;
                              patientid := patientid (apiClient_headers w) |}) new).
Proof.
  intros Hfile Hc. split.
  - destruct (defaults_after_headers fuel now c w Hfile Hc) as (rest & -> & Hrest).
    destruct (Hrest (set_apiClient_headers (session_headers c) w)) as (_ & new & He & Hf).
    exists new. split; [exact He | exact Hf].
  - destruct (defaults_after_headers_caching fuel now c w Hfile Hc) as (rest & -> & Hrest).
    destruct (Hrest (with_session_headers c w)) as (_ & new & He & Hf).
    exists new. split; [exact He | exact Hf].
Qed.

End SessionProperties.

Section Prompts.

Context {P : Platform}.

Variable updateBaseURL : string -> M unit.

Hypothesis update_asks_nothing : forall region, keeps asks_nothing (updateBaseURL region).

Lemma silent_doAuthContinue (prev : option LoginResp) :
  keeps asks_nothing (doAuthContinue prev).
Proof. unfold doAuthContinue. silent_tac. Qed.

Lemma silent_postLogin (email password : string) :
  keeps asks_nothing (postLogin email password).
Proof. unfold postLogin. silent_tac. Qed.

Hint Resolve silent_doAuthContinue silent_postLogin update_asks_nothing : keeps.

Lemma silent_redirectLoop (fuel : nat) (email password : string) :
  forall respData, keeps asks_nothing (redirectLoop updateBaseURL fuel email password respData).
Proof. induction fuel as [| fuel IH]; intros respData; simpl; silent_tac. Qed.

Lemma silent_continueLoop (fuel : nat) :
  forall respData, keeps asks_nothing (continueLoop fuel respData).
Proof. induction fuel as [| fuel IH]; intros respData; simpl; silent_tac. Qed.

Lemma silent_finishLogin (respData : option LoginResp) :
  keeps asks_nothing (finishLogin respData).
Proof. unfold finishLogin. silent_tac. Qed.

Hint Resolve silent_redirectLoop silent_continueLoop silent_finishLogin : keeps.

Lemma bind_send_first {A B : Type} (serve : Request -> Upstream -> option A * Upstream)
    (method : Method) (path : string) (authorization : option string)
    (body : option (string * string)) (k : A -> M B) (w : World) :
  (forall x, keeps asks_nothing (k x)) ->
  exists u,
    asks_nothing (sent (request_for w method path authorization body) u w)
      (snd (bind (send serve method path authorization body) k w)).
Proof.
  intros Hk. unfold bind. rewrite send_eq. cbn zeta.
  exists (snd (serve (request_for w method path authorization body) (upstream w))).
  destruct (fst (serve _ (upstream w))) as [x |]; simpl;
    [apply Hk | apply asks_nothing_refl].
Qed.

Lemma readCache_cached (w : World) :
  readCache w = (Returned (cached w), warned "cache.json" (cacheFile w) w).
Proof.
  unfold readCache, cached, warned. rewrite bind_gets.
  destruct (cacheFile w) as [[raw | doc] |]; reflexivity.
Qed.

(** X12.  What the cycle does with the object that [readCache] returns.
    With the three keys of the session on it nothing is asked, nothing is
    sent and the object is used.  When it is [null] (the text of the cache
    file is [null]) the read of the token throws a [TypeError]: nothing is
    asked or sent, and every cycle of either revision ends so, with the
    process as it was and the next cycle in 60 s.  In every other case the
    address is asked first, then the password, the next answer of the
    operator each time; the login request that follows carries the two
    answers as typed; and nothing more is asked until the login is over. *)
Theorem credentials_asked_when_missing (fuel : nat) (w : World) :
  let run := ensureSession updateBaseURL fuel w in
  (complete (keys_of (cached w)) = true -> run = (Returned (cached w), w))
  /\ (cached w = CNull ->
      run = (Thrown TypeError, w)
      /\ (forall now now', MainServer.fetchCycle fuel now now' w = (Some 60000, w))
      /\ (forall now now', PatientCache.fetchCycle fuel now now' w = (Some 60000, w)))
  /\ (cached w <> CNull -> complete (keys_of (cached w)) = false ->
      let w0 := warned "cache.json" (cacheFile w) w in
      let email := operator (prompts w) in
      let password := operator (S (prompts w)) in
      prompts (snd run) = S (S (prompts w))
      /\ exists login rest,
           events (snd run)
           = events w0 ++ Prompted "LibreView Email: " :: Prompted "LibreView Password: "
                          :: Sent login :: rest
           /\ req_method login = POST /\ req_path login = "/llu/auth/login"%string
           /\ req_body login = Some (email, password)).
Proof.
  cbn zeta.
  assert (Hnowarn : forall doc, cached w = doc -> doc <> CObject empty_cache ->
                                warned "cache.json" (cacheFile w) w = w).
  { intros doc Hdoc Hne. unfold cached in Hdoc. unfold warned.
    destruct (cacheFile w) as [[raw | doc'] |]; try reflexivity.
    exfalso. apply Hne. symmetry. exact Hdoc. }
  assert (Hnull : forall upd, cached w = CNull ->
                              ensureSession upd fuel w = (Thrown TypeError, w)).
  { intros upd Hc. unfold ensureSession.
    rewrite (bind_Returned _ _ _ _ _ (readCache_cached w)), Hc.
    rewrite (Hnowarn CNull Hc) by discriminate. reflexivity. }
  split; [| split].
  - intros Hc. unfold ensureSession.
    rewrite (bind_Returned _ _ _ _ _ (readCache_cached w)).
    assert (Hdoc : cached w <> CObject empty_cache)
      by (intros E; rewrite E in Hc; discriminate Hc).
    rewrite (Hnowarn _ eq_refl Hdoc).
    destruct (cached w) as [keys | elements keys | text |] eqn:Hcached;
      try discriminate Hc; cbn [is_null keys_of] in Hc |- *;
      unfold complete in Hc; apply andb_prop in Hc; destruct Hc as [Hc Ha];
      apply andb_prop in Hc; destruct Hc as [Ht Hu]; rewrite Ht, Hu, Ha; reflexivity.
  - intros Hc. split; [apply (Hnull updateBaseURL Hc) |]. split.
    + intros now now'. unfold MainServer.fetchCycle, MainServer.fetchAndStoreMeasurement.
      rewrite (bind_Thrown _ _ _ _ _ (Hnull MainServer.updateBaseURL Hc)). reflexivity.
    + intros now now'. unfold PatientCache.fetchCycle, PatientCache.fetchAndStoreMeasurement.
      rewrite (bind_Thrown _ _ _ _ _ (Hnull PatientCache.updateBaseURL Hc)). reflexivity.
  - intros Hnot Hc. unfold ensureSession.
    rewrite (bind_Returned _ _ _ _ _ (readCache_cached w)).
    set (w0 := warned "cache.json" (cacheFile w) w).
    assert (Hp0 : prompts w0 = prompts w).
    { unfold w0, warned. destruct (cacheFile w) as [[raw | c'] |]; reflexivity. }
    replace (is_null (cached w)) with false
      by (destruct (cached w); try reflexivity; contradiction).
    replace (negb (truthy (cache_token (keys_of (cached w))))
             || negb (truthy (cache_userId (keys_of (cached w))))
             || negb (truthy (cache_accountIdHash (keys_of (cached w))))) with true
      by (symmetry; rewrite <- !negb_andb; unfold complete in Hc; rewrite Hc; reflexivity).
    unfold promptAndLogin, askQuestion.
    rewrite !bind_assoc, bind_gets, bind_assoc, bind_modify, bind_ret_l.
    rewrite !bind_assoc, bind_gets, bind_assoc, bind_modify, bind_ret_l.
    unfold doLoginFlow, postLogin. rewrite !bind_assoc.
    match goal with
    | |- context [bind (send ?serve ?m ?p ?a ?b) ?k ?w1] =>
        assert (Hk : forall x, keeps asks_nothing (k x))
          by (intros x; unfold writeCache; silent_tac);
        destruct (bind_send_first serve m p a b k w1 Hk) as (u & Hp & new & He);
        set (run := bind (send serve m p a b) k w1) in *
    end.
    split.
    + rewrite Hp. simpl. rewrite Hp0. reflexivity.
    + eexists _, new. split.
      * rewrite He. unfold sent. simpl. rewrite <- !app_assoc. reflexivity.
      * split; [reflexivity | split; [reflexivity |]].
        simpl. rewrite Hp0. reflexivity.
Qed.

End Prompts.

Section Addresses.

Context {P : Platform}.

Lemma silent_updateBaseURL (region : string) :
  keeps asks_nothing (MainServer.updateBaseURL region).
Proof. unfold MainServer.updateBaseURL. silent_tac. Qed.

Lemma silent_updateBaseURL_caching (region : string) :
  keeps asks_nothing (PatientCache.updateBaseURL region).
Proof. unfold PatientCache.updateBaseURL. silent_tac. Qed.

(** The service redirects every login sent to the global address. *)
Hypothesis redirects_from_global :
  forall r u,
    req_base r = "https://api.libreview.io"%string ->
    req_path r = "/llu/auth/login"%string ->
    exists resp u',
      serve_auth r u = (Some (Some resp), u')
      /\ redirect_of (Some resp) = true /\ truthy (region_of (Some resp)) = true.

Lemma requests_snoc (evs : list Event) (e : Event) :
  requests (evs ++ [e]) = (requests evs + requests [e])%nat.
Proof.
  induction evs as [| e0 evs IH]; [reflexivity |].
  simpl. destruct e0; rewrite IH; reflexivity.
Qed.

Lemma caching_redirectLoop_stuck (email password : string) (fuel : nat) :
  forall (respData : option LoginResp) (w : World),
    redirect_of respData = true -> truthy (region_of respData) = true ->
    let run := redirectLoop PatientCache.updateBaseURL fuel email password respData w in
    fst run = OutOfFuel
    /\ cacheFile (snd run) = cacheFile w
    /\ requests (events (snd run)) = (requests (events w) + fuel)%nat.
Proof.
  induction fuel as [| fuel IH]; intros respData w Hred Hreg; cbn zeta.
  - simpl. rewrite Hred. simpl. split; [reflexivity |]. split; [reflexivity | lia].
  - set (w1 := log (UpdatedBaseURL "https://api.libreview.io")
                (set_apiClient_baseURL "https://api.libreview.io"
                   (set_baseURL "https://api.libreview.io" w))).
    destruct (redirects_from_global
                (request_for w1 POST "/llu/auth/login" None (Some (email, password)))
                (upstream w1) eq_refl eq_refl) as (resp & u' & Hserve & Hred' & Hreg').
    assert (Hrun : redirectLoop PatientCache.updateBaseURL (S fuel) email password respData w
                   = redirectLoop PatientCache.updateBaseURL fuel email password (Some resp)
                       (sent (request_for w1 POST "/llu/auth/login" None
                                (Some (email, password))) u' w1)).
    { rewrite redirectLoop_unfold, Hred, Hreg. cbn [negb].
      unfold PatientCache.updateBaseURL at 1. cbn zeta.
      rewrite !bind_assoc, bind_modify, bind_assoc, bind_modify, bind_modify.
      unfold postLogin at 1.
      rewrite (bind_Returned _ _ _ _ _ (send_answer _ _ _ _ _ _ _ _ Hserve)).
      reflexivity. }
    rewrite Hrun.
    destruct (IH (Some resp)
                (sent (request_for w1 POST "/llu/auth/login" None (Some (email, password)))
                   u' w1) Hred' Hreg') as (Hout & Hcache & Hreq).
    split; [exact Hout |]. split; [rewrite Hcache; reflexivity |].
    rewrite Hreq. unfold sent, w1. simpl. rewrite !requests_snoc. simpl. lia.
Qed.

(** X13.  The caching revision cannot follow a redirect.  Its
    [updateBaseURL] puts the client back at the global address, so against
    a service that redirects the logins it receives there, the redirect loop
    of the login flow never ends: whatever the number of rounds allowed, the
    flow has not come back, it has posted one login at the start and one
    per round, and the cache file is as it was. *)
Theorem caching_revision_cannot_follow_redirect (email password : string) (w : World)
    (fuel : nat) :
  apiClient_baseURL w = "https://api.libreview.io"%string ->
  let run := PatientCache.doLoginFlow fuel email password w in
  fst run = OutOfFuel
  /\ cacheFile (snd run) = cacheFile w
  /\ requests (events (snd run)) = (requests (events w) + S fuel)%nat.
Proof.
  intros Hbase. cbn zeta. unfold PatientCache.doLoginFlow, doLoginFlow.
  destruct (redirects_from_global
              (request_for w POST "/llu/auth/login" None (Some (email, password)))
              (upstream w) Hbase eq_refl) as (resp & u' & Hserve & Hred & Hreg).
  pose proof (caching_redirectLoop_stuck email password fuel (Some resp)
                (sent (request_for w POST "/llu/auth/login" None (Some (email, password)))
                   u' w) Hred Hreg) as H.
  cbn zeta in H. destruct H as (Hout & Hcache & Hreq).
  assert (Hrun : (respData <- postLogin email password ;;
                  respData <- redirectLoop PatientCache.updateBaseURL fuel email password
                                respData ;;
                  respData <- continueLoop fuel respData ;;
                  finishLogin respData) w
                 = (OutOfFuel,
                    snd (redirectLoop PatientCache.updateBaseURL fuel email password
                           (Some resp)
                           (sent (request_for w POST "/llu/auth/login" None
                                    (Some (email, password))) u' w)))).
  { unfold postLogin at 1.
    rewrite (bind_Returned _ _ _ _ _ (send_answer _ _ _ _ _ _ _ _ Hserve)).
    apply bind_OutOfFuel.
    destruct (redirectLoop PatientCache.updateBaseURL fuel email password (Some resp) _)
      as [o w']. simpl in Hout. subst o. reflexivity. }
  rewrite Hrun. simpl. split; [reflexivity |]. split; [exact Hcache |].
  rewrite Hreq. unfold sent. simpl. rewrite requests_snoc. simpl. lia.
Qed.

End Addresses.

Lemma requests_carry_the_session_witness :
  complete Demo.session_cache = true
  /\ exists new,
       events (snd (MainServer.fetchAndStoreMeasurement 1 (Demo.t_latest + 1000)
                      Demo.logged_in))
       = events Demo.logged_in ++ new
       /\ Forall (carries {| Authorization := Some "Bearer t2";
                             Account_Id := Some "sha256:u-1";
                             patientid := Some "u-1" |}) new.
Proof.
  split; [reflexivity |].
  destruct (requests_carry_the_session 1 (Demo.t_latest + 1000) Demo.session_cache
              Demo.logged_in eq_refl eq_refl) as [H _].
  exact H.
Defined.

Lemma credentials_asked_when_missing_witness :
  complete (keys_of (cached (Demo.fresh true))) = false
  /\ prompts (snd (ensureSession MainServer.updateBaseURL 2 (Demo.fresh true))) = 2%nat
  /\ MainServer.fetchCycle 2 0 0 (Script.start (Some (Json CNull)) [])
     = (Some 60000, Script.start (Some (Json CNull)) []).
Proof.
  split; [reflexivity |]. split.
  - destruct (credentials_asked_when_missing MainServer.updateBaseURL silent_updateBaseURL
                2 (Demo.fresh true)) as (_ & _ & H).
    destruct H as [Hp _]; [discriminate | reflexivity | exact Hp].
  - destruct (credentials_asked_when_missing MainServer.updateBaseURL silent_updateBaseURL
                2 (Script.start (Some (Json CNull)) [])) as (_ & H & _).
    destruct (H eq_refl) as (_ & Hcycle & _). apply Hcycle.
Defined.

Lemma caching_revision_cannot_follow_redirect_witness :
  apiClient_baseURL (Lab.logged_in Demo.latest) = "https://api.libreview.io"%string
  /\ fst (PatientCache.doLoginFlow 5 "ada@example.org" "secret"
            (Lab.logged_in Demo.latest)) = OutOfFuel
  /\ requests (events (snd (PatientCache.doLoginFlow 5 "ada@example.org" "secret"
                              (Lab.logged_in Demo.latest)))) = 6%nat.
Proof.
  split; [reflexivity |].
  assert (H : forall (r : Request) (u : unit),
             req_base r = "https://api.libreview.io"%string ->
             req_path r = "/llu/auth/login"%string ->
             exists resp u',
               serve_auth (Platform := Lab.platform Demo.latest) r u
               = (Some (Some resp), u')
               /\ redirect_of (Some resp) = true
               /\ truthy (region_of (Some resp)) = true).
  { intros r u _ _. exists (Demo.go_to "eu"), u.
    split; [reflexivity | split; reflexivity]. }
  destruct (caching_revision_cannot_follow_redirect (P := Lab.platform Demo.latest) H
              "ada@example.org" "secret"
              (Lab.logged_in Demo.latest) 5 eq_refl) as (Hout & _ & Hreq).
  split; [exact Hout | exact Hreq].
Defined.

(** ** Cycles that bring no reading *)

Section NoReading.

Context {P : Platform}.

Lemma cycle_listed (fuel : nat) (now : Z) (c : CacheObj) (w : World)
    (resp : ConnectionsResp) (u : Upstream) :
  cacheFile w = Some (Json c) -> complete c = true ->
  let w1 := set_apiClient_headers (session_headers c) w in
  let listing := request_for w1 GET "/llu/connections" None None in
  serve_connections listing (upstream w) = (Some (Some resp), u) ->
  MainServer.fetchAndStoreMeasurement fuel now w
  = (if negb (strict_eq (conn_status resp) 0)
     then throw (ConnectionsStatus (conn_status resp))
     else
       match conn_data resp with
       | None | Some [] => ret None
       | Some (c :: _) =>
           bind (send serve_graph GET
                   ("/llu/connections/" ++ show_prop (patientId c) ++ "/graph") None None)
             (fun cgmResp =>
                match cgmResp with
                | None => throw TypeError
                | Some cgm =>
                    if negb (strict_eq (graph_status cgm) 0)
                    then throw (CgmStatus (graph_status cgm))
                    else
                      match latest_of (graph_data cgm) with
                      | None => ret None
                      | Some latest =>
                          bind (parseLibreTimestamp (Timestamp latest)) (fun parsedDate =>
                          bind (toISOString parsedDate) (fun isoStamp =>
                          bind (MainServer.storeMeasurement now parsedDate isoStamp latest)
                            (fun sinceLastTrendEmoji =>
                          bind (MainServer.publish c latest isoStamp sinceLastTrendEmoji)
                            (fun _ => ret (Some isoStamp)))))
                      end
                end)
       end) (sent listing u w1).
Proof.
  intros Hfile Hc w1 listing Hserve. unfold complete in Hc.
  apply andb_prop in Hc. destruct Hc as [Hc Ha]. apply andb_prop in Hc.
  destruct Hc as [Ht Hu].
  unfold MainServer.fetchAndStoreMeasurement.
  rewrite (bind_Returned _ _ _ _ _
             (ensureSession_cached MainServer.updateBaseURL fuel w c Hfile Ht Hu Ha)).
  rewrite bind_modify.
  rewrite (bind_Returned _ _ _ _ _
             (send_answer serve_connections GET "/llu/connections" None None w1
                (Some resp) u Hserve)).
  reflexivity.
Qed.

(** X14.  With a session cached, a cycle of main_server.js whose listing
    is refused (status other than 0) or has no connection stops after that
    one request; with a connection listed, it asks for the graph of the
    first connection only, and stops after that request when the graph is
    refused or has no measurement.  In each case nothing but the headers of
    the client, the upstream service and the record of the requests has
    changed, and the next cycle is due in 60 seconds. *)
Theorem cycle_without_reading (fuel : nat) (now now' : Z) (c : CacheObj) (w : World)
    (resp : ConnectionsResp) (u : Upstream) :
  cacheFile w = Some (Json c) -> complete c = true ->
  let w1 := set_apiClient_headers (session_headers c) w in
  let listing := request_for w1 GET "/llu/connections" None None in
  serve_connections listing (upstream w) = (Some (Some resp), u) ->
  (conn_status resp <> Some 0 \/ conn_data resp = None \/ conn_data resp = Some [] ->
   MainServer.fetchCycle fuel now now' w = (Some 60000, sent listing u w1))
  /\ (forall first others cgm u',
        conn_status resp = Some 0 -> conn_data resp = Some (first :: others) ->
        let w2 := sent listing u w1 in
        let chart :=
          request_for w2 GET
            ("/llu/connections/" ++ show_prop (patientId first) ++ "/graph") None None in
        serve_graph chart u = (Some (Some cgm), u') ->
        graph_status cgm <> Some 0 \/ latest_of (graph_data cgm) = None ->
        MainServer.fetchCycle fuel now now' w = (Some 60000, sent chart u' w2)).
Proof.
  intros Hfile Hc w1 listing Hserve. unfold MainServer.fetchCycle.
  rewrite (cycle_listed fuel now c w resp u Hfile Hc Hserve). fold w1 listing.
  split.
  - intros [Hst | [Hd | Hd]].
    + apply strict_eq_false in Hst. rewrite Hst. reflexivity.
    + rewrite Hd. destruct (negb (strict_eq (conn_status resp) 0)); reflexivity.
    + rewrite Hd. destruct (negb (strict_eq (conn_status resp) 0)); reflexivity.
  - intros first others cgm u' Hst Hd Hgraph Hbad.
    set (w2 := sent listing u w1) in *.
    apply strict_eq_true in Hst. rewrite Hst, Hd. cbn [negb].
    rewrite (bind_Returned _ _ _ _ _
               (send_answer serve_graph GET
                  ("/llu/connections/" ++ show_prop (patientId first) ++ "/graph")
                  None None w2 (Some cgm) u' Hgraph)).
    destruct Hbad as [Hg | Hl].
    + apply strict_eq_false in Hg. rewrite Hg. reflexivity.
    + rewrite Hl. destruct (negb (strict_eq (graph_status cgm) 0)); reflexivity.
Qed.

End NoReading.

Lemma cycle_without_reading_witness :
  fst (MainServer.fetchCycle 1 0 0 (Script.start (Some (Json Demo.session_cache)) []))
  = Some 60000
  /\ requests (events (snd (MainServer.fetchCycle 1 0 0
                              (Script.start (Some (Json Demo.session_cache)) []))))
     = 1%nat.
Proof.
  destruct (cycle_without_reading 1 0 0 Demo.session_cache
              (Script.start (Some (Json Demo.session_cache)) [])
              {| conn_status := Some 0; conn_data := Some [] |}
              (upstream (Script.start (Some (Json Demo.session_cache)) []))
              eq_refl eq_refl eq_refl)
    as [H _].
  rewrite (H (or_intror (or_intror eq_refl))). split; reflexivity.
Defined.

(** ** The caching revision publishes the patient first *)

Section ProfileFirst.

Context {P : Platform}.

Lemma profile_refl (w : World) : same_profile w w.
Proof. split; reflexivity. Qed.

Lemma profile_trans (w1 w2 w3 : World) :
  same_profile w1 w2 -> same_profile w2 w3 -> same_profile w1 w3.
Proof. intros [A1 B1] [A2 B2]. split; congruence. Qed.

End ProfileFirst.

#[local] Instance quiet_measurements_insensitive {P : Platform} :
   Insensitive quiet_measurements.
Proof.
  split; unfold quiet_measurements; try (intros; assumption).
  - intros w. repeat split.
  - intros w1 w2 w3 (A1 & B1 & C1) (A2 & B2 & C2). repeat split; congruence.
Qed.

#[local] Hint Resolve quiet_measurements_insensitive : keeps.

Ltac profile_prim := split; reflexivity.

Ltac profile_tac :=
  keeps_with ltac:(exact profile_refl) ltac:(exact profile_trans) ltac:(profile_prim).

Section ProfileFirstProgram.

Context {P : Platform}.

Lemma profile_fetchLatest (now : Z) (pid : option string) :
  keeps same_profile (PatientCache.fetchLatest now pid).
Proof.
  unfold PatientCache.fetchLatest, PatientCache.storeMeasurement,
    PatientCache.publishMeasurement, readMeasurementsFile, writeMeasurementsFile,
    parseLibreTimestamp, toISOString.
  profile_tac.
Qed.

Lemma measurements_fetchLatest (now : Z) (pid : option string) :
  keeps_unless quiet_measurements (fun o : option Z => o <> None)
    (PatientCache.fetchLatest now pid).
Proof.
  unfold PatientCache.fetchLatest.
  apply (unless_bind quiet_measurements); [ins_tac | intros [cgm |]];
    [| apply (unless_keeps quiet_measurements); ins_tac].
  destruct (negb (strict_eq (graph_status cgm) 0));
    [apply (unless_keeps quiet_measurements); ins_tac |].
  destruct (latest_of (graph_data cgm)) as [latest |];
    [| apply (unless_keeps quiet_measurements); ins_tac].
  cbn zeta.
  apply (unless_bind quiet_measurements); [ins_tac | intros parsedDate].
  apply (unless_bind quiet_measurements); [ins_tac | intros isoStamp].
  intros w0. left. exists (Some isoStamp). split; [| discriminate].
  rewrite (bind_Returned _ _ _ _ _ (store_cache_eq now isoStamp latest w0)).
  reflexivity.
Qed.

(** X15.  In the caching revision a cycle that finds session and patient in
    the cache publishes the patient of the cache (names and id) before it
    asks for the graph, so the patient route answers 200 with it whatever
    becomes of the cycle; the measurement log and the two published
    measurements are replaced only by a cycle that returns a stamp. *)
Theorem caching_cycle_publishes_patient_first (fuel : nat) (now : Z) (c : CacheObj)
    (w : World) :
  has_patient c w ->
  let run := PatientCache.fetchAndStoreMeasurement fuel now w in
  startHttpsServer patient_info (memoryData (snd run))
  = {| reply_status := 200;
       reply_json := PatientJson {| info_firstName := cache_firstName c;
                                    info_lastName := cache_lastName c;
                                    info_patientId := cache_patientId c |} |}
  /\ ((forall T, fst run <> Returned (Some T)) ->
      measurementsFile (snd run) = measurementsFile w
      /\ startHttpsServer measurement_mgdl (memoryData (snd run))
         = startHttpsServer measurement_mgdl (memoryData w)
      /\ startHttpsServer measurement_mmol (memoryData (snd run))
         = startHttpsServer measurement_mmol (memoryData w)).
Proof.
  intros Hp run. subst run. rewrite (cycle_from_cache fuel now c w Hp).
  match goal with
  | |- context [PatientCache.fetchLatest now _ ?x] => set (w1 := x)
  end.
  split.
  - destruct (profile_fetchLatest now (cache_patientId c) w1) as [Hpat _].
    unfold startHttpsServer. rewrite Hpat. reflexivity.
  - intros Hfail.
    destruct (measurements_fetchLatest now (cache_patientId c) w1)
      as [(x & Hx & Hgood) | (Hlog & Hmg & Hmm)].
    + exfalso. destruct x as [T |]; [apply (Hfail T); exact Hx | apply Hgood; reflexivity].
    + split; [rewrite Hlog; reflexivity |].
      unfold startHttpsServer. rewrite Hmg, Hmm. split; reflexivity.
Qed.

End ProfileFirstProgram.

Lemma caching_cycle_publishes_patient_first_witness :
  reply_status
    (startHttpsServer patient_info
       (memoryData (snd (PatientCache.fetchAndStoreMeasurement 1 (Demo.t_latest + 1000)
                           (Lab.patient_cached Lab.iso_reading)))))
  = 200
  /\ reply_status
       (startHttpsServer measurement_mgdl
          (memoryData (snd (PatientCache.fetchAndStoreMeasurement 1 (Demo.t_latest + 1000)
                              (Lab.patient_cached Lab.iso_reading)))))
     = 404.
Proof.
  assert (Hp : has_patient (with_patient Demo.session_cache Demo.patient)
                 (Lab.patient_cached Lab.iso_reading)).
  { split; [reflexivity |]. repeat split. }
  destruct (caching_cycle_publishes_patient_first 1 (Demo.t_latest + 1000) _ _ Hp)
    as [Hpat Hrest].
  split.
  - rewrite Hpat. reflexivity.
  - assert (Hfail : forall T,
               fst (PatientCache.fetchAndStoreMeasurement 1 (Demo.t_latest + 1000)
                      (Lab.patient_cached Lab.iso_reading)) <> Returned (Some T))
      by (intros T; discriminate).
    destruct (Hrest Hfail) as (_ & Hmg & _). rewrite Hmg. reflexivity.
Defined.

(** ** The upstream timestamp *)

Section SplitProperties.

Lemma split_nonempty (sep : ascii) (s : string) : split sep s <> [].
Proof.
  destruct s as [| c rest]; simpl; [discriminate |].
  destruct (Ascii.eqb c sep); [discriminate |].
  destruct (split sep rest); discriminate.
Qed.

Lemma length_split (sep : ascii) (s : string) :
  length (split sep s) = S (occurrences sep s).
Proof.
  induction s as [| c rest IH]; simpl; [reflexivity |].
  destruct (Ascii.eqb c sep); simpl; [rewrite IH; reflexivity |].
  destruct (split sep rest) as [| h t] eqn:E; [exfalso; apply (split_nonempty _ _ E) |].
  simpl in IH |- *. exact IH.
Qed.

Lemma split_whole (sep : ascii) (s : string) :
  all_chars (fun c => negb (Ascii.eqb c sep)) s = true -> split sep s = [s].
Proof.
  induction s as [| c rest IH]; simpl; [reflexivity |].
  intros H. apply andb_prop in H. destruct H as [Hc Hrest].
  apply negb_true_iff in Hc. rewrite Hc, (IH Hrest). reflexivity.
Qed.

Lemma split_app (sep : ascii) (s rest : string) :
  all_chars (fun c => negb (Ascii.eqb c sep)) s = true ->
  split sep (s ++ String sep rest) = s :: split sep rest.
Proof.
  induction s as [| c s' IH]; simpl.
  - intros _. rewrite Ascii.eqb_refl. reflexivity.
  - intros H. apply andb_prop in H. destruct H as [Hc Hs].
    apply negb_true_iff in Hc. rewrite Hc, (IH Hs). reflexivity.
Qed.

Lemma append_sep_assoc (a b rest : string) (sep : ascii) :
  ((a ++ String sep b) ++ rest)%string = (a ++ String sep (b ++ rest))%string.
Proof. induction a as [| x a IH]; simpl; [reflexivity | rewrite IH; reflexivity]. Qed.

Lemma all_chars_app (f : ascii -> bool) (s t : string) :
  all_chars f (s ++ t) = all_chars f s && all_chars f t.
Proof.
  induction s as [| c s' IH]; simpl; [reflexivity |].
  rewrite IH, andb_assoc. reflexivity.
Qed.

Lemma all_chars_weaken (f g : ascii -> bool) (s : string) :
  (forall c, f c = true -> g c = true) ->
  all_chars f s = true -> all_chars g s = true.
Proof.
  intros Hfg. induction s as [| c s' IH]; simpl; [reflexivity |].
  intros H. apply andb_prop in H. destruct H as [Hc Hs].
  rewrite (Hfg c Hc), (IH Hs). reflexivity.
Qed.

Lemma digit_is_no_separator (sep c : ascii) :
  is_digit sep = false -> is_digit c = true -> negb (Ascii.eqb c sep) = true.
Proof.
  intros Hsep Hc. apply negb_true_iff. apply Ascii.eqb_neq. intros E. subst c.
  congruence.
Qed.

End SplitProperties.

Section Numerals.

Lemma numeral_digits (d : Decimal.uint) :
  all_chars is_digit (NilEmpty.string_of_uint d) = true.
Proof. induction d; simpl; try reflexivity; exact IHd. Qed.

Lemma read_digits_numeral (d : Decimal.uint) :
  forall (rest : string) (acc : Z) (seen : bool),
    read_digits (NilEmpty.string_of_uint d ++ rest) acc seen
    = read_digits rest (uint_value d acc)
        match d with Decimal.Nil => seen | _ => true end.
Proof.
  induction d; intros rest acc seen; simpl; try reflexivity;
    (rewrite IHd; destruct d; reflexivity).
Qed.

Lemma uint_value_acc (d : Decimal.uint) :
  forall acc : positive, uint_value d (Z.pos acc) = Z.pos (Pos.of_uint_acc d acc).
Proof.
  induction d; intros acc; cbn [uint_value Pos.of_uint_acc]; try reflexivity;
    (rewrite <- IHd; f_equal; lia).
Qed.

Lemma uint_value_of_uint (d : Decimal.uint) : uint_value d 0 = Z.of_N (Pos.of_uint d).
Proof.
  induction d; cbn [uint_value Pos.of_uint]; try reflexivity; try exact IHd;
    (cbn [Z.of_N]; rewrite <- uint_value_acc; reflexivity).
Qed.

(** The decimal numeral of a natural number, as [show_Z] prints it. *)
Lemma show_Z_numeral (z : Z) :
  0 <= z ->
  exists d, d <> Decimal.Nil /\ show_Z z = NilEmpty.string_of_uint d
            /\ uint_value d 0 = z.
Proof.
  intros Hz. destruct z as [| p | p]; [| | lia].
  - exists (Decimal.D0 Decimal.Nil). split; [discriminate |]. split; reflexivity.
  - exists (Pos.to_uint p). split; [apply Unsigned.to_uint_nonnil |]. split.
    + unfold show_Z. simpl. unfold NilZero.string_of_uint.
      pose proof (Unsigned.to_uint_nonnil p) as Hn.
      destruct (Pos.to_uint p); try reflexivity. contradiction.
    + rewrite uint_value_of_uint, Unsigned.of_to. reflexivity.
Qed.

Lemma pad2_numeral (z : Z) :
  0 <= z ->
  exists d, d <> Decimal.Nil /\ pad2 z = NilEmpty.string_of_uint d
            /\ uint_value d 0 = z.
Proof.
  intros Hz. destruct (show_Z_numeral z Hz) as (d & Hd & Hs & Hv).
  unfold pad2. destruct (z <? 10).
  - exists (Decimal.D0 d). split; [discriminate |]. split; [rewrite Hs; reflexivity |].
    exact Hv.
  - exists d. split; [exact Hd |]. split; assumption.
Qed.

Lemma numeral_head (d : Decimal.uint) :
  d <> Decimal.Nil ->
  exists c s, NilEmpty.string_of_uint d = String c s /\ is_digit c = true.
Proof.
  intros Hd. destruct d; try contradiction; simpl;
    eexists _, _; (split; [reflexivity | reflexivity]).
Qed.

Lemma digit_is_no_space (c : ascii) : is_digit c = true -> is_space c = false.
Proof.
  destruct c as [[] [] [] [] [] [] [] []]; intros H; try reflexivity; discriminate H.
Qed.

Lemma digit_is_no_sign (c : ascii) (s : string) :
  is_digit c = true -> read_sign (String c s) = (1, String c s).
Proof.
  destruct c as [[] [] [] [] [] [] [] []]; intros H; try reflexivity; discriminate H.
Qed.

Lemma read_digits_whole (d : Decimal.uint) :
  d <> Decimal.Nil ->
  read_digits (NilEmpty.string_of_uint d) 0 false = (uint_value d 0, true, EmptyString).
Proof.
  intros Hd.
  assert (E : NilEmpty.string_of_uint d = (NilEmpty.string_of_uint d ++ EmptyString)%string).
  { generalize (NilEmpty.string_of_uint d). intros s.
    induction s as [| c s IH]; simpl; [reflexivity | rewrite <- IH; reflexivity]. }
  rewrite E, read_digits_numeral. simpl. destruct d; try reflexivity. contradiction.
Qed.

Lemma parseInt10_numeral (d : Decimal.uint) :
  d <> Decimal.Nil ->
  parseInt10 (Some (NilEmpty.string_of_uint d)) = Some (uint_value d 0).
Proof.
  intros Hd. unfold parseInt10.
  destruct (numeral_head d Hd) as (c & s & Hs & Hc).
  pose proof (read_digits_whole d Hd) as Hread. rewrite Hs in Hread |- *.
  simpl skip_spaces. rewrite (digit_is_no_space c Hc), (digit_is_no_sign c s Hc), Hread.
  cbv beta iota zeta. rewrite Z.mul_1_l. reflexivity.
Qed.

Lemma toNumber_numeral (d : Decimal.uint) :
  d <> Decimal.Nil ->
  toNumber (Some (NilEmpty.string_of_uint d)) = Some (uint_value d 0).
Proof.
  intros Hd. unfold toNumber.
  destruct (numeral_head d Hd) as (c & s & Hs & Hc).
  pose proof (read_digits_whole d Hd) as Hread. rewrite Hs in Hread |- *.
  simpl skip_spaces. rewrite (digit_is_no_space c Hc), (digit_is_no_sign c s Hc), Hread.
  cbv beta iota zeta. cbn [skip_spaces]. rewrite Z.mul_1_l. reflexivity.
Qed.

End Numerals.

Section TimestampProperties.

Context {P : Platform}.

(** X16.  [parseLibreTimestamp] throws a [TypeError] on a text with fewer
    than three parts between single spaces, that is with fewer than two
    spaces, and returns a date, valid or not, on any other text; it changes
    nothing in the process. *)
Theorem parseLibreTimestamp_needs_three_parts (ts : string) (w : World) :
  ((occurrences " " ts < 2)%nat -> parseLibreTimestamp ts w = (Thrown TypeError, w))
  /\ ((2 <= occurrences " " ts)%nat ->
      exists d, parseLibreTimestamp ts w = (Returned d, w)).
Proof.
  pose proof (length_split " " ts) as Hlen. unfold parseLibreTimestamp. cbv zeta.
  destruct (split " " ts) as [| datePart [| timePart [| ampm rest]]]; simpl in Hlen |- *.
  - discriminate Hlen.
  - split; [reflexivity | lia].
  - split; [reflexivity | lia].
  - split; [lia |]. intros _. eexists. reflexivity.
Qed.

(** X17.  On the upstream format "M/D/YYYY h:mm:ss AM" or "... PM"
    [parseLibreTimestamp] returns the local date of these components, the
    hour taken to the 24-hour clock (12 AM is 0 h, 12 PM is 12 h, the other
    PM hours are 12 more); leading zeros of the minutes and seconds are
    read as decimal. *)
Theorem parseLibreTimestamp_reads_the_format
    (month day year hour12 minute second : Z) (pm : bool) (w : World) :
  0 <= month -> 0 <= day -> 0 <= year -> 0 <= hour12 -> 0 <= minute -> 0 <= second ->
  parseLibreTimestamp (libreTimestamp month day year hour12 minute second pm) w
  = (Returned (Date_of_components tz (Some year) (Some (month - 1)) (Some day)
                 (Some (hour24 hour12 pm)) (Some minute) (Some second)), w).
Proof.
  intros HM HD HY Hh Hm Hs.
  destruct (show_Z_numeral month HM) as (dM & NM & EM & VM).
  destruct (show_Z_numeral day HD) as (dD & ND & ED & VD).
  destruct (show_Z_numeral year HY) as (dY & NY & EY & VY).
  destruct (show_Z_numeral hour12 Hh) as (dh & Nh & Eh & Vh).
  destruct (pad2_numeral minute Hm) as (dm & Nm & Em & Vm).
  destruct (pad2_numeral second Hs) as (ds & Ns & Es & Vs).
  unfold libreTimestamp. rewrite EM, ED, EY, Eh, Em, Es.
  set (sM := NilEmpty.string_of_uint dM). set (sD := NilEmpty.string_of_uint dD).
  set (sY := NilEmpty.string_of_uint dY). set (sh := NilEmpty.string_of_uint dh).
  set (sm := NilEmpty.string_of_uint dm). set (ss := NilEmpty.string_of_uint ds).
  assert (Hno : forall sep d, is_digit sep = false ->
                  all_chars (fun c => negb (Ascii.eqb c sep))
                    (NilEmpty.string_of_uint d) = true).
  { intros sep d Hsep. apply (all_chars_weaken is_digit); [| apply numeral_digits].
    intros c. apply digit_is_no_separator. exact Hsep. }
  assert (Hparts :
            split " " (sM ++ "/" ++ sD ++ "/" ++ sY ++ " " ++ sh ++ ":" ++ sm ++ ":" ++ ss
                       ++ " " ++ (if pm then "PM" else "AM"))%string
            = [(sM ++ "/" ++ sD ++ "/" ++ sY)%string; (sh ++ ":" ++ sm ++ ":" ++ ss)%string;
               if pm then "PM" else "AM"]%string).
  { change (sM ++ "/" ++ sD ++ "/" ++ sY ++ " " ++ sh ++ ":" ++ sm ++ ":" ++ ss
             ++ " " ++ (if pm then "PM" else "AM"))%string
      with (sM ++ String "/" (sD ++ String "/" (sY ++ String " " (sh ++ String ":"
              (sm ++ String ":" (ss ++ String " " (if pm then "PM" else "AM")))))))%string.
    assert (A : forall a b c rest : string,
               (a ++ String "/" (b ++ String "/" (c ++ rest)))%string
               = ((a ++ String "/" (b ++ String "/" c)) ++ rest)%string)
      by (intros a b c rest; rewrite !append_sep_assoc; reflexivity).
    assert (B : forall a b c rest : string,
               (a ++ String ":" (b ++ String ":" (c ++ rest)))%string
               = ((a ++ String ":" (b ++ String ":" c)) ++ rest)%string)
      by (intros a b c rest; rewrite !append_sep_assoc; reflexivity).
    rewrite A, split_app.
    - rewrite B, split_app.
      + rewrite split_whole; [reflexivity | destruct pm; reflexivity].
      + unfold sh, sm, ss. repeat (rewrite all_chars_app; cbn [all_chars]).
        rewrite !Hno by reflexivity. reflexivity.
    - unfold sM, sD, sY. repeat (rewrite all_chars_app; cbn [all_chars]).
      rewrite !Hno by reflexivity. reflexivity. }
  assert (Hdate : split "/" (sM ++ "/" ++ sD ++ "/" ++ sY)%string = [sM; sD; sY]).
  { change (sM ++ "/" ++ sD ++ "/" ++ sY)%string
      with (sM ++ String "/" (sD ++ String "/" sY))%string.
    unfold sM, sD, sY.
    rewrite split_app by (apply Hno; reflexivity).
    rewrite split_app by (apply Hno; reflexivity).
    rewrite split_whole by (apply Hno; reflexivity). reflexivity. }
  assert (Htime : split ":" (sh ++ ":" ++ sm ++ ":" ++ ss)%string = [sh; sm; ss]).
  { change (sh ++ ":" ++ sm ++ ":" ++ ss)%string
      with (sh ++ String ":" (sm ++ String ":" ss))%string.
    unfold sh, sm, ss.
    rewrite split_app by (apply Hno; reflexivity).
    rewrite split_app by (apply Hno; reflexivity).
    rewrite split_whole by (apply Hno; reflexivity). reflexivity. }
  unfold parseLibreTimestamp. cbv zeta. rewrite Hparts.
  cbn [nth_error]. rewrite Hdate, Htime. cbn [nth_error].
  unfold sM, sD, sY, sh, sm, ss.
  rewrite !parseInt10_numeral, !toNumber_numeral by assumption.
  rewrite VM, VD, VY, Vh, Vm, Vs. cbn [option_map].
  unfold hour24. destruct pm.
  - change (toUpperCase "PM" =? "PM")%string with true.
    change (toUpperCase "PM" =? "AM")%string with false.
    cbn [andb]. destruct (hour12 <? 12); reflexivity.
  - change (toUpperCase "AM" =? "PM")%string with false.
    change (toUpperCase "AM" =? "AM")%string with true.
    cbn [andb]. destruct (hour12 =? 12); reflexivity.
Qed.

End TimestampProperties.

Lemma parseLibreTimestamp_needs_three_parts_witness :
  fst (parseLibreTimestamp "2025-01-05T22:33:54" Demo.logged_in) = Thrown TypeError
  /\ fst (parseLibreTimestamp "Jan/5/2025 10:33:54 PM" Demo.logged_in) = Returned None.
Proof.
  split.
  - destruct (parseLibreTimestamp_needs_three_parts "2025-01-05T22:33:54" Demo.logged_in)
      as [H _].
    rewrite H; [reflexivity | simpl; lia].
  - destruct (parseLibreTimestamp_needs_three_parts "Jan/5/2025 10:33:54 PM"
                Demo.logged_in) as [_ H].
    destruct H as [d Hd]; [simpl; lia |].
    rewrite Hd. simpl. f_equal.
    assert (E : fst (parseLibreTimestamp "Jan/5/2025 10:33:54 PM" Demo.logged_in)
                = Returned None) by reflexivity.
    rewrite Hd in E. simpl in E. inversion E. reflexivity.
Defined.

Lemma parseLibreTimestamp_reads_the_format_witness :
  libreTimestamp 1 5 2025 10 33 54 true = "1/5/2025 10:33:54 PM"%string
  /\ fst (parseLibreTimestamp "1/5/2025 10:33:54 PM" Demo.logged_in)
     = Returned (Some Demo.t_latest).
Proof.
  split; [reflexivity |].
  change "1/5/2025 10:33:54 PM"%string with (libreTimestamp 1 5 2025 10 33 54 true).
  rewrite (parseLibreTimestamp_reads_the_format 1 5 2025 10 33 54 true Demo.logged_in);
    try lia.
  reflexivity.
Defined.

(** ** The sensor route *)

Section SensorRoute.

Context {P : Platform}.


End SensorRoute.

(** ** The store step, by calendar dates *)

Section DateStrings.

Context {P : Platform}.

Lemma show_Z_inj (a b : Z) : show_Z a = show_Z b -> a = b.
Proof.
  unfold show_Z. intros H.
  assert (Hread : forall z, NilZero.int_of_string (NilZero.string_of_int (Z.to_int z))
                            = Some (Z.to_int z)).
  { intros z. apply NilZero.isi.
    - destruct z as [| p | p]; simpl; try discriminate.
      intros E. inversion E as [E']. apply (Unsigned.to_uint_nonnil p). exact E'.
    - destruct z as [| p | p]; simpl; try discriminate.
      intros E. inversion E as [E']. apply (Unsigned.to_uint_nonnil p). exact E'. }
  pose proof (Hread a) as Ha. rewrite H, Hread in Ha. inversion Ha as [E].
  apply DecimalZ.to_int_inj. symmetry. exact E.
Qed.

Lemma show_Z_no_separator (z : Z) :
  all_chars (fun c => negb (Ascii.eqb c "/")) (show_Z z) = true.
Proof.
  assert (Hnum : forall d, all_chars (fun c => negb (Ascii.eqb c "/"))
                             (NilZero.string_of_uint d) = true).
  { intros d. unfold NilZero.string_of_uint.
    destruct d; try reflexivity;
      (apply (all_chars_weaken is_digit); [| apply numeral_digits]);
      intros c Hc; (apply digit_is_no_separator; [reflexivity | exact Hc]). }
  unfold show_Z. destruct (Z.to_int z) as [d | d]; simpl.
  - apply Hnum.
  - apply Hnum.
Qed.

Lemma date_parts (m d y : Z) :
  split "/" (show_Z m ++ "/" ++ show_Z d ++ "/" ++ show_Z y)
  = [show_Z m; show_Z d; show_Z y].
Proof.
  change (show_Z m ++ "/" ++ show_Z d ++ "/" ++ show_Z y)%string
    with (show_Z m ++ String "/" (show_Z d ++ String "/" (show_Z y)))%string.
  rewrite (split_app _ _ _ (show_Z_no_separator m)).
  rewrite (split_app _ _ _ (show_Z_no_separator d)).
  rewrite (split_whole _ _ (show_Z_no_separator y)). reflexivity.
Qed.

(** Two instants have the same date string exactly when they fall on the
    same local calendar day. *)
Lemma same_date_string (t t' : Z) :
  (toLocaleDateString tz (Some t) =? toLocaleDateString tz (Some t'))%string
  = same_date (local_date t) (local_date t').
Proof.
  unfold toLocaleDateString, local_date.
  destruct (civil_from_days ((t + tz t true) / msPerDay)) as [[y m] d].
  destruct (civil_from_days ((t' + tz t' true) / msPerDay)) as [[y' m'] d'].
  unfold same_date.
  destruct (String.eqb_spec (show_Z m ++ "/" ++ show_Z d ++ "/" ++ show_Z y)
              (show_Z m' ++ "/" ++ show_Z d' ++ "/" ++ show_Z y')) as [E | N].
  - apply (f_equal (split "/")) in E. rewrite !date_parts in E.
    inversion E as [[Em Ed Ey]].
    apply show_Z_inj in Em, Ed, Ey. subst.
    rewrite !Z.eqb_refl. reflexivity.
  - symmetry. apply not_true_is_false. intros H. apply N.
    apply andb_prop in H. destruct H as [H Hd]. apply andb_prop in H.
    destruct H as [Hy Hm].
    apply Z.eqb_eq in Hy, Hm, Hd. subst. reflexivity.
Qed.

(** The purge of the source keeps the today-filtered log. *)
Lemma purge_is_todays_items (now : Z) (arr : list Measurement) :
  purgeOldMeasurements now arr = todays_items now arr.
Proof.
  unfold purgeOldMeasurements, todays_items. cbv zeta.
  apply filter_ext. intros m.
  destruct (m_Timestamp m) as [t |].
  - apply same_date_string.
  - apply String.eqb_neq. intros E. apply (today_is_a_date now). symmetry. exact E.
Qed.

End DateStrings.

Section StoreByDate.

Context {P : Platform}.

Lemma keeps_step {A : Type} (R : World -> World -> Prop) (c : M A)
    (w w' : World) (x : A) :
  keeps R c -> c w = (Returned x, w') -> R w w'.
Proof. intros Hk E. specialize (Hk w). rewrite E in Hk. exact Hk. Qed.

(** What a cycle that returns a stamp has gone through: the store step on
    the reading, with the log as the cycle found it, and then the
    publication of what the store step returned. *)
Lemma cycle_reaches_store (fuel : nat) (now : Z) (w w' : World) (T : Z) :
  MainServer.fetchAndStoreMeasurement fuel now w = (Returned (Some T), w') ->
  exists c reading w3 glyph w4,
    persistedLog w3 = persistedLog w
    /\ MainServer.storeMeasurement now (Some T) T reading w3 = (Returned glyph, w4)
    /\ MainServer.publish c reading T glyph w4 = (Returned tt, w').
Proof.
  unfold MainServer.fetchAndStoreMeasurement. intros H.
  bind_inv H. rewrite bind_modify in H. bind_inv H.
  destruct x0 as [resp |]; [| discriminate].
  destruct (negb (strict_eq (conn_status resp) 0)); [discriminate |].
  destruct (conn_data resp) as [[| c others] |]; try discriminate.
  bind_inv H.
  destruct x0 as [cgm |]; [| discriminate].
  destruct (negb (strict_eq (graph_status cgm) 0)); [discriminate |].
  destruct (latest_of (graph_data cgm)) as [latest |]; [| discriminate].
  cbn zeta in H. bind_inv H. bind_inv H. bind_inv H. bind_inv H.
  inversion H; subst.
  destruct (toISOString_Returned _ _ _ _ E3) as [Hd Hw]. subst.
  destruct x3.
  exists c, latest, w3, x2, w5. split; [| split; assumption].
  pose proof (keeps_step quiet_store _ _ _ _ (quiet_ensureSession fuel) E) as [H0 _].
  pose proof (keeps_step quiet_store _ _ _ _ (ins_send quiet_store _ _ _ _ _) E0)
    as [H1 _].
  pose proof (keeps_step quiet_store _ _ _ _ (ins_send quiet_store _ _ _ _ _) E1)
    as [H2 _].
  pose proof (keeps_step quiet_store _ _ _ _ (ins_parseLibreTimestamp quiet_store _) E2)
    as [H3 _].
  unfold persistedLog. rewrite H3, H2, H1. simpl. rewrite H0. reflexivity.
Qed.

Lemma same_date_true (d d' : Z * Z * Z) : same_date d d' = true <-> d = d'.
Proof.
  destruct d as [[y m] dd], d' as [[y' m'] dd']. unfold same_date.
  rewrite !andb_true_iff, !Z.eqb_eq. split.
  - intros [[Hy Hm] Hd]. subst. reflexivity.
  - intros H. inversion H. repeat split.
Qed.

Lemma todays_items_In (now : Z) (arr : list Measurement) (m : Measurement) :
  In m (todays_items now arr)
  <-> In m arr /\ exists t, m_Timestamp m = Some t /\ local_date t = local_date now.
Proof.
  unfold todays_items. rewrite filter_In. split.
  - intros [Hin H]. split; [exact Hin |].
    destruct (m_Timestamp m) as [t |]; [| discriminate].
    exists t. split; [reflexivity | apply same_date_true; exact H].
  - intros [Hin (t & Ht & Hd)]. split; [exact Hin |].
    rewrite Ht. apply same_date_true. exact Hd.
Qed.


Lemma stored_classifications (now : Z) (parsedDate : JSDate) (isoStamp : Z)
    (latest : GlucoseMeasurement) (w : World) :
  classifications (events (stored now parsedDate isoStamp latest w))
  = classifications (events w)
    ++ match MainServer.sinceLastArrow parsedDate latest
               (todays_items now (persistedLog w)) with
       | Some n => [n]
       | None => []
       end.
Proof.
  unfold stored. rewrite purge_is_todays_items.
  destruct (MainServer.sinceLastArrow parsedDate latest
              (todays_items now (persistedLog w))) as [n |]; simpl.
  - rewrite classifications_app, classifications_warned. reflexivity.
  - rewrite classifications_warned, app_nil_r. reflexivity.
Qed.


(** C7, as amended.  The since-last trend of a reading at instant [T] is
    classified when the today-filtered log is non-empty and [T] is at most
    24 minutes later than the instant [p] of its last item.  The test is on
    the difference [T - p] with its sign, so a reading that is older than
    the last item, by any amount, is classified as well.  Then the arrow of
    the difference of the values is logged and its glyph returned.  When
    the log is empty or [T] is more than 24 minutes later than [p], the
    result is "N/A" and no classification is carried out.  A cycle that
    returns the stamp [T] has run the store step on the log it found, and
    both published views carry what that step returned. *)
Theorem sinceLast_only_when_fresh (now T : Z) (latest : GlucoseMeasurement) (w : World) :
  let run := MainServer.storeMeasurement now (Some T) T latest w in
  let kept := todays_items now (persistedLog w) in
  (forall prev p,
     last_item kept = Some prev -> m_Timestamp prev = Some p ->
     T - p <= 24 * 60 * 1000 ->
     let arrowNum :=
       computeSinceLastTrendArrowNumber (ValueInMgPerDl latest - m_ValueInMgPerDl prev) in
     fst run = Returned (arrowToEmoji arrowNum)
     /\ classifications (events (snd run)) = classifications (events w) ++ [arrowNum])
  /\ (kept = []
      \/ (exists prev p, last_item kept = Some prev /\ m_Timestamp prev = Some p
                         /\ 24 * 60 * 1000 < T - p) ->
      fst run = Returned "N/A"
      /\ classifications (events (snd run)) = classifications (events w))
  /\ (classifications (events (snd run)) <> classifications (events w) ->
      exists prev p, last_item kept = Some prev /\ m_Timestamp prev = Some p
                     /\ T - p <= 24 * 60 * 1000)
  /\ (forall fuel w0 w',
        MainServer.fetchAndStoreMeasurement fuel now w0 = (Returned (Some T), w') ->
        exists reading,
          let sinceLast :=
            match MainServer.sinceLastArrow (Some T) reading
                    (todays_items now (persistedLog w0)) with
            | Some arrowNum => arrowToEmoji arrowNum
            | None => "N/A"
            end in
          (exists w3,
              persistedLog w3 = persistedLog w0
              /\ fst (MainServer.storeMeasurement now (Some T) T reading w3)
                 = Returned sinceLast)
          /\ option_map view_Value (measurementMgdl (memoryData w'))
             = Some (ValueInMgPerDl reading)
          /\ option_map SinceLastTrendArrow (measurementMgdl (memoryData w'))
             = Some (Some sinceLast)
          /\ option_map SinceLastTrendArrow (measurementMmol (memoryData w'))
             = Some (Some sinceLast)).
Proof.
  cbn zeta. rewrite storeMeasurement_eq. simpl fst. simpl snd.
  rewrite purge_is_todays_items.
  set (kept := todays_items now (persistedLog w)).
  assert (Hyes : forall prev p,
             last_item kept = Some prev -> m_Timestamp prev = Some p ->
             T - p <= 24 * 60 * 1000 ->
             MainServer.sinceLastArrow (Some T) latest kept
             = Some (computeSinceLastTrendArrowNumber
                       (ValueInMgPerDl latest - m_ValueInMgPerDl prev))).
  { intros prev p Hlast Hp Hgap.
    unfold MainServer.sinceLastArrow, MainServer.diffMinutes.
    rewrite Hlast, Hp, within_24_minutes.
    destruct (Z.leb_spec (T - p) (24 * 60 * 1000)); [reflexivity | lia]. }
  assert (Hno : kept = []
                \/ (exists prev p, last_item kept = Some prev /\ m_Timestamp prev = Some p
                                   /\ 24 * 60 * 1000 < T - p) ->
                MainServer.sinceLastArrow (Some T) latest kept = None).
  { intros [Hnil | (prev & p & Hlast & Hp & Hgap)].
    - rewrite Hnil. reflexivity.
    - unfold MainServer.sinceLastArrow, MainServer.diffMinutes.
      rewrite Hlast, Hp, within_24_minutes.
      destruct (Z.leb_spec (T - p) (24 * 60 * 1000)); [lia | reflexivity]. }
  pose proof (stored_classifications now (Some T) T latest w) as Hevents.
  fold kept in Hevents.
  split; [| split; [| split]].
  - intros prev p Hlast Hp Hgap. rewrite Hevents, (Hyes prev p Hlast Hp Hgap).
    split; reflexivity.
  - intros H. rewrite Hevents, (Hno H), app_nil_r. split; reflexivity.
  - intros Hchanged.
    destruct (last_item kept) as [prev |] eqn:Hlast.
    + destruct (proj1 (todays_items_In now (persistedLog w) prev)
                  (last_item_In _ _ Hlast)) as [_ (p & Hp & _)].
      exists prev, p. split; [reflexivity |]. split; [exact Hp |].
      destruct (Z.le_gt_cases (T - p) (24 * 60 * 1000)) as [Hle | Hgt]; [exact Hle |].
      exfalso. apply Hchanged. rewrite Hevents, Hno.
      * apply app_nil_r.
      * right. exists prev, p. repeat split; [exact Hp | lia].
    + exfalso. apply Hchanged. rewrite Hevents, Hno.
      * apply app_nil_r.
      * left. apply last_item_nil. exact Hlast.
  - intros fuel w0 w' Hcycle.
    destruct (cycle_reaches_store fuel now w0 w' T Hcycle)
      as (c & reading & w3 & glyph & w4 & Hlog & Hstore & Hpublish).
    rewrite storeMeasurement_eq, purge_is_todays_items, Hlog in Hstore.
    inversion Hstore as [[Hglyph Hw4]].
    exists reading. split.
    + exists w3. split; [exact Hlog |].
      rewrite storeMeasurement_eq, purge_is_todays_items, Hlog. reflexivity.
    + unfold MainServer.publish in Hpublish. inversion Hpublish as [Hw'].
      simpl. rewrite Hglyph. repeat split.
Qed.

End StoreByDate.


Lemma sinceLast_only_when_fresh_witness :
  fst (MainServer.storeMeasurement (P := Demo.platform) (Demo.t_latest + 61000)
         (Some (Demo.t_latest + 60000)) (Demo.t_latest + 60000) Demo.later
         Demo.stored_once)
  = Returned (arrowToEmoji 4)
  /\ fst (MainServer.storeMeasurement (P := Demo.platform) (Demo.t_latest + 1501000)
            (Some (Demo.t_latest + 1500000)) (Demo.t_latest + 1500000) Demo.later
            Demo.stored_once)
     = Returned "N/A"%string
  /\ fst (MainServer.storeMeasurement (P := Demo.platform) (Demo.t_latest + 1000)
            (Some Demo.t_latest) Demo.t_latest Demo.latest Demo.logged_in)
     = Returned "N/A"%string
  /\ exists reading,
       option_map view_Value
         (measurementMgdl
            (memoryData
               (snd (MainServer.fetchAndStoreMeasurement (P := Demo.platform) 1
                       (Demo.t_latest + 61000) Demo.stored_once))))
       = Some (ValueInMgPerDl reading)
       /\ option_map SinceLastTrendArrow
            (measurementMmol
               (memoryData
                  (snd (MainServer.fetchAndStoreMeasurement (P := Demo.platform) 1
                          (Demo.t_latest + 61000) Demo.stored_once))))
          = Some (Some match MainServer.sinceLastArrow (Some Demo.t_latest) reading
                               [item_of Demo.t_latest Demo.latest] with
                       | Some arrowNum => arrowToEmoji arrowNum
                       | None => "N/A"%string
                       end).
Proof.
  split; [| split; [| split]].
  - destruct (sinceLast_only_when_fresh (P := Demo.platform) (Demo.t_latest + 61000)
                (Demo.t_latest + 60000) Demo.later Demo.stored_once) as (Hfresh & _).
    destruct (Hfresh (item_of Demo.t_latest Demo.latest) Demo.t_latest) as [Hresult _].
    + reflexivity.
    + reflexivity.
    + unfold Demo.t_latest. lia.
    + exact Hresult.
  - destruct (sinceLast_only_when_fresh (P := Demo.platform) (Demo.t_latest + 1501000)
                (Demo.t_latest + 1500000) Demo.later Demo.stored_once) as (_ & Hstale & _).
    destruct Hstale as [Hresult _]; [| exact Hresult].
    right. exists (item_of Demo.t_latest Demo.latest), Demo.t_latest.
    split; [reflexivity |]. split; [reflexivity |]. unfold Demo.t_latest. lia.
  - destruct (sinceLast_only_when_fresh (P := Demo.platform) (Demo.t_latest + 1000)
                Demo.t_latest Demo.latest Demo.logged_in) as (_ & Hempty & _).
    destruct Hempty as [Hresult _]; [| exact Hresult].
    left. reflexivity.
  - destruct (sinceLast_only_when_fresh (P := Demo.platform) (Demo.t_latest + 61000)
                Demo.t_latest Demo.latest Demo.stored_once) as (_ & _ & _ & Hcycle).
    destruct (Hcycle 1%nat Demo.stored_once
                (snd (MainServer.fetchAndStoreMeasurement (P := Demo.platform) 1
                        (Demo.t_latest + 61000) Demo.stored_once)))
      as (reading & _ & Hvalue & _ & Hmmol); [reflexivity |].
    exists reading. split; [exact Hvalue | exact Hmmol].
Defined.

(** A reading one hour older than the last item of the log, which is far
    more than 24 minutes away from it, is classified all the same: the
    store step returns the glyph of arrow 1 and logs the classification,
    and the cycle publishes that glyph, not "N/A", in both views. *)
Lemma older_reading_is_classified :
  let now := Demo.t_latest + 3601000 in
  let T := Demo.t_latest in
  let run :=
    MainServer.storeMeasurement (P := Demo.platform) now (Some T) T Demo.latest
      Demo.logged_ahead in
  let cycle :=
    MainServer.fetchAndStoreMeasurement (P := Demo.platform) 1 now Demo.logged_ahead in
  purgeOldMeasurements (P := Demo.platform) now (persistedLog Demo.logged_ahead)
  = [Demo.ahead_item]
  /\ m_Timestamp Demo.ahead_item = Some (T + 3600000)
  /\ 24 * 60 * 1000 < Z.abs (T - (T + 3600000))
  /\ fst run = Returned (arrowToEmoji 1)
  /\ classifications (events (snd run)) = [1]
  /\ fst cycle = Returned (Some T)
  /\ option_map SinceLastTrendArrow (measurementMgdl (memoryData (snd cycle)))
     = Some (Some (arrowToEmoji 1))
  /\ option_map SinceLastTrendArrow (measurementMmol (memoryData (snd cycle)))
     = Some (Some (arrowToEmoji 1))
  /\ arrowToEmoji 1 <> "N/A"%string.
Proof.
  cbv zeta.
  split; [vm_compute; reflexivity |].
  split; [reflexivity |].
  split; [unfold Demo.t_latest; lia |].
  split; [vm_compute; reflexivity |].
  split; [vm_compute; reflexivity |].
  split; [vm_compute; reflexivity |].
  split; [vm_compute; reflexivity |].
  split; [vm_compute; reflexivity |].
  discriminate.
Qed.
